(** * MMC/SD-over-SPI block driver (hw/drivers/mmc/src/mmc.c)

    A shallow embedding of the driver: the command codec [send_mmc_cmd],
    the error classifier [mmc_error_by_status], the initialisation state
    machine [mmc_init] and the block transfer engine [mmc_read] and
    [mmc_write], over an explicit world that holds the two driver globals
    ([g_mmc_cfg], [g_block_buf]), the GPIO levels, the tick counter and
    the two directions of the SPI bus. *)

From Stdlib Require Import ZArith List Lia Bool.
Import ListNotations.
Open Scope Z_scope.

(** ** Machine integers *)

(** [uint8_t], [uint32_t] and [size_t] values are integers with the
    wrap-around written out.  [size_t] is taken 32 bits wide, as on the
    microcontrollers the driver targets. *)
Definition u8 (z : Z) : Z := z mod 2 ^ 8.
Definition u32 (z : Z) : Z := z mod 2 ^ 32.
Definition usize (z : Z) : Z := z mod 2 ^ 32.

(** C truth value of an integer expression. *)
Definition truthy (z : Z) : bool := negb (z =? 0).

(** [MIN(n, m)] *)
Definition MIN (n m : Z) : Z := if n <? m then n else m.

(** ** Constants of mmc.c *)

Definition CMD0 : Z := 0.
Definition CMD1 : Z := 1.
Definition CMD8 : Z := 8.
Definition CMD12 : Z := 12.
Definition CMD16 : Z := 16.
Definition CMD17 : Z := 17.
Definition CMD18 : Z := 18.
Definition CMD24 : Z := 24.
Definition CMD25 : Z := 25.
Definition CMD55 : Z := 55.
Definition CMD58 : Z := 58.
Definition ACMD41 : Z := 0x80 + 41.

Definition HCS : Z := Z.shiftl 1 30.

Definition R_IDLE : Z := 0x01.
Definition R_ERASE_RESET : Z := 0x02.
Definition R_ILLEGAL_COMMAND : Z := 0x04.
Definition R_CRC_ERROR : Z := 0x08.
Definition R_ERASE_ERROR : Z := 0x10.
Definition R_ADDR_ERROR : Z := 0x20.
Definition R_PARAM_ERROR : Z := 0x40.

Definition BLOCK_LEN : Z := 512.

(** The result codes of mmc.h.  The header is not part of the sources at
    hand, so the codes are kept symbolic: an enumeration, with [MMC_OK]
    the value 0 (the driver compares a status byte with it, and documents
    "0 on success, non-zero on failure").  [HAL_ERROR rc] is a non-zero
    code of the SPI layer that [mmc_init] hands back unchanged. *)
Inductive mmc_status : Type :=
| MMC_OK
| MMC_CARD_ERROR
| MMC_READ_ERROR
| MMC_WRITE_ERROR
| MMC_TIMEOUT
| MMC_PARAM_ERROR
| MMC_CRC_ERROR
| MMC_DEVICE_ERROR
| MMC_RESPONSE_ERROR
| MMC_VOLTAGE_ERROR
| HAL_ERROR (rc : Z).

(** ** Driver data *)

Inductive spi_data_order : Type := HAL_SPI_MSB_FIRST | HAL_SPI_LSB_FIRST.
Inductive spi_data_mode : Type :=
  HAL_SPI_MODE0 | HAL_SPI_MODE1 | HAL_SPI_MODE2 | HAL_SPI_MODE3.
Inductive spi_word_size : Type := HAL_SPI_WORD_SIZE_8BIT | HAL_SPI_WORD_SIZE_9BIT.

Record hal_spi_settings : Type := mk_settings {
  data_order : spi_data_order;
  data_mode : spi_data_mode;
  baudrate : Z;
  word_size : spi_word_size
}.

Definition mmc_settings : hal_spi_settings :=
  {| data_order := HAL_SPI_MSB_FIRST;
     data_mode := HAL_SPI_MODE0;
     baudrate := 100;
     word_size := HAL_SPI_WORD_SIZE_8BIT |}.

(** [struct mmc_cfg].  [spi_cfg] is an opaque pointer, kept as its address;
    [settings] is a pointer that is null until [mmc_init] sets it. *)
Record mmc_cfg : Type := mk_cfg {
  spi_num : Z;
  ss_pin : Z;
  spi_cfg : Z;
  settings : option hal_spi_settings
}.

(** ** The world

    - [g_mmc_cfg], [g_block_buf]: the driver's two globals;
    - [gpio]: the level of every pin;
    - [ticks]: the ticks that have passed, of which the timer service's
      counter shows the low 32 bits;
    - [miso]: what the bus answers, [miso n] being the value
      [hal_spi_tx_val] returns at the [n]-th exchange (a [uint16_t]);
    - [mosi]: every value handed to [hal_spi_tx_val] so far, oldest first;
    - [spi_init_rc], [spi_config_rc]: what [hal_spi_init] and
      [hal_spi_config] answer. *)
Record world : Type := mk_world {
  g_mmc_cfg : mmc_cfg;
  g_block_buf : list Z;
  gpio : Z -> Z;
  ticks : Z;
  miso : nat -> Z;
  mosi : list Z;
  spi_init_rc : Z;
  spi_config_rc : Z
}.

Definition with_cfg (c : mmc_cfg) (w : world) : world :=
  mk_world c (g_block_buf w) (gpio w) (ticks w) (miso w) (mosi w)
           (spi_init_rc w) (spi_config_rc w).
Definition with_block_buf (b : list Z) (w : world) : world :=
  mk_world (g_mmc_cfg w) b (gpio w) (ticks w) (miso w) (mosi w)
           (spi_init_rc w) (spi_config_rc w).
Definition with_gpio (g : Z -> Z) (w : world) : world :=
  mk_world (g_mmc_cfg w) (g_block_buf w) g (ticks w) (miso w) (mosi w)
           (spi_init_rc w) (spi_config_rc w).
Definition with_ticks (t : Z) (w : world) : world :=
  mk_world (g_mmc_cfg w) (g_block_buf w) (gpio w) t (miso w) (mosi w)
           (spi_init_rc w) (spi_config_rc w).
Definition with_mosi (m : list Z) (w : world) : world :=
  mk_world (g_mmc_cfg w) (g_block_buf w) (gpio w) (ticks w) (miso w) m
           (spi_init_rc w) (spi_config_rc w).

(** ** A state monad with fuel

    [None] means that a polling loop was cut before it finished. *)
Definition M (A : Type) : Type := world -> option (A * world).

Definition ret {A : Type} (a : A) : M A := fun w => Some (a, w).

Definition bind {A B : Type} (m : M A) (k : A -> M B) : M B :=
  fun w => match m w with
           | Some (a, w') => k a w'
           | None => None
           end.

Definition out_of_fuel {A : Type} : M A := fun _ => None.

Declare Scope mmc_scope.
Delimit Scope mmc_scope with mmc.
Notation "x <- m ;; k" := (bind m (fun x => k))
  (at level 61, m at next level, right associativity) : mmc_scope.
Notation "m ;; k" := (bind m (fun _ => k))
  (at level 61, right associativity) : mmc_scope.
Open Scope mmc_scope.

(** ** The collaborators: GPIO, SPI and the timer *)

Definition set_pin (pin val : Z) (g : Z -> Z) : Z -> Z :=
  fun p => if p =? pin then val else g p.

Definition hal_gpio_init_out (pin val : Z) : M unit :=
  fun w => Some (tt, with_gpio (set_pin pin val (gpio w)) w).

Definition hal_gpio_write (pin val : Z) : M unit :=
  fun w => Some (tt, with_gpio (set_pin pin val (gpio w)) w).

Definition hal_spi_init (num cfg : Z) : M Z :=
  fun w => Some (spi_init_rc w, w).

Definition hal_spi_config (num : Z) (s : option hal_spi_settings) : M Z :=
  fun w => Some (spi_config_rc w, w).

Definition hal_spi_set_txrx_cb (num : Z) : M unit := ret tt.

Definition hal_spi_enable (num : Z) : M unit := ret tt.

(** One exchange: [val] goes out, the bus's next answer comes in. *)
Definition hal_spi_tx_val (num val : Z) : M Z :=
  fun w => Some (miso w (length (mosi w)), with_mosi (mosi w ++ [val]) w).

(** Modelled from the spec: os_time.h is not part of the sources at hand;
    the spec's Timer Service is "a monotonic tick counter plus a blocking
    sleep primitive".  [ticks] counts the ticks that have passed;
    [os_time_delay d] returns once [d] more have passed, and [os_time_get]
    reads the counter as mmc.c holds it, in an [os_time_t]: an unsigned
    32-bit integer, which wraps. *)
Definition os_time_t (z : Z) : Z := z mod 2 ^ 32.

Definition os_time_get : M Z := fun w => Some (os_time_t (ticks w), w).

Definition os_time_delay (d : Z) : M unit :=
  fun w => Some (tt, with_ticks (ticks w + d) w).

(** Access to the globals. *)
Definition get_cfg : M mmc_cfg := fun w => Some (g_mmc_cfg w, w).
Definition put_cfg (c : mmc_cfg) : M unit := fun w => Some (tt, with_cfg c w).
Definition get_block_buf : M (list Z) := fun w => Some (g_block_buf w, w).
Definition put_block_buf (b : list Z) : M unit :=
  fun w => Some (tt, with_block_buf b w).

(** ** Arrays *)

(** [a[n] = v] on an array held as a list (nothing happens past its end,
    where C has no defined behaviour; [g_block_buf] is never indexed
    there). *)
Fixpoint store (l : list Z) (n : nat) (v : Z) : list Z :=
  match l, n with
  | [], _ => []
  | _ :: t, O => v :: t
  | h :: t, S n' => h :: store t n' v
  end.

(** [memcpy(dst + d, src + s, n)] on arrays held as lists; C requires both
    ranges to lie inside their arrays. *)
Definition memcpy (dst : list Z) (d : nat) (src : list Z) (s n : nat) : list Z :=
  firstn d dst ++ firstn n (skipn s src) ++ skipn (d + n) dst.

(** ** Error classifier *)

Definition mmc_error_by_status (status : Z) : mmc_status :=
  if status =? 0 then MMC_OK
  else if truthy (Z.land status R_IDLE) then MMC_TIMEOUT
  else if truthy (Z.land status R_ERASE_RESET) then MMC_CARD_ERROR
  else if truthy (Z.land status R_ILLEGAL_COMMAND) then MMC_CARD_ERROR
  else if truthy (Z.land status R_CRC_ERROR) then MMC_CRC_ERROR
  else if truthy (Z.land status R_ERASE_ERROR) then MMC_CARD_ERROR
  else if truthy (Z.land status R_ADDR_ERROR) then MMC_CARD_ERROR
  else if truthy (Z.land status R_PARAM_ERROR) then MMC_PARAM_ERROR
  else MMC_CARD_ERROR.

(** [mmc_cfg_dev]: the one handle for id 0, null for any other id. *)
Definition mmc_cfg_dev (id : Z) : M (option mmc_cfg) :=
  if negb (id =? 0) then ret None
  else (c <- get_cfg ;; ret (Some c)).

(** ** Command codec *)

(** The response poll of [send_mmc_cmd]:
    [for (n = 255; n > 0; n--) { status = tx(0xff); if (!(status & 0x80)) break; }] *)
Fixpoint poll_response (n : nat) (mmc : mmc_cfg) (status : Z) : M Z :=
  match n with
  | O => ret status
  | S n' =>
      r <- hal_spi_tx_val (spi_num mmc) 0xff ;;
      let status := u8 r in
      if Z.land status 0x80 =? 0 then ret status
      else poll_response n' mmc status
  end.

(** The CRC byte: [crc = 0x01; switch (cmd) { case CMD0: 0x95; case CMD8: 0x87; }] *)
Definition cmd_crc (cmd : Z) : Z :=
  if cmd =? CMD0 then 0x95
  else if cmd =? CMD8 then 0x87
  else 0x01.

(** [~0x80] is the [int] -129; the frame's first byte is
    [0x40 | (cmd & ~0x80)]. *)
Definition cmd_byte (cmd : Z) : Z := Z.lor 0x40 (Z.land cmd (Z.lnot 0x80)).

(** [send_mmc_cmd] calls itself once for a command that carries the 0x80
    marker; [depth] bounds the nesting of that call. *)
Fixpoint send_mmc_cmd_rec (depth : nat) (mmc : mmc_cfg) (cmd payload : Z) : M Z :=
  match depth with
  | O => out_of_fuel
  | S depth' =>
      (if truthy (Z.land cmd 0x80)
       then (_ <- send_mmc_cmd_rec depth' mmc CMD55 0 ;; ret tt)
       else ret tt) ;;
      hal_spi_tx_val (spi_num mmc) (cmd_byte cmd) ;;
      hal_spi_tx_val (spi_num mmc) (Z.land (Z.shiftr payload 24) 0xff) ;;
      hal_spi_tx_val (spi_num mmc) (Z.land (Z.shiftr payload 16) 0xff) ;;
      hal_spi_tx_val (spi_num mmc) (Z.land (Z.shiftr payload 8) 0xff) ;;
      hal_spi_tx_val (spi_num mmc) (Z.land payload 0xff) ;;
      hal_spi_tx_val (spi_num mmc) (cmd_crc cmd) ;;
      poll_response 255 mmc 0
  end.

Definition send_mmc_cmd (mmc : mmc_cfg) (cmd payload : Z) : M Z :=
  send_mmc_cmd_rec 2 mmc cmd payload.

(** ** Byte loops *)

(** [for (i = 0; i < n; i++) hal_spi_tx_val(mmc->spi_num, 0xff);] *)
Fixpoint clock_idle (n : nat) (mmc : mmc_cfg) : M unit :=
  match n with
  | O => ret tt
  | S n' => hal_spi_tx_val (spi_num mmc) 0xff ;; clock_idle n' mmc
  end.

(** [for (i = 0; i < n; i++) cmd_resp[i] = (uint8_t) hal_spi_tx_val(.., 0xff);]
    returning the bytes of [cmd_resp] in index order. *)
Fixpoint recv_resp (n : nat) (mmc : mmc_cfg) : M (list Z) :=
  match n with
  | O => ret []
  | S n' =>
      r <- hal_spi_tx_val (spi_num mmc) 0xff ;;
      rest <- recv_resp n' mmc ;;
      ret (u8 r :: rest)
  end.

(** [for (; n < BLOCK_LEN; n++) g_block_buf[n] = hal_spi_tx_val(.., 0xff);]
    with [todo] the number of rounds left. *)
Fixpoint recv_block (todo n : nat) (mmc : mmc_cfg) : M unit :=
  match todo with
  | O => ret tt
  | S todo' =>
      r <- hal_spi_tx_val (spi_num mmc) 0xff ;;
      g <- get_block_buf ;;
      put_block_buf (store g n (u8 r)) ;;
      recv_block todo' (S n) mmc
  end.

(** [for (; n < BLOCK_LEN; n++) hal_spi_tx_val(.., g_block_buf[n]);] *)
Fixpoint send_block (todo n : nat) (mmc : mmc_cfg) : M unit :=
  match todo with
  | O => ret tt
  | S todo' =>
      g <- get_block_buf ;;
      hal_spi_tx_val (spi_num mmc) (nth n g 0) ;;
      send_block todo' (S n) mmc
  end.

(** The timed polls of [mmc_read] and [mmc_write]:
    [do { res = tx(0xff); if (stop(res)) break; os_time_delay(d); }
     while (os_time_get() < timeout);]
    [timeout] is the [os_time_t] deadline; the test compares it with the
    32-bit reading of the counter, as unsigned integers. *)
Fixpoint poll_until (fuel : nat) (mmc : mmc_cfg) (stop : Z -> bool)
         (d timeout : Z) : M Z :=
  match fuel with
  | O => out_of_fuel
  | S fuel' =>
      r <- hal_spi_tx_val (spi_num mmc) 0xff ;;
      let res := u8 r in
      if stop res then ret res
      else
        os_time_delay d ;;
        now <- os_time_get ;;
        if now <? timeout then poll_until fuel' mmc stop d timeout
        else ret res
  end.

(** The address computation shared by [mmc_read] and [mmc_write]. *)
Definition block_len_of (len : Z) : Z :=
  Z.land (usize (len + BLOCK_LEN - 1)) (usize (Z.lnot (BLOCK_LEN - 1))).
Definition block_count_of (len : Z) : Z := block_len_of len / BLOCK_LEN.
Definition block_addr_of (addr : Z) : Z := addr / BLOCK_LEN.
Definition offset_of (addr : Z) : Z :=
  usize (u32 (addr - u32 (block_addr_of addr * BLOCK_LEN))).

(** The block loop of [mmc_read]: [while (block_count--) { ... }]. *)
Fixpoint read_blocks (block_count : nat) (mmc : mmc_cfg) (buf : list Z)
         (offset len index : Z) : M (list Z) :=
  match block_count with
  | O => ret buf
  | S block_count' =>
      recv_block 512 0 mmc ;;
      hal_spi_tx_val (spi_num mmc) 0xff ;;
      hal_spi_tx_val (spi_num mmc) 0xff ;;
      let amount := MIN (usize (BLOCK_LEN - offset)) len in
      g <- get_block_buf ;;
      let buf := memcpy buf (Z.to_nat index) g (Z.to_nat offset) (Z.to_nat amount) in
      read_blocks block_count' mmc buf 0 (usize (len - amount)) (usize (index + amount))
  end.

(** The block loop of [mmc_write]: [do { ... } while (len);], returning
    the last data-response token [res]. *)
Fixpoint write_blocks (fuel : nat) (mmc : mmc_cfg) (cmd : Z) (buf : list Z)
         (offset len index : Z) : M Z :=
  match fuel with
  | O => out_of_fuel
  | S fuel' =>
      (if cmd =? CMD24 then hal_spi_tx_val (spi_num mmc) 0xFE
       else hal_spi_tx_val (spi_num mmc) 0xFC) ;;
      let amount := MIN (usize (BLOCK_LEN - offset)) len in
      g <- get_block_buf ;;
      put_block_buf (memcpy g (Z.to_nat offset) buf (Z.to_nat index) (Z.to_nat amount)) ;;
      send_block 512 0 mmc ;;
      hal_spi_tx_val (spi_num mmc) 0xff ;;
      hal_spi_tx_val (spi_num mmc) 0xff ;;
      r <- hal_spi_tx_val (spi_num mmc) 0xff ;;
      let res := u8 r in
      if negb (Z.land res 0x1f =? 0x05) then ret res
      else
        let len := usize (len - amount) in
        let index := usize (index + amount) in
        if truthy len then write_blocks fuel' mmc cmd buf 0 len index
        else ret res
  end.

(** The classification of the data-response token at the end of
    [mmc_write]: [res &= 0x1f; switch (res) { ... }]. *)
Definition write_status (res : Z) : mmc_status :=
  let res := Z.land res 0x1f in
  if res =? 0x05 then MMC_OK
  else if res =? 0x0b then MMC_CRC_ERROR
  else if res =? 0x0d then MMC_WRITE_ERROR
  else MMC_WRITE_ERROR.

Section Driver.

(** [OS_TICKS_PER_SEC] comes from the platform's headers. *)
Variable OS_TICKS_PER_SEC : Z.

(** The wait of [mmc_init] for the card to leave the idle state:
    [for (;;) { status = send_mmc_cmd(mmc, ACMD41, HCS);
                if ((status & R_IDLE) == 0 || os_time_get() > timeout) break;
                os_time_delay(OS_TICKS_PER_SEC / 10); }]
    [timeout] is the [os_time_t] deadline; the test compares the 32-bit
    reading of the counter with it, as unsigned integers. *)
Fixpoint wait_op_cond (fuel : nat) (mmc : mmc_cfg) (timeout : Z) : M Z :=
  match fuel with
  | O => out_of_fuel
  | S fuel' =>
      status <- send_mmc_cmd mmc ACMD41 HCS ;;
      if Z.land status R_IDLE =? 0 then ret status
      else
        now <- os_time_get ;;
        if now >? timeout then ret status
        else
          os_time_delay (Z.quot OS_TICKS_PER_SEC 10) ;;
          wait_op_cond fuel' mmc timeout
  end.

(** [mmc_init] from "put card in idle state" down to the label [out]: the
    value is [rc] as it stands at [out].  On the paths that do not set it,
    [rc] still holds the 0 that [hal_spi_config] returned, which is
    [MMC_OK].  The deadline [os_time_get() + OS_TICKS_PER_SEC] of the wait
    is summed in [os_time_t]. *)
Definition mmc_init_card (fuel : nat) (mmc : mmc_cfg) : M mmc_status :=
  status <- send_mmc_cmd mmc CMD0 0 ;;
  if negb (status =? R_IDLE) then ret (mmc_error_by_status status)
  else
    status <- send_mmc_cmd mmc CMD8 0x1AA ;;
    cmd_resp <- recv_resp 4 mmc ;;
    if truthy (Z.land status R_ILLEGAL_COMMAND) then
      ocr <- send_mmc_cmd mmc CMD58 0 ;;
      (if truthy (Z.land ocr R_ILLEGAL_COMMAND) then ret tt else ret tt) ;;
      ret MMC_OK
    else
      if negb (nth 3 cmd_resp 0 =? 0xAA) then ret MMC_RESPONSE_ERROR
      else if negb (nth 2 cmd_resp 0 =? 0x01) then ret MMC_VOLTAGE_ERROR
      else
        now <- os_time_get ;;
        let timeout := os_time_t (now + OS_TICKS_PER_SEC) in
        status <- wait_op_cond fuel mmc timeout ;;
        if truthy status then ret (mmc_error_by_status status)
        else
          status <- send_mmc_cmd mmc CMD58 0 ;;
          cmd_resp <- recv_resp 4 mmc ;;
          (if (status =? 0) && truthy (Z.land (nth 0 cmd_resp 0) (Z.shiftl 1 6))
           then ret tt else ret tt) ;;
          ret MMC_OK.

Definition mmc_init (fuel : nat) (a_spi_num a_spi_cfg a_ss_pin : Z) : M mmc_status :=
  put_cfg (mk_cfg a_spi_num a_ss_pin a_spi_cfg (Some mmc_settings)) ;;
  mmc <- get_cfg ;;
  hal_gpio_init_out (ss_pin mmc) 1 ;;
  rc <- hal_spi_init (spi_num mmc) (spi_cfg mmc) ;;
  if truthy rc then ret (HAL_ERROR rc)
  else
    rc <- hal_spi_config (spi_num mmc) (settings mmc) ;;
    if truthy rc then ret (HAL_ERROR rc)
    else
      hal_spi_set_txrx_cb (spi_num mmc) ;;
      hal_spi_enable (spi_num mmc) ;;
      os_time_delay (Z.quot OS_TICKS_PER_SEC 100) ;;
      hal_gpio_write (ss_pin mmc) 0 ;;
      hal_spi_tx_val (spi_num mmc) 0xff ;;
      clock_idle 74 mmc ;;
      rc <- mmc_init_card fuel mmc ;;
      hal_gpio_write (ss_pin mmc) 1 ;;
      ret rc.

(** The wait for the data start token, up to 200ms:
    the poll stops at the first byte that is not 0xFF.  The deadline
    [os_time_get() + OS_TICKS_PER_SEC / 5] is summed in [os_time_t]. *)
Definition wait_start_token (fuel : nat) (mmc : mmc_cfg) : M Z :=
  now <- os_time_get ;;
  let timeout := os_time_t (now + Z.quot OS_TICKS_PER_SEC 5) in
  poll_until fuel mmc (fun res => negb (res =? 0xFF))
             (Z.quot OS_TICKS_PER_SEC 20) timeout.

Definition mmc_read (fuel : nat) (mmc_id addr : Z) (buf : list Z) (len : Z)
  : M (mmc_status * list Z) :=
  o <- mmc_cfg_dev mmc_id ;;
  match o with
  | None => ret (MMC_DEVICE_ERROR, buf)
  | Some mmc =>
      let block_count := block_count_of len in
      let block_addr := block_addr_of addr in
      let offset := offset_of addr in
      hal_gpio_write (ss_pin mmc) 0 ;;
      let cmd := if block_count =? 1 then CMD17 else CMD18 in
      res <- send_mmc_cmd mmc cmd block_addr ;;
      if negb (res =? 0) then
        hal_gpio_write (ss_pin mmc) 1 ;;
        ret (MMC_CARD_ERROR, buf)
      else
        res <- wait_start_token fuel mmc ;;
        if res =? 0xFE then
          buf' <- read_blocks (Z.to_nat block_count) mmc buf offset len 0 ;;
          (if cmd =? CMD18 then (_ <- send_mmc_cmd mmc CMD12 0 ;; ret tt)
           else ret tt) ;;
          hal_gpio_write (ss_pin mmc) 1 ;;
          ret (MMC_OK, buf')
        else
          hal_gpio_write (ss_pin mmc) 1 ;;
          ret (MMC_CARD_ERROR, buf)
  end.

(** The read-before-write of [mmc_write] ([if (offset) { ... }]):
    [Some rc] when the function returns [rc] from inside it. *)
Definition write_preread (fuel : nat) (mmc : mmc_cfg) (block_addr : Z)
  : M (option mmc_status) :=
  res <- send_mmc_cmd mmc CMD17 block_addr ;;
  if negb (res =? 0) then
    hal_gpio_write (ss_pin mmc) 1 ;;
    ret (Some MMC_CARD_ERROR)
  else
    res <- wait_start_token fuel mmc ;;
    if negb (res =? 0xfe) then
      hal_gpio_write (ss_pin mmc) 1 ;;
      ret (Some MMC_CARD_ERROR)
    else
      recv_block 512 0 mmc ;;
      hal_spi_tx_val (spi_num mmc) 0xff ;;
      hal_spi_tx_val (spi_num mmc) 0xff ;;
      ret None.

(** The wait for the card to stop signalling busy, up to 5s; the deadline
    [os_time_get() + 5 * OS_TICKS_PER_SEC] is summed in [os_time_t]. *)
Definition wait_not_busy (fuel : nat) (mmc : mmc_cfg) : M Z :=
  now <- os_time_get ;;
  let timeout := os_time_t (now + 5 * OS_TICKS_PER_SEC) in
  poll_until fuel mmc truthy (Z.quot OS_TICKS_PER_SEC 100) timeout.

(** [mmc_write] from "now start write" to the end. *)
Definition write_transfer (fuel : nat) (mmc : mmc_cfg) (block_count block_addr : Z)
           (buf : list Z) (offset len : Z) : M mmc_status :=
  let cmd := if block_count =? 1 then CMD24 else CMD25 in
  res <- send_mmc_cmd mmc cmd block_addr ;;
  if negb (res =? 0) then
    hal_gpio_write (ss_pin mmc) 1 ;;
    ret MMC_CARD_ERROR
  else
    hal_spi_tx_val (spi_num mmc) 0xff ;;
    res <- write_blocks fuel mmc cmd buf offset len 0 ;;
    let status := write_status res in
    _ <- wait_not_busy fuel mmc ;;
    hal_gpio_write (ss_pin mmc) 1 ;;
    ret status.

Definition mmc_write (fuel : nat) (mmc_id addr : Z) (buf : list Z) (len : Z)
  : M mmc_status :=
  o <- mmc_cfg_dev mmc_id ;;
  match o with
  | None => ret MMC_DEVICE_ERROR
  | Some mmc =>
      let block_count := block_count_of len in
      let block_addr := block_addr_of addr in
      let offset := offset_of addr in
      hal_gpio_write (ss_pin mmc) 0 ;;
      early <- (if truthy offset then write_preread fuel mmc block_addr
                else ret None) ;;
      match early with
      | Some rc => ret rc
      | None => write_transfer fuel mmc block_count block_addr buf offset len
      end
  end.

End Driver.

(** * Definitions used by the statements

    Decidable forms of the properties, the words of the specification
    written as functions, and simulated cards. *)

Definition mmc_status_eqb (a b : mmc_status) : bool :=
  match a, b with
  | MMC_OK, MMC_OK
  | MMC_CARD_ERROR, MMC_CARD_ERROR
  | MMC_READ_ERROR, MMC_READ_ERROR
  | MMC_WRITE_ERROR, MMC_WRITE_ERROR
  | MMC_TIMEOUT, MMC_TIMEOUT
  | MMC_PARAM_ERROR, MMC_PARAM_ERROR
  | MMC_CRC_ERROR, MMC_CRC_ERROR
  | MMC_DEVICE_ERROR, MMC_DEVICE_ERROR
  | MMC_RESPONSE_ERROR, MMC_RESPONSE_ERROR
  | MMC_VOLTAGE_ERROR, MMC_VOLTAGE_ERROR => true
  | HAL_ERROR x, HAL_ERROR y => x =? y
  | _, _ => false
  end.

(** The classifier's table, as one boolean test per byte. *)
Definition classifier_row (s : Z) : bool :=
  let r := mmc_error_by_status s in
  implb (s =? 0x00) (mmc_status_eqb r MMC_OK)
  && implb (Z.testbit s 0) (mmc_status_eqb r MMC_TIMEOUT)
  && implb (s =? 0x08) (mmc_status_eqb r MMC_CRC_ERROR)
  && implb (s =? 0x40) (mmc_status_eqb r MMC_PARAM_ERROR)
  && implb (negb (s =? 0) && (Z.land s 0x36 =? s)) (mmc_status_eqb r MMC_CARD_ERROR).


(** The world after the bytes [l] went out on the bus. *)
Definition sent (w : world) (l : list Z) : world := with_mosi (mosi w ++ l) w.

(** The byte the bus answers at exchange [n], as a [uint8_t] reads it. *)
Definition rx (w : world) (n : nat) : Z := u8 (miso w n).

(** The body of [send_mmc_cmd] after the prefix: frame and response poll. *)
Definition frame_body (mmc : mmc_cfg) (cmd payload : Z) : M Z :=
  hal_spi_tx_val (spi_num mmc) (cmd_byte cmd) ;;
  hal_spi_tx_val (spi_num mmc) (Z.land (Z.shiftr payload 24) 0xff) ;;
  hal_spi_tx_val (spi_num mmc) (Z.land (Z.shiftr payload 16) 0xff) ;;
  hal_spi_tx_val (spi_num mmc) (Z.land (Z.shiftr payload 8) 0xff) ;;
  hal_spi_tx_val (spi_num mmc) (Z.land payload 0xff) ;;
  hal_spi_tx_val (spi_num mmc) (cmd_crc cmd) ;;
  poll_response 255 mmc 0.

(** The six bytes of a command frame. *)
Definition frame (cmd payload : Z) : list Z :=
  [cmd_byte cmd;
   Z.land (Z.shiftr payload 24) 0xff;
   Z.land (Z.shiftr payload 16) 0xff;
   Z.land (Z.shiftr payload 8) 0xff;
   Z.land payload 0xff;
   cmd_crc cmd].

(** ** Simulated cards

    A card that answers from a script, one value per exchange, and leaves
    the line high (0xFF) once the script is over; and the world at power
    up with such a card on the bus: globals zeroed, tick counter at 0. *)
Definition script (l : list Z) : nat -> Z := fun n => nth n l 0xFF.

Definition power_up (card : nat -> Z) : world :=
  {| g_mmc_cfg := mk_cfg 0 0 0 None;
     g_block_buf := repeat 0 512;
     gpio := fun _ => 0;
     ticks := 0;
     miso := card;
     mosi := [];
     spi_init_rc := 0;
     spi_config_rc := 0 |}.

(** The world once [mmc_init] has set the handle up for channel 0 with
    chip-select on pin 4, chip-select high. *)
Definition attached (card : nat -> Z) : world :=
  with_gpio (set_pin 4 1 (fun _ => 0))
            (with_cfg (mk_cfg 0 4 0 (Some mmc_settings)) (power_up card)).

(** ** Chip-select and the calls of the API *)

(** The level of the handle's chip-select line; the line is active low, so
    1 is "deasserted". *)
Definition chip_select (w : world) : Z := gpio w (ss_pin (g_mmc_cfg w)).

(** What a bus transfer leaves alone: the handle, the pins, the card and
    the answers of the SPI layer; and what went out stays out. *)
Definition bus_step (w w' : world) : Prop :=
  g_mmc_cfg w' = g_mmc_cfg w
  /\ gpio w' = gpio w
  /\ miso w' = miso w
  /\ spi_init_rc w' = spi_init_rc w
  /\ spi_config_rc w' = spi_config_rc w
  /\ (length (mosi w) <= length (mosi w'))%nat.

Definition keeps {A : Type} (m : M A) : Prop :=
  forall w a w', m w = Some (a, w') -> bus_step w w'.

Inductive api_call : Type :=
| Call_init (a_spi_num a_spi_cfg a_ss_pin : Z)
| Call_read (mmc_id addr : Z) (buf : list Z) (len : Z)
| Call_write (mmc_id addr : Z) (buf : list Z) (len : Z).

Definition run_call (tps : Z) (fuel : nat) (c : api_call) : M mmc_status :=
  match c with
  | Call_init a b c => mmc_init tps fuel a b c
  | Call_read id addr buf len => r <- mmc_read tps fuel id addr buf len ;; ret (fst r)
  | Call_write id addr buf len => mmc_write tps fuel id addr buf len
  end.

(** Whether a call reaches a device handle: [mmc_init] always does, a
    transfer does for slot 0 only. *)
Definition has_handle (c : api_call) : bool :=
  match c with
  | Call_init _ _ _ => true
  | Call_read id _ _ _ => id =? 0
  | Call_write id _ _ _ => id =? 0
  end.

(** The specification's table for the low five bits of a data-response
    token: 0b00101 is success, 0b01011 a CRC error, anything else
    (0b01101 included) a write error. *)
Definition data_response_class (low5 : Z) : mmc_status :=
  if low5 =? 5 then MMC_OK
  else if low5 =? 11 then MMC_CRC_ERROR
  else MMC_WRITE_ERROR.

(** A card that accepts a single-block write at once and answers the
    block with the data-response token [tok]. *)
Definition card_write_one (tok : Z) : nat -> Z :=
  script (repeat 0xFF 6 ++ [0x00] ++ repeat 0xFF 516 ++ [tok]).

(** "The command whose frame starts at exchange [pos] is answered with the
    status [st] after [k] filler bytes": during the frame the answers do
    not matter, then come [k] bytes with the top bit set, then [st]. *)
Definition answers (w : world) (pos k : nat) (st : Z) : Prop :=
  (k < 255)%nat
  /\ (forall i, (i < k)%nat -> Z.land (rx w (pos + 6 + i)) 0x80 <> 0)
  /\ rx w (pos + 6 + k) = st
  /\ Z.land st 0x80 = 0.

(** "The data start token 0xFE comes at exchange [pos + j], after [j]
    bytes 0xFF, and before the 200ms deadline of the poll runs out". *)
Definition token_after (tps : Z) (w : world) (pos j : nat) : Prop :=
  (forall i, (i < j)%nat ->
             rx w (pos + i) = 0xFF
             /\ (Z.of_nat i + 1) * Z.quot tps 20 < Z.quot tps 5)
  /\ rx w (pos + j) = 0xFE.

(** A card for a two-block read: it accepts the command at once, sends one
    byte 0xFF and then the start token, and then the bytes 0, 1, 2, ...
    (modulo 251). *)
Definition card_read_two : nat -> Z :=
  script (repeat 0xFF 6 ++ [0x00; 0xFF; 0xFE]
            ++ map (fun i => Z.of_nat i mod 251) (seq 0 1028)).

(** [mmc_init] up to "put card in idle state", when the SPI layer comes
    up: the handle is set, chip-select is low, the 10ms have passed and 75
    filler bytes went out. *)
Definition init_prologue_world (tps n c p : Z) (w : world) : world :=
  sent (with_gpio (set_pin p 0 (set_pin p 1 (gpio w)))
          (with_ticks (ticks w + Z.quot tps 100)
             (with_cfg (mk_cfg n p c (Some mmc_settings)) w)))
       (repeat 0xff 75).

(** A Ver2.00 card that never leaves the idle state: it answers CMD0 and
    CMD8 with the idle status, echoes the check pattern, and answers 0x01
    to every exchange after that. *)
Definition card_stuck_idle : nat -> Z :=
  fun n => nth n (repeat 0xFF 81 ++ [0x01]
                    ++ repeat 0xFF 6 ++ [0x01; 0x00; 0x00; 0x01; 0xAA]) 0x01.

(** A Ver2.00 card that leaves the idle state at the third ACMD41 and then
    answers the OCR query with status 0 and the payload
    [ocr0; 0xFF; 0x80; 0x00]. *)
Definition card_v2 (ocr0 : Z) : nat -> Z :=
  script (repeat 0xFF 81 ++ [0x01]
            ++ repeat 0xFF 6 ++ [0x01; 0x00; 0x00; 0x01; 0xAA]
            ++ (repeat 0xFF 6 ++ [0x01] ++ repeat 0xFF 6 ++ [0x01])
            ++ (repeat 0xFF 6 ++ [0x01] ++ repeat 0xFF 6 ++ [0x01])
            ++ (repeat 0xFF 6 ++ [0x01] ++ repeat 0xFF 6 ++ [0x00])
            ++ repeat 0xFF 6 ++ [0x00; ocr0; 0xFF; 0x80; 0x00]).

(** The world of [mmc_init] once CMD0 and CMD8 were answered after [k0]
    and [k8] filler bytes and the four payload bytes of CMD8 were read. *)
Definition init_negotiated_world (tps n c p : Z) (w : world) (k0 k8 : nat) : world :=
  sent (init_prologue_world tps n c p w)
       ((frame CMD0 0 ++ repeat 0xff (S k0))
          ++ (frame CMD8 0x1AA ++ repeat 0xff (S k8))
          ++ repeat 0xff 4).

(** The claim that the handle carries an addressing-mode flag set from the
    card-capacity-status bit (bit 6 of the first OCR payload byte), read on
    the simulated Ver2.00 cards: [mode] is true, "block-addressed", exactly
    when the card sets the bit. *)
Definition addressing_mode_follows_ccs (mode : mmc_cfg -> bool) : Prop :=
  forall (ocr0 : Z) (w' : world),
    0 <= ocr0 < 256 ->
    mmc_init 1000 8 0 0 4 (power_up (card_v2 ocr0)) = Some (MMC_OK, w') ->
    mode (g_mmc_cfg w') = Z.testbit ocr0 6.

(** A card for an unaligned single-block write: it serves the read-ahead
    (CMD17, start token, 512 bytes 0x11), accepts the write command, and
    accepts two data blocks (token 0xE5 after each). *)
Definition card_write_unaligned : nat -> Z :=
  script (repeat 0xFF 6 ++ [0x00; 0xFE] ++ repeat 0x11 512 ++ repeat 0xFF 8
            ++ [0x00] ++ repeat 0xFF 516 ++ [0xE5] ++ repeat 0xFF 515 ++ [0xE5]).

(** ** The classifier, byte by byte *)

(** One test per byte: the flags in the order the if-chain tries them. *)
Definition classifier_order_row (s : Z) : bool :=
  let r := mmc_error_by_status s in
  let idle := Z.testbit s 0 in
  let early := Z.testbit s 1 || Z.testbit s 2 in
  let crc := Z.testbit s 3 in
  let late := Z.testbit s 4 || Z.testbit s 5 in
  let param := Z.testbit s 6 in
  implb (negb idle && early) (mmc_status_eqb r MMC_CARD_ERROR)
  && implb (negb idle && negb early && crc) (mmc_status_eqb r MMC_CRC_ERROR)
  && implb (negb idle && negb early && negb crc && late)
           (mmc_status_eqb r MMC_CARD_ERROR)
  && implb (negb idle && negb early && negb crc && negb late && param)
           (mmc_status_eqb r MMC_PARAM_ERROR)
  && implb (s =? 0x80) (mmc_status_eqb r MMC_CARD_ERROR).

(** ** Returning

    A computation returns from a world when the fuel it was given is
    enough for its loops there. *)
Definition returns_at {A : Type} (m : M A) (w : world) : Prop :=
  exists r, m w = Some r.

Definition returns {A : Type} (m : M A) : Prop := forall w, returns_at m w.

(** A computation sleeps at most [b] ticks: the clock never goes back and
    is at most [b] ticks further when the computation returns. *)
Definition sleeps_at_most {A : Type} (b : Z) (m : M A) : Prop :=
  forall w a w', m w = Some (a, w') -> ticks w <= ticks w' <= ticks w + b.

(** "The 32-bit tick counter does not wrap within the next [span] ticks":
    its reading in [w] is more than [span] below 2^32.  The deadlines of
    the driver are sums in [os_time_t]; they are the times meant only
    where the counter does not wrap on the way. *)
Definition no_wrap (w : world) (span : Z) : Prop :=
  os_time_t (ticks w) + span < 2 ^ 32.

(** A computation returns from [w] within [b] ticks. *)
Definition returns_within {A : Type} (b : Z) (m : M A) (w : world) : Prop :=
  exists a w', m w = Some (a, w') /\ ticks w <= ticks w' <= ticks w + b.

(** ** The stream of a read

    During the block loop of [mmc_read] every block takes 512 data
    exchanges and 2 CRC exchanges.  [stream_pos d off i] is the exchange
    at which byte [i] of a span that starts [off] bytes into the first
    block is received, the first data exchange being [d]. *)
Definition stream_pos (d off i : nat) : nat :=
  (d + 514 * ((i + off) / 512) + (i + off) mod 512)%nat.

(** ** The blocks of a write *)

(** The data start token of a write: 0xFE after the single-block command,
    0xFC after any other. *)
Definition start_token (cmd : Z) : Z := if cmd =? CMD24 then 0xFE else 0xFC.

(** A card for a write inside one block: it serves the read-ahead (CMD17,
    start token, 512 bytes 0x11), accepts the write command and the block. *)
Definition card_write_inside : nat -> Z :=
  script (repeat 0xFF 6 ++ [0x00; 0xFE] ++ repeat 0x11 512 ++ repeat 0xFF 8
            ++ [0x00] ++ repeat 0xFF 516 ++ [0xE5]).

(** ** Whole blocks on the wire

    What [mmc_write] sends for block [i] of a transfer of whole blocks
    taken from [buf] at [idx]: the start token, the 512 bytes, two CRC
    bytes and the exchange that reads the data-response token. *)
Definition block_frame (cmd : Z) (buf : list Z) (idx i : nat) : list Z :=
  [start_token cmd] ++ firstn 512 (skipn (idx + 512 * i) buf) ++ [0xff; 0xff; 0xff].

(** "Block [i] is the first one that is not accepted, or the last of [n]":
    the tokens of the blocks before it, read 515 exchanges after each
    block's start, have the low bits 0b00101, and its own has not, unless
    it is the last. *)
Definition stops_at (w : world) (pos n m : nat) : Prop :=
  (m < n)%nat
  /\ (forall i, (i < m)%nat -> Z.land (rx w (pos + 516 * i + 515)) 0x1f = 5)
  /\ ((S m < n)%nat -> Z.land (rx w (pos + 516 * m + 515)) 0x1f <> 5).

(** A card for a write of three blocks that accepts the first block and
    answers the second with a CRC error. *)
Definition card_write_crc : nat -> Z :=
  script (repeat 0xFF 6 ++ [0x00] ++ repeat 0xFF 516 ++ [0xE5]
            ++ repeat 0xFF 515 ++ [0xEB]).

(** ** The operating-condition negotiation

    One round of the wait of [mmc_init] on a card that answers every
    command at the first poll: the CMD55 frame and its poll, the ACMD41
    frame with the HCS bit and its poll. *)
Definition op_cond_round : list Z :=
  frame CMD55 0 ++ [0xff] ++ frame ACMD41 HCS ++ [0xff].

(** "From exchange [pos] on the card answers the rounds at the first poll,
    ACMD41 with the idle flag set [r] times and then with [st], which has
    the flag clear". *)
Definition leaves_idle_after (w : world) (pos r : nat) (st : Z) : Prop :=
  (forall i, (i <= r)%nat -> Z.land (rx w (pos + 14 * i + 6)) 0x80 = 0)
  /\ (forall i, (i < r)%nat ->
                Z.land (rx w (pos + 14 * i + 13)) 0x80 = 0
                /\ Z.land (rx w (pos + 14 * i + 13)) R_IDLE <> 0)
  /\ rx w (pos + 14 * r + 13) = st
  /\ Z.land st 0x80 = 0
  /\ Z.land st R_IDLE = 0.
(** * Lemmas *)

(** ** Bytes *)

Lemma mmc_status_eqb_eq (a b : mmc_status) : mmc_status_eqb a b = true -> a = b.
Proof.
  destruct a, b; simpl; intros H; try discriminate; try reflexivity.
  apply Z.eqb_eq in H. now subst.
Qed.

(** A property checked on the 256 bytes holds of every byte. *)
Lemma byte_forall (f : Z -> bool) :
  forallb f (map Z.of_nat (seq 0 256)) = true ->
  forall z, 0 <= z < 256 -> f z = true.
Proof.
  intros H z Hz. rewrite forallb_forall in H. apply H.
  apply in_map_iff. exists (Z.to_nat z). split; [lia|].
  apply in_seq. lia.
Qed.

Lemma u8_range (z : Z) : 0 <= u8 z < 256.
Proof. unfold u8. change (2 ^ 8) with 256. apply Z.mod_pos_bound. lia. Qed.

Lemma u8_small (z : Z) : 0 <= z < 256 -> u8 z = z.
Proof. intros H. unfold u8. change (2 ^ 8) with 256. now apply Z.mod_small. Qed.


(** ** Running the monad *)

Lemma bind_Some {A B : Type} (m : M A) (k : A -> M B) (w : world) (r : B * world) :
  bind m k w = Some r <-> exists a w1, m w = Some (a, w1) /\ k a w1 = Some r.
Proof.
  unfold bind. split.
  - destruct (m w) as [[a w1]|]; [|discriminate]. intros H. now exists a, w1.
  - intros (a & w1 & -> & H). exact H.
Qed.

Lemma bind_run {A B : Type} (m : M A) (k : A -> M B) (w w1 : world) (a : A) :
  m w = Some (a, w1) -> bind m k w = k a w1.
Proof. intros H. unfold bind. now rewrite H. Qed.

Lemma ret_Some {A : Type} (a b : A) (w w' : world) :
  ret a w = Some (b, w') <-> a = b /\ w = w'.
Proof.
  unfold ret. split.
  - intros H. now inversion H.
  - now intros [-> ->].
Qed.

Ltac inv_bind H :=
  let a := fresh "a" in
  let w1 := fresh "w" in
  let H1 := fresh "Hrun" in
  apply bind_Some in H; destruct H as (a & w1 & H1 & H).

Ltac inv_ret H :=
  apply ret_Some in H; destruct H as [? ?]; subst.

(** ** Bytes on the bus *)

Lemma sent_nil (w : world) : sent w [] = w.
Proof. unfold sent, with_mosi. rewrite app_nil_r. now destruct w. Qed.

Lemma sent_sent (w : world) (l1 l2 : list Z) :
  sent (sent w l1) l2 = sent w (l1 ++ l2).
Proof. unfold sent, with_mosi. simpl. now rewrite app_assoc. Qed.

Lemma mosi_sent (w : world) (l : list Z) : mosi (sent w l) = mosi w ++ l.
Proof. reflexivity. Qed.

Lemma tx_run (num val : Z) (w : world) :
  hal_spi_tx_val num val w = Some (miso w (length (mosi w)), sent w [val]).
Proof. reflexivity. Qed.

(** The response poll makes between 1 and [n] exchanges and returns the
    answer to the last one. *)
Lemma poll_response_run (n : nat) (mmc : mmc_cfg) :
  forall (s0 : Z) (w : world),
    (1 <= n)%nat ->
    exists k : nat,
      (1 <= k <= n)%nat
      /\ poll_response n mmc s0 w
         = Some (rx w (length (mosi w) + k - 1), sent w (repeat 0xff k)).
Proof.
  induction n as [|n IH]; intros s0 w Hn; [lia|].
  cbn [poll_response]. rewrite (bind_run _ _ _ _ _ (tx_run _ _ w)).
  destruct (Z.land (u8 (miso w (length (mosi w)))) 128 =? 0) eqn:E.
  - exists 1%nat. split; [lia|]. unfold ret, rx.
    now replace (length (mosi w) + 1 - 1)%nat with (length (mosi w)) by lia.
  - destruct n as [|n'].
    + exists 1%nat. split; [lia|]. cbn [poll_response]. unfold ret, rx.
      now replace (length (mosi w) + 1 - 1)%nat with (length (mosi w)) by lia.
    + destruct (IH (u8 (miso w (length (mosi w)))) (sent w [255])) as (k & Hk & Hrun);
        [lia|].
      exists (S k). split; [lia|]. rewrite Hrun. rewrite sent_sent.
      rewrite mosi_sent, length_app. cbn [length repeat app].
      unfold rx. cbn [miso sent with_mosi].
      now replace (length (mosi w) + 1 + k - 1)%nat
        with (length (mosi w) + S k - 1)%nat by lia.
Qed.

Lemma frame_body_run (mmc : mmc_cfg) (cmd payload : Z) (w : world) :
  exists k : nat,
    (1 <= k <= 255)%nat
    /\ frame_body mmc cmd payload w
       = Some (rx w (length (mosi w) + 6 + k - 1),
               sent w (frame cmd payload ++ repeat 0xff k)).
Proof.
  unfold frame_body.
  repeat (rewrite (bind_run _ _ _ _ _ (tx_run _ _ _)); rewrite ?sent_sent).
  cbn [app].
  match goal with |- context [poll_response 255 mmc 0 ?w0] =>
    destruct (poll_response_run 255 mmc 0 w0) as (k & Hk & Hrun); [lia|] end.
  exists k. split; [exact Hk|]. rewrite Hrun, sent_sent.
  rewrite mosi_sent, length_app. cbn [length]. unfold rx, frame. cbn [miso sent with_mosi app].
  now replace (length (mosi w) + 6 + k - 1)%nat with (length (mosi w) + 6 + k - 1)%nat by lia.
Qed.

Lemma send_mmc_cmd_rec_S (d : nat) (mmc : mmc_cfg) (cmd payload : Z) :
  send_mmc_cmd_rec (S d) mmc cmd payload
  = ((if truthy (Z.land cmd 0x80)
      then (_ <- send_mmc_cmd_rec d mmc CMD55 0 ;; ret tt)
      else ret tt) ;;
     frame_body mmc cmd payload).
Proof. reflexivity. Qed.

(** A command without the marker: its frame, then the poll. *)
Lemma send_plain_cmd_run (d : nat) (mmc : mmc_cfg) (cmd payload : Z) (w : world) :
  truthy (Z.land cmd 0x80) = false ->
  exists k : nat,
    (1 <= k <= 255)%nat
    /\ send_mmc_cmd_rec (S d) mmc cmd payload w
       = Some (rx w (length (mosi w) + 6 + k - 1),
               sent w (frame cmd payload ++ repeat 0xff k)).
Proof.
  intros Hm. rewrite send_mmc_cmd_rec_S, Hm.
  unfold bind at 1. unfold ret at 1. apply frame_body_run.
Qed.

(** A command with the marker: the whole CMD55 exchange, then its own
    frame and poll. *)
Lemma send_app_cmd_run (mmc : mmc_cfg) (cmd payload : Z) (w : world) :
  truthy (Z.land cmd 0x80) = true ->
  exists k' k : nat,
    (1 <= k' <= 255)%nat /\ (1 <= k <= 255)%nat
    /\ send_mmc_cmd mmc cmd payload w
       = Some (rx w (length (mosi w) + (6 + k') + 6 + k - 1),
               sent w ((frame CMD55 0 ++ repeat 0xff k')
                         ++ frame cmd payload ++ repeat 0xff k)).
Proof.
  intros Hm. unfold send_mmc_cmd. rewrite send_mmc_cmd_rec_S, Hm.
  destruct (send_plain_cmd_run 0 mmc CMD55 0 w) as (k' & Hk' & Hpre); [reflexivity|].
  destruct (frame_body_run mmc cmd payload (sent w (frame CMD55 0 ++ repeat 0xff k')))
    as (k & Hk & Hrun).
  exists k', k. split; [exact Hk'|]. split; [exact Hk|].
  unfold bind at 1. unfold bind at 1. rewrite Hpre. unfold ret at 1.
  rewrite Hrun, sent_sent. rewrite mosi_sent, !length_app, repeat_length.
  cbn [length frame]. unfold rx. cbn [miso sent with_mosi].
  repeat f_equal.
Qed.

(** ** The bytes of a frame *)

Lemma cmd_byte_low6 (cmd : Z) :
  0 <= cmd < 256 -> cmd_byte cmd = Z.lor 0x40 (Z.land cmd 0x3F).
Proof.
  intros H. apply Z.eqb_eq.
  apply (byte_forall (fun c => cmd_byte c =? Z.lor 0x40 (Z.land c 0x3F)));
    [vm_compute; reflexivity | exact H].
Qed.

Lemma marker_bit7 (cmd : Z) :
  0 <= cmd < 256 -> truthy (Z.land cmd 0x80) = Z.testbit cmd 7.
Proof.
  intros H. apply eqb_prop.
  apply (byte_forall (fun c => eqb (truthy (Z.land c 0x80)) (Z.testbit c 7)));
    [vm_compute; reflexivity | exact H].
Qed.

Lemma land_shiftr_byte (p n : Z) :
  0 <= n -> Z.land (Z.shiftr p n) 0xff = (p / 2 ^ n) mod 256.
Proof.
  intros Hn. rewrite Z.shiftr_div_pow2 by exact Hn.
  change 0xff with (Z.ones 8). now rewrite Z.land_ones by lia.
Qed.

Lemma payload_big_endian (p : Z) :
  0 <= p < 2 ^ 32 ->
  let b3 := Z.land (Z.shiftr p 24) 0xff in
  let b2 := Z.land (Z.shiftr p 16) 0xff in
  let b1 := Z.land (Z.shiftr p 8) 0xff in
  let b0 := Z.land p 0xff in
  0 <= b3 < 256 /\ 0 <= b2 < 256 /\ 0 <= b1 < 256 /\ 0 <= b0 < 256
  /\ p = b3 * 2 ^ 24 + b2 * 2 ^ 16 + b1 * 2 ^ 8 + b0.
Proof.
  intros Hp. cbv zeta.
  rewrite !land_shiftr_byte by lia.
  replace (Z.land p 0xff) with ((p / 2 ^ 0) mod 256)
    by (rewrite <- (land_shiftr_byte p 0) by lia; now rewrite Z.shiftr_0_r).
  change (2 ^ 32) with 4294967296 in Hp.
  change (2 ^ 24) with 16777216. change (2 ^ 16) with 65536.
  change (2 ^ 8) with 256. change (2 ^ 0) with 1.
  rewrite Z.div_1_r.
  repeat split; try (apply Z.mod_pos_bound; lia).
  Z.to_euclidean_division_equations. lia.
Qed.

(** ** What the transfers leave alone *)

Lemma bus_step_refl (w : world) : bus_step w w.
Proof. unfold bus_step. intuition lia. Qed.

Lemma bus_step_trans (w1 w2 w3 : world) :
  bus_step w1 w2 -> bus_step w2 w3 -> bus_step w1 w3.
Proof. unfold bus_step. intuition (try congruence; lia). Qed.

Lemma keeps_ret {A : Type} (a : A) : keeps (ret a).
Proof. intros w b w' H. inv_ret H. apply bus_step_refl. Qed.

Lemma keeps_bind {A B : Type} (m : M A) (k : A -> M B) :
  keeps m -> (forall a, keeps (k a)) -> keeps (bind m k).
Proof.
  intros Hm Hk w b w' H. inv_bind H.
  eapply bus_step_trans; [eapply Hm | eapply Hk]; eassumption.
Qed.

Lemma keeps_tx (num val : Z) : keeps (hal_spi_tx_val num val).
Proof.
  intros w a w' H. inversion H. subst. unfold bus_step. simpl.
  rewrite length_app. simpl. intuition lia.
Qed.

Lemma keeps_delay (d : Z) : keeps (os_time_delay d).
Proof. intros w a w' H. inversion H. subst. unfold bus_step. simpl. intuition lia. Qed.

Lemma keeps_time_get : keeps os_time_get.
Proof. intros w a w' H. inversion H. subst. apply bus_step_refl. Qed.

Lemma keeps_get_block_buf : keeps get_block_buf.
Proof. intros w a w' H. inversion H. subst. apply bus_step_refl. Qed.

Lemma keeps_put_block_buf (b : list Z) : keeps (put_block_buf b).
Proof. intros w a w' H. inversion H. subst. unfold bus_step. simpl. intuition lia. Qed.

Lemma keeps_out_of_fuel {A : Type} : keeps (@out_of_fuel A).
Proof. intros w a w' H. discriminate. Qed.

Create HintDb keeps_db.
#[export] Hint Resolve keeps_ret keeps_tx keeps_delay keeps_time_get
  keeps_get_block_buf keeps_put_block_buf keeps_out_of_fuel : keeps_db.

Ltac keeps_tac :=
  repeat first
    [ solve [auto with keeps_db]
    | apply keeps_bind; [|intros ?]
    | match goal with
      | |- keeps (if ?c then _ else _) => destruct c
      | |- keeps (let _ := _ in _) => cbv zeta
      end ].

Lemma keeps_poll_response (n : nat) (mmc : mmc_cfg) :
  forall s, keeps (poll_response n mmc s).
Proof. induction n as [|n IH]; intros s; cbn [poll_response]; keeps_tac. Qed.
#[export] Hint Resolve keeps_poll_response : keeps_db.

Lemma keeps_send_mmc_cmd_rec (d : nat) (mmc : mmc_cfg) :
  forall cmd payload, keeps (send_mmc_cmd_rec d mmc cmd payload).
Proof.
  induction d as [|d IH]; intros cmd payload; cbn [send_mmc_cmd_rec]; keeps_tac.
Qed.
#[export] Hint Resolve keeps_send_mmc_cmd_rec : keeps_db.

Lemma keeps_send_mmc_cmd (mmc : mmc_cfg) (cmd payload : Z) :
  keeps (send_mmc_cmd mmc cmd payload).
Proof. apply keeps_send_mmc_cmd_rec. Qed.
#[export] Hint Resolve keeps_send_mmc_cmd : keeps_db.

Lemma keeps_clock_idle (n : nat) (mmc : mmc_cfg) : keeps (clock_idle n mmc).
Proof. induction n as [|n IH]; cbn [clock_idle]; keeps_tac. Qed.
#[export] Hint Resolve keeps_clock_idle : keeps_db.

Lemma keeps_recv_resp (n : nat) (mmc : mmc_cfg) : keeps (recv_resp n mmc).
Proof. induction n as [|n IH]; cbn [recv_resp]; keeps_tac. Qed.
#[export] Hint Resolve keeps_recv_resp : keeps_db.

Lemma keeps_recv_block (todo : nat) (mmc : mmc_cfg) :
  forall n, keeps (recv_block todo n mmc).
Proof. induction todo as [|todo IH]; intros n; cbn [recv_block]; keeps_tac. Qed.
#[export] Hint Resolve keeps_recv_block : keeps_db.

Lemma keeps_send_block (todo : nat) (mmc : mmc_cfg) :
  forall n, keeps (send_block todo n mmc).
Proof. induction todo as [|todo IH]; intros n; cbn [send_block]; keeps_tac. Qed.
#[export] Hint Resolve keeps_send_block : keeps_db.

Lemma keeps_poll_until (fuel : nat) (mmc : mmc_cfg) (stop : Z -> bool) (d timeout : Z) :
  keeps (poll_until fuel mmc stop d timeout).
Proof. induction fuel as [|fuel IH]; cbn [poll_until]; keeps_tac. Qed.
#[export] Hint Resolve keeps_poll_until : keeps_db.

Lemma keeps_read_blocks (c : nat) (mmc : mmc_cfg) :
  forall buf offset len index, keeps (read_blocks c mmc buf offset len index).
Proof.
  induction c as [|c IH]; intros buf offset len index; cbn [read_blocks]; keeps_tac.
Qed.
#[export] Hint Resolve keeps_read_blocks : keeps_db.

Lemma keeps_write_blocks (fuel : nat) (mmc : mmc_cfg) (cmd : Z) (buf : list Z) :
  forall offset len index, keeps (write_blocks fuel mmc cmd buf offset len index).
Proof.
  induction fuel as [|fuel IH]; intros offset len index; cbn [write_blocks]; keeps_tac.
Qed.
#[export] Hint Resolve keeps_write_blocks : keeps_db.

Lemma keeps_wait_op_cond (tps : Z) (fuel : nat) (mmc : mmc_cfg) (timeout : Z) :
  keeps (wait_op_cond tps fuel mmc timeout).
Proof.
  induction fuel as [|fuel IH]; cbn [wait_op_cond]; keeps_tac.
Qed.
#[export] Hint Resolve keeps_wait_op_cond : keeps_db.

Lemma keeps_wait_start_token (tps : Z) (fuel : nat) (mmc : mmc_cfg) :
  keeps (wait_start_token tps fuel mmc).
Proof. unfold wait_start_token. keeps_tac. Qed.
#[export] Hint Resolve keeps_wait_start_token : keeps_db.

Lemma keeps_wait_not_busy (tps : Z) (fuel : nat) (mmc : mmc_cfg) :
  keeps (wait_not_busy tps fuel mmc).
Proof. unfold wait_not_busy. keeps_tac. Qed.
#[export] Hint Resolve keeps_wait_not_busy : keeps_db.

Lemma keeps_mmc_init_card (tps : Z) (fuel : nat) (mmc : mmc_cfg) :
  keeps (mmc_init_card tps fuel mmc).
Proof. unfold mmc_init_card. keeps_tac. Qed.

#[export] Hint Resolve keeps_mmc_init_card : keeps_db.

(** A computation that ends by raising a pin leaves that pin high and
    nothing else changed. *)
Lemma gpio_write_then_ret {A : Type} (pin : Z) (a b : A) (w w' : world) :
  (hal_gpio_write pin 1 ;; ret a) w = Some (b, w') ->
  a = b /\ gpio w' pin = 1 /\ g_mmc_cfg w' = g_mmc_cfg w.
Proof.
  intros H. inv_bind H. inv_ret H. inversion Hrun; subst.
  split; [reflexivity|]. split; [|reflexivity].
  cbn [gpio with_gpio]. unfold set_pin. now rewrite Z.eqb_refl.
Qed.

Lemma gpio_write_then_ret_bus {A : Type} (pin : Z) (a b : A) (w w' : world) :
  (hal_gpio_write pin 1 ;; ret a) w = Some (b, w') ->
  mosi w' = mosi w /\ miso w' = miso w /\ g_block_buf w' = g_block_buf w
  /\ ticks w' = ticks w.
Proof.
  intros H. inv_bind H. inv_ret H. inversion Hrun; subst. auto.
Qed.

(** ** The exit paths of the three calls *)

Ltac run_inv H :=
  repeat match type of H with
         | bind _ _ _ = Some _ => inv_bind H
         | ret _ _ = Some _ => inv_ret H
         | (if ?c then _ else _) _ = Some _ => destruct c eqn:?
         | (match ?o with Some _ => _ | None => _ end) _ = Some _ => destruct o eqn:?
         end.

Ltac use_keeps :=
  repeat match goal with
         | H : ?m ?w = Some (?a, ?w') |- _ =>
             lazymatch goal with
             | _ : bus_step w w' |- _ => fail
             | _ => assert (bus_step w w')
                 by (refine ((_ : keeps m) w a w' H); auto with keeps_db)
             end
         end.

Lemma cfg_dev_run (id : Z) (w : world) (o : option mmc_cfg) (w' : world) :
  mmc_cfg_dev id w = Some (o, w') ->
  w' = w /\ o = (if id =? 0 then Some (g_mmc_cfg w) else None).
Proof.
  unfold mmc_cfg_dev. destruct (id =? 0); cbn [negb]; intros H.
  - inv_bind H. inv_ret H. inversion Hrun. now subst.
  - now inv_ret H.
Qed.

Lemma gpio_write_run (pin val : Z) (w : world) (u : unit) (w' : world) :
  hal_gpio_write pin val w = Some (u, w') ->
  g_mmc_cfg w' = g_mmc_cfg w /\ gpio w' pin = val.
Proof.
  intros H. inversion H; subst. split; [reflexivity|].
  cbn [gpio with_gpio]. unfold set_pin. now rewrite Z.eqb_refl.
Qed.

(** Every return of [mmc_read]: without a handle nothing is touched; with
    it, the chip-select pin was last driven high, and the caller's buffer
    is as it was unless the result is [MMC_OK]. *)
Lemma mmc_read_exits (tps : Z) (fuel : nat) (id addr : Z) (buf : list Z) (len : Z)
      (w : world) (rc : mmc_status) (buf' : list Z) (w' : world) :
  mmc_read tps fuel id addr buf len w = Some ((rc, buf'), w') ->
  (id <> 0 /\ w' = w /\ rc = MMC_DEVICE_ERROR /\ buf' = buf)
  \/ (id = 0 /\ g_mmc_cfg w' = g_mmc_cfg w
      /\ gpio w' (ss_pin (g_mmc_cfg w)) = 1
      /\ ((rc = MMC_CARD_ERROR /\ buf' = buf) \/ rc = MMC_OK)).
Proof.
  unfold mmc_read. intros H. inv_bind H.
  apply cfg_dev_run in Hrun. destruct Hrun as [-> ->].
  destruct (Z.eqb_spec id 0) as [->|Hid].
  - right. split; [reflexivity|].
    inv_bind H. apply gpio_write_run in Hrun. destruct Hrun as [Hc0 _].
    inv_bind H.
    assert (Hc1 : g_mmc_cfg w1 = g_mmc_cfg w).
    { use_keeps. unfold bus_step in *. intuition congruence. }
    destruct (negb (a0 =? 0)).
    + apply gpio_write_then_ret in H. destruct H as (Heq & Hpin & Hc).
      inversion Heq; subst. intuition congruence.
    + inv_bind H. destruct (a1 =? 254).
      * inv_bind H. inv_bind H.
        assert (Hc2 : g_mmc_cfg w4 = g_mmc_cfg w).
        { use_keeps.
          assert (bus_step w3 w4).
          { destruct (_ =? CMD18) in Hrun2; [|inv_ret Hrun2; apply bus_step_refl].
            inv_bind Hrun2. inv_ret Hrun2. use_keeps. assumption. }
          unfold bus_step in *. intuition congruence. }
        apply gpio_write_then_ret in H. destruct H as (Heq & Hpin & Hc).
        inversion Heq; subst. intuition congruence.
      * assert (Hc2 : g_mmc_cfg w2 = g_mmc_cfg w).
        { use_keeps. unfold bus_step in *. intuition congruence. }
        apply gpio_write_then_ret in H. destruct H as (Heq & Hpin & Hc).
        inversion Heq; subst. intuition congruence.
  - left. inv_ret H.
    match goal with E : (_, _) = (_, _) |- _ => inversion E; subst end. auto.
Qed.


Ltac chain :=
  solve [ apply bus_step_refl
        | eassumption
        | eapply bus_step_trans; [eassumption | chain] ].

(** The block loop of [mmc_write] returns the answer to its last exchange. *)
Lemma write_blocks_token (fuel : nat) (mmc : mmc_cfg) (cmd : Z) (buf : list Z) :
  forall offset len index w tok w',
    write_blocks fuel mmc cmd buf offset len index w = Some (tok, w') ->
    tok = rx w (length (mosi w') - 1)
    /\ (length (mosi w) < length (mosi w'))%nat.
Proof.
  induction fuel as [|fuel IH]; intros offset len index w tok w' H;
    [discriminate|].
  cbn [write_blocks] in H.
  inv_bind H. inv_bind H. inv_bind H. inv_bind H. inv_bind H. inv_bind H.
  inv_bind H.
  assert (Hstep : bus_step w w5).
  { assert (bus_step w w0) by (destruct (cmd =? CMD24); use_keeps; assumption).
    use_keeps. chain. }
  inversion Hrun5; subst. cbv zeta in H. fold (sent w5 [255]) in H.
  assert (Hm : miso w5 = miso w) by (unfold bus_step in Hstep; tauto).
  assert (Hlen : (length (mosi w) <= length (mosi w5))%nat)
    by (unfold bus_step in Hstep; tauto).
  assert (Hlast : rx w (length (mosi (sent w5 [255])) - 1)
                  = u8 (miso w5 (length (mosi w5)))).
  { rewrite mosi_sent, length_app. cbn [length]. unfold rx. rewrite Hm.
    f_equal. f_equal. lia. }
  assert (Hlt : (length (mosi w) < length (mosi (sent w5 [255%Z])))%nat).
  { rewrite mosi_sent, length_app. cbn [length]. lia. }
  destruct (negb (Z.land (u8 (miso w5 (length (mosi w5)))) 31 =? 5)).
  - inv_ret H. rewrite Hlast. split; [reflexivity | exact Hlt].
  - destruct (truthy _) in H.
    + apply IH in H. destruct H as [Htok Hl]. split; [|lia].
      rewrite Htok. unfold rx. cbn [miso sent with_mosi]. rewrite Hm. reflexivity.
    + inv_ret H. rewrite Hlast. split; [reflexivity | exact Hlt].
Qed.

(** A timed poll sends filler bytes only, at least one, and returns the
    answer to the last. *)
Lemma poll_until_sent (fuel : nat) (mmc : mmc_cfg) (stop : Z -> bool) (d timeout : Z) :
  forall w res w',
    poll_until fuel mmc stop d timeout w = Some (res, w') ->
    exists j : nat,
      (1 <= j)%nat
      /\ mosi w' = mosi w ++ repeat 0xff j
      /\ res = rx w (length (mosi w) + j - 1).
Proof.
  induction fuel as [|fuel IH]; intros w res w' H; [discriminate|].
  cbn [poll_until] in H. inv_bind H. inversion Hrun; subst. clear Hrun.
  cbv zeta in H. fold (sent w [255]) in H.
  assert (Hone : rx w (length (mosi w) + 1 - 1) = u8 (miso w (length (mosi w)))).
  { unfold rx. do 2 f_equal. lia. }
  destruct (stop (u8 (miso w (length (mosi w))))).
  - inv_ret H. exists 1%nat. rewrite Hone. auto.
  - inv_bind H. inversion Hrun; subst. clear Hrun.
    inv_bind H. inversion Hrun; subst. clear Hrun.
    destruct (_ <? timeout) in H.
    + apply IH in H. destruct H as (j & Hj & Hm & Hres).
      exists (S j). split; [lia|].
      cbn [mosi sent with_mosi with_ticks] in Hm.
      split.
      * rewrite Hm, <- app_assoc. reflexivity.
      * rewrite Hres. unfold rx. cbn [miso mosi sent with_mosi with_ticks].
        rewrite length_app. cbn [length]. do 2 f_equal. lia.
    + inv_ret H. exists 1%nat. rewrite Hone. auto.
Qed.

Ltac steps w w' := assert (bus_step w w') by (use_keeps; chain).

(** Every return of [mmc_write]. *)
Lemma mmc_write_exits (tps : Z) (fuel : nat) (id addr : Z) (buf : list Z) (len : Z)
      (w : world) (rc : mmc_status) (w' : world) :
  mmc_write tps fuel id addr buf len w = Some (rc, w') ->
  (id <> 0 /\ w' = w /\ rc = MMC_DEVICE_ERROR)
  \/ (id = 0 /\ g_mmc_cfg w' = g_mmc_cfg w
      /\ gpio w' (ss_pin (g_mmc_cfg w)) = 1
      /\ (rc = MMC_CARD_ERROR
          \/ exists (cmd : Z) (wl wl' : world) (tok : Z),
              write_blocks fuel (g_mmc_cfg w) cmd buf (offset_of addr) len 0 wl
              = Some (tok, wl')
              /\ miso wl = miso w
              /\ (exists j : nat, (1 <= j)%nat /\ mosi w' = mosi wl' ++ repeat 0xff j)
              /\ rc = write_status tok)).
Proof.
  unfold mmc_write. intros H. inv_bind H.
  apply cfg_dev_run in Hrun. destruct Hrun as [-> ->].
  destruct (Z.eqb_spec id 0) as [->|Hid].
  - right. split; [reflexivity|].
    inv_bind H.
    assert (Hsel : g_mmc_cfg w0 = g_mmc_cfg w /\ miso w0 = miso w)
      by (inversion Hrun; subst; split; reflexivity).
    destruct Hsel as [Hc0 Hm0].
    inv_bind H.
    assert (Hearly : a0 = None /\ bus_step w0 w1
                     \/ a0 = Some MMC_CARD_ERROR
                        /\ g_mmc_cfg w1 = g_mmc_cfg w
                        /\ gpio w1 (ss_pin (g_mmc_cfg w)) = 1).
    { destruct (truthy (offset_of addr)).
      - unfold write_preread in Hrun0. inv_bind Hrun0.
        destruct (negb (a1 =? 0)).
        + right. apply gpio_write_then_ret in Hrun0.
          destruct Hrun0 as (<- & Hpin & Hc). steps w0 w2.
          unfold bus_step in *. intuition congruence.
        + inv_bind Hrun0. destruct (negb (a2 =? 254)).
          * right. apply gpio_write_then_ret in Hrun0.
            destruct Hrun0 as (<- & Hpin & Hc). steps w0 w3.
            unfold bus_step in *. intuition congruence.
          * left. inv_bind Hrun0. inv_bind Hrun0. inv_bind Hrun0. inv_ret Hrun0.
            split; [reflexivity|]. use_keeps. chain.
      - left. inv_ret Hrun0. split; [reflexivity | apply bus_step_refl]. }
    destruct Hearly as [[-> Hstep]|(-> & Hc & Hpin)].
    + unfold write_transfer in H. inv_bind H.
      destruct (negb (a0 =? 0)).
      * apply gpio_write_then_ret in H. destruct H as (<- & Hpin & Hc).
        steps w1 w2. unfold bus_step in *. intuition congruence.
      * inv_bind H. inv_bind H. inv_bind H.
        pose proof (gpio_write_then_ret_bus _ _ _ _ _ H) as (Hmo & _).
        apply gpio_write_then_ret in H. destruct H as (<- & Hpin & Hc).
        steps w1 w3. steps w3 w5.
        split; [unfold bus_step in *; intuition congruence|].
        split; [exact Hpin|]. right.
        exists (if block_count_of len =? 1 then CMD24 else CMD25), w3, w4, a2.
        split; [exact Hrun3|].
        split; [unfold bus_step in *; intuition congruence|].
        split; [|reflexivity].
        unfold wait_not_busy in Hrun4. inv_bind Hrun4.
        inversion Hrun5; subst. clear Hrun5.
        apply poll_until_sent in Hrun4. destruct Hrun4 as (j & Hj & Hm & _).
        exists j. split; [exact Hj|]. congruence.
    + inv_ret H. auto.
  - left. inv_ret H. auto.
Qed.

(** Every return of [mmc_init]: the handle holds the arguments of the
    call, and its chip-select pin was last driven high. *)
Lemma mmc_init_exits (tps : Z) (fuel : nat) (n c p : Z)
      (w : world) (rc : mmc_status) (w' : world) :
  mmc_init tps fuel n c p w = Some (rc, w') ->
  g_mmc_cfg w' = mk_cfg n p c (Some mmc_settings)
  /\ gpio w' p = 1.
Proof.
  unfold mmc_init. intros H.
  inv_bind H. inversion Hrun; subst. clear Hrun.
  inv_bind H. inversion Hrun; subst. clear Hrun.
  cbn [g_mmc_cfg with_cfg ss_pin spi_num spi_cfg settings] in H.
  inv_bind H.
  assert (Hinit : g_mmc_cfg w0 = mk_cfg n p c (Some mmc_settings) /\ gpio w0 p = 1).
  { inversion Hrun; subst. split; [reflexivity|].
    cbn [gpio with_gpio]. unfold set_pin. now rewrite Z.eqb_refl. }
  clear Hrun. destruct Hinit as [Hc Hp].
  inv_bind H. inversion Hrun; subst. clear Hrun.
  destruct (truthy (spi_init_rc w1)); [inv_ret H; auto|].
  inv_bind H. inversion Hrun; subst. clear Hrun.
  destruct (truthy (spi_config_rc w0)); [inv_ret H; auto|].
  do 6 inv_bind H. inv_bind H.
  apply gpio_write_then_ret in H. destruct H as (<- & Hpin & Hc').
  split; [|exact Hpin].
  assert (g_mmc_cfg w4 = g_mmc_cfg w3) by (inversion Hrun2; reflexivity).
  assert (g_mmc_cfg w3 = g_mmc_cfg w2) by (inversion Hrun1; reflexivity).
  inversion Hrun; subst. inversion Hrun0; subst.
  steps w4 w7. unfold bus_step in *. intuition congruence.
Qed.


Lemma write_status_class (tok : Z) :
  write_status tok = data_response_class (Z.land tok 0x1f).
Proof.
  unfold write_status, data_response_class. cbv zeta.
  destruct (Z.land tok 31 =? 5); [reflexivity|].
  destruct (Z.land tok 31 =? 11); [reflexivity|].
  destruct (Z.land tok 31 =? 13); reflexivity.
Qed.


(** ** Arrays *)

Lemma length_store (l : list Z) : forall n v, length (store l n v) = length l.
Proof.
  induction l as [|h t IH]; intros [|n] v; cbn [store length]; auto.
Qed.

Lemma firstn_store (l : list Z) :
  forall n v, (n < length l)%nat -> firstn (S n) (store l n v) = firstn n l ++ [v].
Proof.
  induction l as [|h t IH]; intros [|n] v Hn; cbn [length] in Hn; try lia.
  - reflexivity.
  - cbn [store]. change (firstn (S (S n)) (h :: store t n v))
      with (h :: firstn (S n) (store t n v)).
    rewrite IH by lia. reflexivity.
Qed.

Lemma skipn_store (l : list Z) :
  forall n m v, (n < m)%nat -> skipn m (store l n v) = skipn m l.
Proof.
  induction l as [|h t IH]; intros [|n] [|m] v Hn; try lia; cbn [store skipn];
    try reflexivity.
  apply IH. lia.
Qed.

Lemma skipn_cons_nth (l : list Z) :
  forall n, (n < length l)%nat -> skipn n l = nth n l 0 :: skipn (S n) l.
Proof.
  induction l as [|h t IH]; intros [|n] Hn; cbn [length] in Hn; try lia.
  - reflexivity.
  - cbn [skipn nth]. apply IH. lia.
Qed.

(** ** The byte loops, exactly *)

Lemma clock_idle_run (n : nat) (mmc : mmc_cfg) :
  forall w, clock_idle n mmc w = Some (tt, sent w (repeat 0xff n)).
Proof.
  induction n as [|n IH]; intros w; cbn [clock_idle repeat].
  - unfold ret. now rewrite sent_nil.
  - rewrite (bind_run _ _ _ _ _ (tx_run _ _ w)). rewrite IH, sent_sent.
    reflexivity.
Qed.

Lemma recv_resp_run (n : nat) (mmc : mmc_cfg) :
  forall w,
    recv_resp n mmc w
    = Some (map (rx w) (seq (length (mosi w)) n), sent w (repeat 0xff n)).
Proof.
  induction n as [|n IH]; intros w; cbn [recv_resp repeat seq map].
  - unfold ret. now rewrite sent_nil.
  - rewrite (bind_run _ _ _ _ _ (tx_run _ _ w)).
    rewrite (bind_run _ _ _ _ _ (IH _)). unfold ret.
    rewrite sent_sent, mosi_sent, length_app. cbn [length app].
    replace (length (mosi w) + 1)%nat with (S (length (mosi w))) by lia.
    reflexivity.
Qed.

Lemma send_block_run (todo : nat) (mmc : mmc_cfg) :
  forall n w,
    (n + todo <= length (g_block_buf w))%nat ->
    send_block todo n mmc w
    = Some (tt, sent w (firstn todo (skipn n (g_block_buf w)))).
Proof.
  induction todo as [|todo IH]; intros n w Hn; cbn [send_block].
  - cbn [firstn]. unfold ret. now rewrite sent_nil.
  - unfold get_block_buf. unfold bind at 1.
    rewrite (bind_run _ _ _ _ _ (tx_run _ _ w)).
    rewrite IH by (cbn [g_block_buf sent with_mosi]; lia).
    rewrite sent_sent. cbn [g_block_buf sent with_mosi].
    rewrite (skipn_cons_nth (g_block_buf w) n) by lia. reflexivity.
Qed.

Lemma recv_block_run (todo : nat) (mmc : mmc_cfg) :
  forall n w,
    (n + todo <= length (g_block_buf w))%nat ->
    recv_block todo n mmc w
    = Some (tt, with_block_buf
                  (firstn n (g_block_buf w)
                     ++ map (rx w) (seq (length (mosi w)) todo)
                     ++ skipn (n + todo) (g_block_buf w))
                  (sent w (repeat 0xff todo))).
Proof.
  induction todo as [|todo IH]; intros n w Hn; cbn [recv_block].
  - cbn [seq map repeat app]. rewrite Nat.add_0_r, firstn_skipn, sent_nil.
    unfold ret. destruct w; reflexivity.
  - rewrite (bind_run _ _ _ _ _ (tx_run _ _ w)).
    unfold get_block_buf, put_block_buf. unfold bind at 1. unfold bind at 1.
    rewrite IH by (cbn [g_block_buf with_block_buf]; rewrite length_store;
                   cbn [g_block_buf sent with_mosi]; lia).
    cbn [g_block_buf mosi miso with_block_buf sent with_mosi].
    rewrite firstn_store by lia.
    rewrite skipn_store by lia.
    rewrite length_app. cbn [length seq map repeat].
    unfold sent, with_block_buf, with_mosi, rx.
    cbn [g_mmc_cfg g_block_buf gpio ticks miso mosi spi_init_rc spi_config_rc].
    replace (length (mosi w) + 1)%nat with (S (length (mosi w))) by lia.
    replace (S n + todo)%nat with (n + S todo)%nat by lia.
    rewrite <- !app_assoc. cbn [app]. reflexivity.
Qed.

(** A full block: 512 exchanges fill [g_block_buf] with the answers. *)
Lemma recv_full_block (mmc : mmc_cfg) (w : world) :
  length (g_block_buf w) = 512%nat ->
  recv_block 512 0 mmc w
  = Some (tt, with_block_buf (map (rx w) (seq (length (mosi w)) 512))
                             (sent w (repeat 0xff 512))).
Proof.
  intros Hl. rewrite recv_block_run by lia.
  rewrite firstn_O. cbn [app].
  replace (0 + 512)%nat with 512%nat by reflexivity.
  rewrite skipn_all2 by lia. now rewrite app_nil_r.
Qed.

Lemma send_full_block (mmc : mmc_cfg) (w : world) :
  length (g_block_buf w) = 512%nat ->
  send_block 512 0 mmc w = Some (tt, sent w (g_block_buf w)).
Proof.
  intros Hl. rewrite send_block_run by lia.
  rewrite skipn_O. rewrite firstn_all2 by lia. reflexivity.
Qed.

(** ** Polls that find what they wait for *)

Lemma poll_response_hit (k : nat) (mmc : mmc_cfg) :
  forall n s0 w,
    (k < n)%nat ->
    (forall i, (i < k)%nat -> Z.land (rx w (length (mosi w) + i)) 0x80 <> 0) ->
    Z.land (rx w (length (mosi w) + k)) 0x80 = 0 ->
    poll_response n mmc s0 w
    = Some (rx w (length (mosi w) + k), sent w (repeat 0xff (S k))).
Proof.
  induction k as [|k IH]; intros n s0 w Hn Hbusy Hhit;
    (destruct n as [|n]; [lia|]); cbn [poll_response];
    rewrite (bind_run _ _ _ _ _ (tx_run _ _ w)).
  - rewrite Nat.add_0_r in Hhit. unfold rx in Hhit.
    apply Z.eqb_eq in Hhit. rewrite Hhit. unfold ret, rx.
    now rewrite Nat.add_0_r.
  - pose proof (Hbusy 0%nat ltac:(lia)) as H0. rewrite Nat.add_0_r in H0.
    unfold rx in H0. apply Z.eqb_neq in H0. rewrite H0.
    rewrite (IH n _ (sent w [255])).
    + rewrite sent_sent, mosi_sent, length_app. cbn [length app repeat].
      unfold rx. cbn [miso sent with_mosi].
      replace (length (mosi w) + 1 + k)%nat with (length (mosi w) + S k)%nat by lia.
      reflexivity.
    + lia.
    + intros i Hi. rewrite mosi_sent, length_app. cbn [length].
      unfold rx. cbn [miso sent with_mosi].
      replace (length (mosi w) + 1 + i)%nat with (length (mosi w) + S i)%nat by lia.
      apply (Hbusy (S i)). lia.
    + rewrite mosi_sent, length_app. cbn [length].
      unfold rx. cbn [miso sent with_mosi].
      replace (length (mosi w) + 1 + k)%nat with (length (mosi w) + S k)%nat by lia.
      exact Hhit.
Qed.

(** A command without the marker that the card answers. *)
Lemma send_plain_cmd_hit (mmc : mmc_cfg) (cmd payload : Z) (w : world) (k : nat) (st : Z) :
  truthy (Z.land cmd 0x80) = false ->
  answers w (length (mosi w)) k st ->
  send_mmc_cmd mmc cmd payload w
  = Some (st, sent w (frame cmd payload ++ repeat 0xff (S k))).
Proof.
  intros Hm (Hk & Hbusy & Hst & Hhi).
  unfold send_mmc_cmd. rewrite send_mmc_cmd_rec_S, Hm.
  unfold bind at 1. unfold ret at 1. unfold frame_body.
  repeat (rewrite (bind_run _ _ _ _ _ (tx_run _ _ _)); rewrite ?sent_sent).
  cbn [app].
  rewrite (poll_response_hit k).
  - rewrite sent_sent, mosi_sent, length_app. cbn [length].
    unfold rx in *. cbn [miso sent with_mosi]. rewrite Hst. reflexivity.
  - lia.
  - intros i Hi. rewrite mosi_sent, length_app. cbn [length].
    unfold rx in *. cbn [miso sent with_mosi]. now apply Hbusy.
  - rewrite mosi_sent, length_app. cbn [length].
    unfold rx in *. cbn [miso sent with_mosi]. rewrite Hst. exact Hhi.
Qed.

(** ** The 32-bit counter *)

Lemma os_time_t_range (t : Z) : 0 <= os_time_t t < 2 ^ 32.
Proof. unfold os_time_t. apply Z.mod_pos_bound. reflexivity. Qed.

Lemma os_time_t_small (t : Z) : 0 <= t < 2 ^ 32 -> os_time_t t = t.
Proof. intros H. unfold os_time_t. apply Z.mod_small. exact H. Qed.

(** The reading moves with the ticks as long as it stays below 2^32. *)
Lemma os_time_t_add (t x : Z) :
  0 <= x -> os_time_t t + x < 2 ^ 32 -> os_time_t (t + x) = os_time_t t + x.
Proof.
  intros Hx Hlt. pose proof (os_time_t_range t) as Hr. unfold os_time_t in *.
  rewrite <- Zplus_mod_idemp_l. apply Z.mod_small. lia.
Qed.

Lemma no_wrap_later (w w1 : world) (b1 b2 : Z) :
  0 <= b2 ->
  ticks w <= ticks w1 <= ticks w + b1 ->
  no_wrap w (b1 + b2) ->
  no_wrap w1 b2.
Proof.
  unfold no_wrap. intros Hb Ht Hw.
  replace (ticks w1) with (ticks w + (ticks w1 - ticks w)) by lia.
  rewrite os_time_t_add by lia. lia.
Qed.

Lemma no_wrap_less (w : world) (b b' : Z) : b <= b' -> no_wrap w b' -> no_wrap w b.
Proof. unfold no_wrap. lia. Qed.

(** ** Timed polls *)

Lemma poll_until_hit (j : nat) (mmc : mmc_cfg) (stop : Z -> bool) (d timeout : Z) :
  forall fuel w,
    (j < fuel)%nat ->
    (forall i, (i < j)%nat ->
               stop (rx w (length (mosi w) + i)) = false
               /\ os_time_t (ticks w + (Z.of_nat i + 1) * d) < timeout) ->
    stop (rx w (length (mosi w) + j)) = true ->
    poll_until fuel mmc stop d timeout w
    = Some (rx w (length (mosi w) + j),
            with_ticks (ticks w + Z.of_nat j * d) (sent w (repeat 0xff (S j)))).
Proof.
  induction j as [|j IH]; intros fuel w Hf Hwait Hhit;
    (destruct fuel as [|fuel]; [lia|]); cbn [poll_until];
    rewrite (bind_run _ _ _ _ _ (tx_run _ _ w)); cbv zeta.
  - rewrite Nat.add_0_r in Hhit. unfold rx in Hhit. rewrite Hhit.
    unfold ret, rx. rewrite Nat.add_0_r. cbn [Z.of_nat]. rewrite Z.mul_0_l, Z.add_0_r.
    reflexivity.
  - destruct (Hwait 0%nat ltac:(lia)) as [Hs Ht].
    rewrite Nat.add_0_r in Hs. unfold rx in Hs. rewrite Hs.
    unfold os_time_delay, os_time_get. unfold bind at 1. unfold bind at 1.
    cbn [ticks with_ticks sent with_mosi].
    cbn [Z.of_nat] in Ht. rewrite Z.add_0_l, Z.mul_1_l in Ht.
    apply Z.ltb_lt in Ht. rewrite Ht.
    rewrite (IH fuel).
    + unfold rx, sent, with_ticks, with_mosi.
      cbn [g_mmc_cfg g_block_buf gpio ticks miso mosi spi_init_rc spi_config_rc].
      rewrite length_app. cbn [length repeat].
      replace (length (mosi w) + 1 + j)%nat with (length (mosi w) + S j)%nat by lia.
      rewrite <- app_assoc. cbn [app].
      replace (ticks w + d + Z.of_nat j * d) with (ticks w + Z.of_nat (S j) * d) by lia.
      reflexivity.
    + lia.
    + intros i Hi. destruct (Hwait (S i) ltac:(lia)) as [Hs' Ht'].
      unfold rx in *. cbn [miso mosi ticks with_ticks sent with_mosi].
      rewrite length_app. cbn [length].
      replace (length (mosi w) + 1 + i)%nat with (length (mosi w) + S i)%nat by lia.
      split; [exact Hs'|].
      replace (ticks w + d + (Z.of_nat i + 1) * d)
        with (ticks w + (Z.of_nat (S i) + 1) * d) by lia.
      exact Ht'.
    + unfold rx in *. cbn [miso mosi ticks with_ticks sent with_mosi].
      rewrite length_app. cbn [length].
      replace (length (mosi w) + 1 + j)%nat with (length (mosi w) + S j)%nat by lia.
      exact Hhit.
Qed.

(** A timed poll returns once its deadline has passed, if not before, and
    at most one sleep later: each round sleeps at least one tick, and the
    counter does not wrap before the deadline and one sleep are over. *)
Lemma poll_until_total (fuel : nat) (mmc : mmc_cfg) (stop : Z -> bool) (d timeout : Z) :
  forall w,
    1 <= d ->
    os_time_t (ticks w) <= timeout ->
    timeout + d < 2 ^ 32 ->
    timeout - os_time_t (ticks w) < Z.of_nat fuel ->
    exists res w',
      poll_until fuel mmc stop d timeout w = Some (res, w')
      /\ ticks w <= ticks w' <= ticks w + (timeout - os_time_t (ticks w)) + d.
Proof.
  induction fuel as [|fuel IH]; intros w Hd Hc Hw Ht; [lia|].
  cbn [poll_until]. rewrite (bind_run _ _ _ _ _ (tx_run _ _ w)). cbv zeta.
  destruct (stop _).
  { unfold ret. eexists. eexists. split; [reflexivity|].
    cbn [ticks sent with_mosi]. lia. }
  unfold os_time_delay, os_time_get. unfold bind at 1. unfold bind at 1.
  cbn [ticks with_ticks sent with_mosi].
  rewrite (os_time_t_add (ticks w) d) by lia.
  destruct (Z.ltb_spec (os_time_t (ticks w) + d) timeout) as [Hlt|Hge].
  - set (w1 := with_ticks (ticks w + d) (with_mosi (mosi w ++ [255]) w)).
    assert (Hc1 : os_time_t (ticks w1) = os_time_t (ticks w) + d).
    { unfold w1. cbn [ticks with_ticks]. apply os_time_t_add; lia. }
    destruct (IH w1) as (res & w' & Hrun & Hb); try lia.
    exists res, w'. split; [exact Hrun|].
    rewrite Hc1 in Hb. change (ticks w1) with (ticks w + d) in Hb. lia.
  - unfold ret. eexists. eexists. split; [reflexivity|].
    cbn [ticks with_ticks with_mosi]. lia.
Qed.

(** ** The address computation *)

Lemma block_addr_of_div (addr : Z) : block_addr_of addr = addr / 512.
Proof. reflexivity. Qed.

Lemma offset_of_mod (addr : Z) :
  0 <= addr < 2 ^ 32 -> offset_of addr = addr mod 512.
Proof.
  intros H. unfold offset_of, block_addr_of, u32, usize, BLOCK_LEN.
  change (2 ^ 32) with 4294967296 in *.
  Z.to_euclidean_division_equations. lia.
Qed.

Lemma land_lnot_511 (x : Z) :
  0 <= x < 2 ^ 32 ->
  Z.land x (usize (Z.lnot (BLOCK_LEN - 1))) = 512 * (x / 512).
Proof.
  intros Hx.
  change (usize (Z.lnot (BLOCK_LEN - 1))) with (Z.ones 32 - Z.ones 9).
  apply Z.bits_inj'. intros n Hn.
  rewrite Z.land_spec.
  change 512 with (2 ^ 9). rewrite (Z.mul_comm (2 ^ 9)).
  rewrite <- Z.shiftr_div_pow2, <- Z.shiftl_mul_pow2 by lia.
  destruct (Z.ltb_spec n 9) as [Hlt|Hge].
  - rewrite Z.shiftl_spec_low by lia.
    replace (Z.testbit (Z.ones 32 - Z.ones 9) n) with false; [apply andb_false_r|].
    symmetry. change (Z.ones 32 - Z.ones 9) with (Z.shiftl (Z.ones 23) 9).
    apply Z.shiftl_spec_low. lia.
  - rewrite Z.shiftl_spec by lia. rewrite Z.shiftr_spec by lia.
    replace (n - 9 + 9) with n by lia.
    change (Z.ones 32 - Z.ones 9) with (Z.shiftl (Z.ones 23) 9).
    rewrite Z.shiftl_spec by lia.
    destruct (Z.ltb_spec n 32) as [Hlt|Hge32].
    + rewrite Z.ones_spec_low by lia. apply andb_true_r.
    + rewrite Z.ones_spec_high by lia. rewrite andb_false_r.
      symmetry. apply Z.bits_above_log2; [lia|].
      destruct (Z.eq_dec x 0) as [->|Hx0]; [simpl; lia|].
      apply Z.log2_lt_pow2; [lia|].
      apply Z.lt_le_trans with (2 ^ 32); [lia|].
      apply Z.pow_le_mono_r; lia.
Qed.

(** Without wrap-around the block count is the length rounded up to whole
    blocks; the start address plays no part in it. *)
Lemma block_count_of_ceil (len : Z) :
  0 <= len <= 2 ^ 32 - 512 ->
  block_count_of len = (len + 511) / 512.
Proof.
  intros H. unfold block_count_of, block_len_of.
  assert (Hu : usize (len + BLOCK_LEN - 1) = len + 511).
  { unfold usize, BLOCK_LEN. replace (len + 512 - 1) with (len + 511) by lia.
    apply Z.mod_small. change (2 ^ 32) with 4294967296 in *. lia. }
  rewrite Hu. rewrite land_lnot_511.
  - unfold BLOCK_LEN. rewrite Z.mul_comm. apply Z.div_mul. lia.
  - change (2 ^ 32) with 4294967296 in *. lia.
Qed.

(** One round of the write loop with nothing left to write: the start
    token, the 512 bytes of [g_block_buf] as they stand, two CRC fillers
    and the exchange that reads the token. *)
Lemma write_blocks_len0 (fuel : nat) (mmc : mmc_cfg) (buf : list Z) (w : world) :
  length (g_block_buf w) = 512%nat ->
  write_blocks (S fuel) mmc CMD25 buf 0 0 0 w
  = Some (rx w (length (mosi w) + 515),
          sent w ([0xFC] ++ g_block_buf w ++ [0xff; 0xff; 0xff])).
Proof.
  intros Hl. cbn [write_blocks].
  change (CMD25 =? CMD24) with false. cbv iota.
  rewrite (bind_run _ _ _ _ _ (tx_run _ _ w)).
  unfold get_block_buf, put_block_buf. unfold bind at 1. unfold bind at 1.
  change (memcpy (g_block_buf (sent w [252])) (Z.to_nat 0) buf (Z.to_nat 0)
                 (Z.to_nat (MIN (usize (BLOCK_LEN - 0)) 0)))
    with (g_block_buf w).
  change (with_block_buf (g_block_buf w) (sent w [252])) with (sent w [252]).
  rewrite (bind_run _ _ _ _ _ (send_full_block mmc (sent w [252]) Hl)).
  repeat (rewrite (bind_run _ _ _ _ _ (tx_run _ _ _)); rewrite ?sent_sent).
  cbv zeta.
  change (usize (0 - MIN (usize (BLOCK_LEN - 0)) 0)) with 0.
  change (truthy 0) with false. cbv iota.
  change (g_block_buf (sent w [252])) with (g_block_buf w).
  rewrite <- ?app_assoc. cbn [app].
  assert (Hpos : length (mosi (sent w (252 :: g_block_buf w ++ [255; 255])))
                 = (length (mosi w) + 515)%nat).
  { rewrite mosi_sent, !length_app. cbn [length]. rewrite length_app, Hl.
    cbn [length]. lia. }
  rewrite Hpos. cbn [miso sent with_mosi]. unfold rx.
  destruct (negb _); reflexivity.
Qed.

(** The world a timed poll leaves: only filler bytes went out and only the
    clock moved. *)
Lemma poll_until_world (fuel : nat) (mmc : mmc_cfg) (stop : Z -> bool) (d timeout : Z) :
  forall w res w',
    poll_until fuel mmc stop d timeout w = Some (res, w') ->
    exists (j : nat) (t : Z),
      (1 <= j)%nat
      /\ w' = with_ticks t (sent w (repeat 0xff j))
      /\ res = rx w (length (mosi w) + j - 1).
Proof.
  induction fuel as [|fuel IH]; intros w res w' H; [discriminate H|].
  cbn [poll_until] in H. inv_bind H. inversion Hrun; subst. clear Hrun.
  cbv zeta in H. fold (sent w [255]) in H.
  assert (Hone : rx w (length (mosi w) + 1 - 1) = u8 (miso w (length (mosi w)))).
  { unfold rx. do 2 f_equal. lia. }
  destruct (stop (u8 (miso w (length (mosi w))))).
  - inv_ret H. exists 1%nat, (ticks w). rewrite Hone.
    split; [lia|]. split; reflexivity.
  - inv_bind H. inversion Hrun; subst. clear Hrun.
    inv_bind H. inversion Hrun; subst. clear Hrun.
    destruct (_ <? timeout) in H.
    + apply IH in H. destruct H as (j & t & Hj & Hw & Hres).
      exists (S j), t. split; [lia|]. split.
      * rewrite Hw. unfold sent, with_ticks, with_mosi.
        cbn [g_mmc_cfg g_block_buf gpio ticks miso mosi spi_init_rc spi_config_rc].
        rewrite <- app_assoc. reflexivity.
      * rewrite Hres. unfold rx. cbn [miso mosi sent with_mosi with_ticks].
        rewrite length_app. cbn [length]. do 2 f_equal. lia.
    + inv_ret H. exists 1%nat, (ticks w + d). rewrite Hone.
      split; [lia|]. split; reflexivity.
Qed.

Lemma cfg_dev_0 (w : world) : mmc_cfg_dev 0 w = Some (Some (g_mmc_cfg w), w).
Proof. reflexivity. Qed.

Lemma gpio_write_eq (pin val : Z) (w : world) :
  hal_gpio_write pin val w = Some (tt, with_gpio (set_pin pin val (gpio w)) w).
Proof. reflexivity. Qed.

Lemma time_get_eq (w : world) : os_time_get w = Some (os_time_t (ticks w), w).
Proof. reflexivity. Qed.

Lemma ret_eq {A : Type} (a : A) (w : world) : ret a w = Some (a, w).
Proof. reflexivity. Qed.

Lemma set_pin_same (pin val : Z) (g : Z -> Z) : set_pin pin val g pin = val.
Proof. unfold set_pin. now rewrite Z.eqb_refl. Qed.

(** One round of the read loop: 512 answers fill [g_block_buf], two more
    are dropped, and [amount] bytes from [offset] on go to the caller. *)
Lemma read_blocks_S (c : nat) (mmc : mmc_cfg) (buf : list Z)
      (offset len index : Z) (w : world) :
  length (g_block_buf w) = 512%nat ->
  let amount := MIN (usize (BLOCK_LEN - offset)) len in
  let block := map (rx w) (seq (length (mosi w)) 512) in
  read_blocks (S c) mmc buf offset len index w
  = read_blocks c mmc
                (memcpy buf (Z.to_nat index) block (Z.to_nat offset) (Z.to_nat amount))
                0 (usize (len - amount)) (usize (index + amount))
                (with_block_buf block (sent w (repeat 0xff 512 ++ [0xff; 0xff]))).
Proof.
  intros Hl amount block. cbn [read_blocks].
  rewrite (bind_run _ _ _ _ _ (recv_full_block mmc w Hl)).
  unfold hal_spi_tx_val, get_block_buf. unfold bind at 1. unfold bind at 1.
  unfold bind at 1. cbv zeta.
  cbn [g_block_buf mosi miso with_block_buf sent with_mosi].
  fold amount. fold block.
  f_equal. unfold with_block_buf, with_mosi, sent.
  cbn [g_mmc_cfg g_block_buf gpio ticks miso mosi spi_init_rc spi_config_rc].
  rewrite <- !app_assoc. reflexivity.
Qed.

(** The deadline of a wait that starts in [w], where the counter does not
    wrap before it. *)
Lemma deadline_no_wrap (w : world) (q : Z) :
  0 <= q -> no_wrap w q -> os_time_t (os_time_t (ticks w) + q) = os_time_t (ticks w) + q.
Proof.
  intros Hq Hw. pose proof (os_time_t_range (ticks w)).
  apply os_time_t_small. unfold no_wrap in Hw. lia.
Qed.

Lemma wait_start_token_hit (tps : Z) (fuel : nat) (mmc : mmc_cfg) (w : world) (j : nat) :
  0 <= tps ->
  no_wrap w (Z.quot tps 5) ->
  (j < fuel)%nat ->
  token_after tps w (length (mosi w)) j ->
  wait_start_token tps fuel mmc w
  = Some (0xFE, with_ticks (ticks w + Z.of_nat j * Z.quot tps 20)
                           (sent w (repeat 0xff (S j)))).
Proof.
  intros Htps Hw Hf [Hwait Htok]. unfold wait_start_token.
  assert (Hd : 0 <= Z.quot tps 20) by (apply Z.quot_pos; lia).
  assert (Hq : 0 <= Z.quot tps 5) by (apply Z.quot_pos; lia).
  rewrite (bind_run _ _ _ _ _ (time_get_eq w)). cbv zeta.
  rewrite (deadline_no_wrap w _ Hq Hw).
  rewrite (poll_until_hit j).
  - rewrite Htok. reflexivity.
  - exact Hf.
  - intros i Hi. destruct (Hwait i Hi) as [Hff Ht].
    rewrite Hff. split; [reflexivity|].
    unfold no_wrap in Hw.
    rewrite os_time_t_add; [lia | apply Z.mul_nonneg_nonneg; lia | lia].
  - rewrite Htok. reflexivity.
Qed.

(** The two timed waits of the transfers return, one sleep past their
    deadline at the latest, where the tick rate lets a sleep last at least
    a tick, the fuel covers the deadline and the counter does not wrap
    before the deadline and one sleep are over. *)
Lemma wait_start_token_run (tps : Z) (fuel : nat) (mmc : mmc_cfg) (w : world) :
  20 <= tps ->
  Z.quot tps 5 < Z.of_nat fuel ->
  no_wrap w (Z.quot tps 5 + Z.quot tps 20) ->
  exists (res : Z) (j : nat) (t : Z),
    wait_start_token tps fuel mmc w
    = Some (res, with_ticks t (sent w (repeat 0xff j)))
    /\ (1 <= j)%nat
    /\ res = rx w (length (mosi w) + j - 1)
    /\ ticks w <= t <= ticks w + Z.quot tps 5 + Z.quot tps 20.
Proof.
  intros Htps Hf Hw. unfold wait_start_token.
  assert (Hq : Z.quot tps 20 = tps / 20) by (apply Z.quot_div_nonneg; lia).
  assert (Hd : 1 <= Z.quot tps 20)
    by (rewrite Hq; apply Z.div_le_lower_bound; lia).
  assert (Hq5 : 0 <= Z.quot tps 5) by (apply Z.quot_pos; lia).
  rewrite (bind_run _ _ _ _ _ (time_get_eq w)). cbv zeta.
  rewrite (deadline_no_wrap w _ Hq5)
    by (apply (no_wrap_less w (Z.quot tps 5) (Z.quot tps 5 + Z.quot tps 20));
        [lia | exact Hw]).
  unfold no_wrap in Hw.
  destruct (poll_until_total fuel mmc (fun res => negb (res =? 255))
                             (Z.quot tps 20) (os_time_t (ticks w) + Z.quot tps 5) w)
    as (res & w' & Hrun & Hb); [lia | lia | lia | lia |].
  destruct (poll_until_world _ _ _ _ _ _ _ _ Hrun) as (j & t & Hj & Hw' & Hres).
  exists res, j, t. rewrite Hrun, Hw'. split; [reflexivity|].
  split; [exact Hj|]. split; [exact Hres|].
  rewrite Hw' in Hb. cbn [ticks with_ticks] in Hb. lia.
Qed.

Lemma wait_not_busy_run (tps : Z) (fuel : nat) (mmc : mmc_cfg) (w : world) :
  100 <= tps ->
  5 * tps < Z.of_nat fuel ->
  no_wrap w (5 * tps + Z.quot tps 100) ->
  exists (res : Z) (j : nat) (t : Z),
    wait_not_busy tps fuel mmc w
    = Some (res, with_ticks t (sent w (repeat 0xff j)))
    /\ (1 <= j)%nat
    /\ res = rx w (length (mosi w) + j - 1)
    /\ ticks w <= t <= ticks w + 5 * tps + Z.quot tps 100.
Proof.
  intros Htps Hf Hw. unfold wait_not_busy.
  assert (Hq : Z.quot tps 100 = tps / 100) by (apply Z.quot_div_nonneg; lia).
  assert (Hd : 1 <= Z.quot tps 100)
    by (rewrite Hq; apply Z.div_le_lower_bound; lia).
  rewrite (bind_run _ _ _ _ _ (time_get_eq w)). cbv zeta.
  rewrite (deadline_no_wrap w (5 * tps))
    by first [lia
             | apply (no_wrap_less w (5 * tps) (5 * tps + Z.quot tps 100));
               [lia | exact Hw]].
  unfold no_wrap in Hw.
  destruct (poll_until_total fuel mmc truthy
                             (Z.quot tps 100) (os_time_t (ticks w) + 5 * tps) w)
    as (res & w' & Hrun & Hb); [lia | lia | lia | lia |].
  destruct (poll_until_world _ _ _ _ _ _ _ _ Hrun) as (j & t & Hj & Hw' & Hres).
  exists res, j, t. rewrite Hrun, Hw'. split; [reflexivity|].
  split; [exact Hj|]. split; [exact Hres|].
  rewrite Hw' in Hb. cbn [ticks with_ticks] in Hb. lia.
Qed.

Lemma firstn_seq_le (k : nat) :
  forall s n, (k <= n)%nat -> firstn k (seq s n) = seq s k.
Proof.
  induction k as [|k IH]; intros s n Hk; [reflexivity|].
  destruct n as [|n]; [lia|]. cbn [seq firstn]. f_equal. apply IH. lia.
Qed.

(** What the two rounds of a 600-byte read at offset 100 leave in the
    caller's buffer. *)
Lemma two_copies (f : nat -> Z) (d : nat) (buf : list Z) :
  (600 <= length buf)%nat ->
  memcpy (memcpy buf 0 (map f (seq d 512)) 100 412)
         412 (map f (seq (d + 514) 512)) 0 188
  = map f (seq (d + 100) 412) ++ map f (seq (d + 514) 188) ++ skipn 600 buf.
Proof.
  intros Hb. unfold memcpy.
  rewrite firstn_O, skipn_O. cbn [app].
  change (0 + 412)%nat with 412%nat. change (412 + 188)%nat with 600%nat.
  rewrite !skipn_map, !firstn_map.
  rewrite skipn_seq.
  change (512 - 100)%nat with 412%nat.
  rewrite (firstn_seq_le 412 (d + 100) 412) by lia.
  rewrite (firstn_seq_le 188 (d + 514) 512) by lia.
  set (a := map f (seq (d + 100) 412)).
  set (b := map f (seq (d + 514) 188)).
  assert (Ha : length a = 412%nat) by (unfold a; now rewrite length_map, length_seq).
  rewrite firstn_app, Ha. rewrite firstn_all2 by lia.
  change (412 - 412)%nat with 0%nat. rewrite firstn_O, app_nil_r.
  rewrite skipn_app, Ha. rewrite skipn_all2 by lia. cbn [app].
  change (600 - 412)%nat with 188%nat.
  rewrite skipn_skipn. reflexivity.
Qed.


(** ** The operating-condition wait *)

Lemma idle_status_timeout (status : Z) :
  Z.land status R_IDLE <> 0 ->
  truthy status = true /\ mmc_error_by_status status = MMC_TIMEOUT.
Proof.
  intros H.
  assert (Hnz : status <> 0) by (intros ->; apply H; reflexivity).
  apply Z.eqb_neq in Hnz. apply Z.eqb_neq in H.
  unfold truthy, mmc_error_by_status. rewrite Hnz.
  unfold truthy. rewrite H. split; reflexivity.
Qed.

(** On a card that keeps the idle flag set, the wait ends by the clock:
    with the first reading past the deadline, where the counter does not
    wrap before the deadline and one sleep are over. *)
Lemma wait_op_cond_idle (tps : Z) (mmc : mmc_cfg) (timeout : Z) (fuel : nat) :
  forall w,
    1 <= Z.quot tps 10 ->
    (forall n, (length (mosi w) <= n)%nat -> Z.land (rx w n) R_IDLE <> 0) ->
    os_time_t (ticks w) <= timeout ->
    timeout + Z.quot tps 10 < 2 ^ 32 ->
    timeout - os_time_t (ticks w) + 2 <= Z.of_nat fuel ->
    exists status w',
      wait_op_cond tps fuel mmc timeout w = Some (status, w')
      /\ Z.land status R_IDLE <> 0
      /\ status = rx w (length (mosi w') - 1)
      /\ timeout - os_time_t (ticks w) < ticks w' - ticks w
      /\ ticks w' - ticks w <= timeout - os_time_t (ticks w) + Z.quot tps 10
      /\ (length (mosi w) < length (mosi w'))%nat.
Proof.
  induction fuel as [|fuel IH]; intros w Hd Hidle Hc Hw Hf; [lia|].
  cbn [wait_op_cond].
  destruct (send_app_cmd_run mmc ACMD41 HCS w eq_refl) as (k' & k & Hk' & Hk & Hrun).
  rewrite (bind_run _ _ _ _ _ Hrun).
  set (pos := (length (mosi w) + (6 + k') + 6 + k - 1)%nat) in *.
  set (w1 := sent w _) in *.
  assert (Hlen1 : length (mosi w1) = S pos).
  { unfold w1, pos. rewrite mosi_sent, !length_app, !repeat_length.
    cbn [length frame]. lia. }
  assert (Hst : Z.land (rx w pos) R_IDLE <> 0) by (apply Hidle; unfold pos; lia).
  pose proof Hst as Hst'. apply Z.eqb_neq in Hst'. rewrite Hst'.
  rewrite (bind_run _ _ _ _ _ (time_get_eq w1)).
  change (ticks w1) with (ticks w).
  destruct (Z.gtb_spec (os_time_t (ticks w)) timeout) as [Hgt|Hle]; [lia|].
  unfold os_time_delay. unfold bind at 1.
  set (w2 := with_ticks _ w1).
  assert (Hc2 : os_time_t (ticks w2) = os_time_t (ticks w) + Z.quot tps 10).
  { unfold w2. cbn [ticks with_ticks]. change (ticks w1) with (ticks w).
    apply os_time_t_add; lia. }
  assert (Ht2 : ticks w2 = ticks w + Z.quot tps 10) by reflexivity.
  destruct (Z.le_gt_cases (os_time_t (ticks w2)) timeout) as [Hin|Hout].
  - destruct (IH w2) as (status & w' & Hrun' & Hs & Hlast & Hlo & Hhi & Hlen);
      try assumption.
    + intros n Hn. change (rx w2 n) with (rx w n). apply Hidle.
      change (mosi w2) with (mosi w1) in Hn. rewrite Hlen1 in Hn.
      unfold pos in Hn. lia.
    + lia.
    + exists status, w'. split; [exact Hrun'|]. split; [exact Hs|].
      split; [exact Hlast|].
      change (mosi w2) with (mosi w1) in Hlen. rewrite Hlen1 in Hlen.
      split; [lia|]. split; [lia|]. unfold pos in Hlen. lia.
  - destruct fuel as [|fuel']; [lia|]. cbn [wait_op_cond].
    destruct (send_app_cmd_run mmc ACMD41 HCS w2 eq_refl)
      as (j' & j & Hj' & Hj & Hrun2).
    rewrite (bind_run _ _ _ _ _ Hrun2).
    set (pos2 := (length (mosi w2) + (6 + j') + 6 + j - 1)%nat) in *.
    set (w3 := sent w2 _) in *.
    assert (Hlen3 : length (mosi w3) = S pos2).
    { unfold w3, pos2. rewrite mosi_sent, !length_app, !repeat_length.
      cbn [length frame]. lia. }
    assert (Hlen2 : length (mosi w2) = S pos) by exact Hlen1.
    assert (Hst2 : Z.land (rx w pos2) R_IDLE <> 0)
      by (apply Hidle; unfold pos2; rewrite Hlen2; unfold pos; lia).
    change (rx w2 pos2) with (rx w pos2).
    pose proof Hst2 as Hst2'. apply Z.eqb_neq in Hst2'. rewrite Hst2'.
    rewrite (bind_run _ _ _ _ _ (time_get_eq w3)).
    change (ticks w3) with (ticks w2).
    assert (Hgt : (os_time_t (ticks w2) >? timeout) = true)
      by (apply Z.gtb_lt; lia).
    rewrite Hgt.
    exists (rx w pos2), w3. split; [reflexivity|]. split; [exact Hst2|].
    split; [rewrite Hlen3; do 2 f_equal; lia|].
    change (ticks w3) with (ticks w2).
    split; [lia|]. split; [lia|].
    rewrite Hlen3. unfold pos2. rewrite Hlen2. unfold pos. lia.
Qed.

Lemma mmc_init_prologue (tps : Z) (fuel : nat) (n c p : Z) (w : world) :
  spi_init_rc w = 0 ->
  spi_config_rc w = 0 ->
  mmc_init tps fuel n c p w
  = (rc <- mmc_init_card tps fuel (mk_cfg n p c (Some mmc_settings)) ;;
     hal_gpio_write p 1 ;; ret rc) (init_prologue_world tps n c p w).
Proof.
  intros Hi Hc. unfold mmc_init.
  unfold put_cfg, get_cfg, hal_gpio_init_out, hal_spi_init, hal_spi_config,
    hal_spi_set_txrx_cb, hal_spi_enable, os_time_delay, hal_gpio_write at 1.
  unfold bind at 1. unfold bind at 1. unfold bind at 1. unfold bind at 1.
  cbn [g_mmc_cfg spi_init_rc spi_config_rc with_cfg with_gpio ss_pin spi_num
       spi_cfg settings].
  rewrite Hi. change (truthy 0) with false. cbv iota.
  unfold bind at 1.
  cbn [g_mmc_cfg spi_init_rc spi_config_rc with_cfg with_gpio].
  rewrite Hc. change (truthy 0) with false. cbv iota.
  unfold bind at 1. unfold ret at 1. unfold bind at 1. unfold ret at 1.
  unfold bind at 1. unfold bind at 1.
  rewrite (bind_run _ _ _ _ _ (tx_run _ _ _)).
  rewrite (bind_run _ _ _ _ _ (clock_idle_run 74 _ _)).
  rewrite sent_sent.
  unfold init_prologue_world. reflexivity.
Qed.

(** The two simulated cards of the counterexample initialise alike. *)
Lemma card_v2_init (ocr0 : Z) :
  ocr0 = 0xC0 \/ ocr0 = 0x80 ->
  exists w', mmc_init 1000 8 0 0 4 (power_up (card_v2 ocr0)) = Some (MMC_OK, w').
Proof.
  intros [-> | ->]; eexists; vm_compute; reflexivity.
Qed.

(** * The properties of the driver *)

(** C4. For every raw status byte the classifier gives: success for 0x00;
    Timeout for any byte with the idle flag (bit 0) set; CrcError for 0x08;
    ParamError for 0x40; and the generic CardError for a non-zero byte
    whose flags all lie among erase-reset (0x02), illegal-command (0x04),
    erase-error (0x10) and address-error (0x20). *)
Theorem mmc_error_by_status_table (status : Z) :
  0 <= status < 256 ->
  (status = 0x00 -> mmc_error_by_status status = MMC_OK)
  /\ (Z.land status R_IDLE = R_IDLE -> mmc_error_by_status status = MMC_TIMEOUT)
  /\ (status = R_CRC_ERROR -> mmc_error_by_status status = MMC_CRC_ERROR)
  /\ (status = R_PARAM_ERROR -> mmc_error_by_status status = MMC_PARAM_ERROR)
  /\ (status <> 0 ->
      Z.land status
        (Z.lor (Z.lor R_ERASE_RESET R_ILLEGAL_COMMAND)
               (Z.lor R_ERASE_ERROR R_ADDR_ERROR)) = status ->
      mmc_error_by_status status = MMC_CARD_ERROR).
Proof.
  intros Hb.
  assert (Hrow : classifier_row status = true).
  { apply byte_forall; [vm_compute; reflexivity | exact Hb]. }
  unfold classifier_row in Hrow.
  repeat (apply andb_prop in Hrow; destruct Hrow as [Hrow ?]).
  repeat split.
  - intros ->. now apply mmc_status_eqb_eq.
  - intros Hidle. apply mmc_status_eqb_eq.
    assert (Ht : Z.testbit status 0 = true).
    { assert (Hl : Z.testbit (Z.land status R_IDLE) 0 = true)
        by (rewrite Hidle; reflexivity).
      rewrite Z.land_spec in Hl. now apply andb_true_iff in Hl. }
    rewrite Ht in *. assumption.
  - intros ->. now apply mmc_status_eqb_eq.
  - intros ->. now apply mmc_status_eqb_eq.
  - intros Hnz Hland. apply mmc_status_eqb_eq.
    change (Z.lor (Z.lor R_ERASE_RESET R_ILLEGAL_COMMAND)
                  (Z.lor R_ERASE_ERROR R_ADDR_ERROR)) with 0x36 in Hland.
    apply Z.eqb_eq in Hland. apply Z.eqb_neq in Hnz.
    rewrite Hland, Hnz in *. assumption.
Qed.

(** The table at the bytes the claim names, and at two bytes with several
    flags set. *)
Lemma mmc_error_by_status_table_witness :
  mmc_error_by_status 0x00 = MMC_OK
  /\ mmc_error_by_status 0x01 = MMC_TIMEOUT
  /\ mmc_error_by_status 0xff = MMC_TIMEOUT
  /\ mmc_error_by_status 0x08 = MMC_CRC_ERROR
  /\ mmc_error_by_status 0x40 = MMC_PARAM_ERROR
  /\ mmc_error_by_status 0x04 = MMC_CARD_ERROR
  /\ mmc_error_by_status 0x36 = MMC_CARD_ERROR.
Proof.
  refine (conj _ (conj _ (conj _ (conj _ (conj _ (conj _ _)))))).
  - apply (mmc_error_by_status_table 0x00); [lia | reflexivity].
  - apply (mmc_error_by_status_table 0x01); [lia | reflexivity].
  - apply (mmc_error_by_status_table 0xff); [lia | reflexivity].
  - apply (mmc_error_by_status_table 0x08); [lia | reflexivity].
  - apply (mmc_error_by_status_table 0x40); [lia | reflexivity].
  - apply (mmc_error_by_status_table 0x04); [lia | discriminate | reflexivity].
  - apply (mmc_error_by_status_table 0x36); [lia | discriminate | reflexivity].
Defined.

(** C7. The bytes [send_mmc_cmd] puts on the wire for a command byte [cmd]
    and a 32-bit argument: when [cmd] carries the application-command
    marker (bit 7), first the whole CMD55 exchange (the frame
    0x77 0 0 0 0 0x01 and its response poll, whose answer is dropped); then
    the frame of the command itself: 0x40 | (cmd & 0x3F), the four argument
    bytes most significant first, and the CRC byte 0x95 for CMD0, 0x87 for
    CMD8 and 0x01 for any other command.  The frame is followed by the
    1 to 255 filler bytes 0xFF that clock the response in, and the status
    returned is the answer to the last of them. *)
Theorem send_mmc_cmd_wire (mmc : mmc_cfg) (cmd payload : Z) (w : world) :
  0 <= cmd < 256 ->
  0 <= payload < 2 ^ 32 ->
  exists (prefix : list Z) (b3 b2 b1 b0 : Z) (k : nat),
    send_mmc_cmd mmc cmd payload w
    = Some (rx w (length (mosi w) + length prefix + 6 + k - 1),
            with_mosi
              (mosi w ++ prefix
                 ++ [Z.lor 0x40 (Z.land cmd 0x3F); b3; b2; b1; b0;
                     if cmd =? 0 then 0x95 else if cmd =? 8 then 0x87 else 0x01]
                 ++ repeat 0xff k) w)
    /\ (1 <= k <= 255)%nat
    /\ (0 <= b3 < 256 /\ 0 <= b2 < 256 /\ 0 <= b1 < 256 /\ 0 <= b0 < 256
        /\ payload = b3 * 2 ^ 24 + b2 * 2 ^ 16 + b1 * 2 ^ 8 + b0)
    /\ (if Z.testbit cmd 7
        then exists k' : nat,
            (1 <= k' <= 255)%nat
            /\ prefix = [0x77; 0; 0; 0; 0; 0x01] ++ repeat 0xff k'
        else prefix = []).
Proof.
  intros Hc Hp.
  pose proof (payload_big_endian payload Hp) as Hbe. cbv zeta in Hbe.
  pose proof (cmd_byte_low6 cmd Hc) as Hb0.
  pose proof (marker_bit7 cmd Hc) as Hm.
  destruct (Z.testbit cmd 7) eqn:Ebit.
  - destruct (send_app_cmd_run mmc cmd payload w Hm) as (k' & k & Hk' & Hk & Hrun).
    exists (frame CMD55 0 ++ repeat 0xff k').
    exists (Z.land (Z.shiftr payload 24) 0xff), (Z.land (Z.shiftr payload 16) 0xff),
      (Z.land (Z.shiftr payload 8) 0xff), (Z.land payload 0xff), k.
    split; [|split; [exact Hk|split; [exact Hbe|]]].
    + rewrite Hrun. rewrite length_app, repeat_length. cbn [length frame].
      unfold sent. rewrite <- Hb0. unfold cmd_crc, CMD0, CMD8.
      now rewrite <- !app_assoc.
    + exists k'. split; [exact Hk'|reflexivity].
  - unfold send_mmc_cmd.
    destruct (send_plain_cmd_run 1 mmc cmd payload w Hm) as (k & Hk & Hrun).
    exists [].
    exists (Z.land (Z.shiftr payload 24) 0xff), (Z.land (Z.shiftr payload 16) 0xff),
      (Z.land (Z.shiftr payload 8) 0xff), (Z.land payload 0xff), k.
    split; [|split; [exact Hk|split; [exact Hbe|reflexivity]]].
    rewrite Hrun. cbn [length app]. rewrite Nat.add_0_r.
    unfold sent, frame. now rewrite <- Hb0.
Qed.

(** The operating-condition command (ACMD41 with the high-capacity bit) on
    a card that answers every exchange with 0x01. *)
Lemma send_mmc_cmd_wire_witness :
  exists (prefix : list Z) (b3 b2 b1 b0 : Z) (k : nat),
    send_mmc_cmd (mk_cfg 0 4 0 (Some mmc_settings)) ACMD41 HCS
                 (attached (fun _ => 0x01))
    = Some (rx (attached (fun _ => 0x01))
               (length (mosi (attached (fun _ => 0x01))) + length prefix + 6 + k - 1),
            with_mosi
              (mosi (attached (fun _ => 0x01)) ++ prefix
                 ++ [Z.lor 0x40 (Z.land ACMD41 0x3F); b3; b2; b1; b0;
                     if ACMD41 =? 0 then 0x95 else if ACMD41 =? 8 then 0x87 else 0x01]
                 ++ repeat 0xff k) (attached (fun _ => 0x01)))
    /\ (1 <= k <= 255)%nat
    /\ (0 <= b3 < 256 /\ 0 <= b2 < 256 /\ 0 <= b1 < 256 /\ 0 <= b0 < 256
        /\ HCS = b3 * 2 ^ 24 + b2 * 2 ^ 16 + b1 * 2 ^ 8 + b0)
    /\ (if Z.testbit ACMD41 7
        then exists k' : nat,
            (1 <= k' <= 255)%nat
            /\ prefix = [0x77; 0; 0; 0; 0; 0x01] ++ repeat 0xff k'
        else prefix = []).
Proof.
  apply (send_mmc_cmd_wire (mk_cfg 0 4 0 (Some mmc_settings)) ACMD41 HCS
                           (attached (fun _ => 0x01))).
  - unfold ACMD41. lia.
  - unfold HCS. simpl. lia.
Defined.

(** C3. Every call of the API leaves chip-select deasserted when it
    returns, whatever the exit path and the result: after [mmc_init], and
    after an [mmc_read] or [mmc_write] on slot 0, the handle's chip-select
    line is high; a transfer on any other slot finds no handle and returns
    without touching anything.  So a call that starts with the line high
    never returns with it low. *)
Theorem chip_select_released_on_return
        (tps : Z) (fuel : nat) (c : api_call) (w : world)
        (rc : mmc_status) (w' : world) :
  run_call tps fuel c w = Some (rc, w') ->
  (has_handle c = true -> chip_select w' = 1)
  /\ (has_handle c = false -> w' = w)
  /\ (chip_select w = 1 -> chip_select w' = 1).
Proof.
  intros H.
  assert (Hmain : (has_handle c = true -> chip_select w' = 1)
                  /\ (has_handle c = false -> w' = w)).
  { destruct c as [n cf p | id addr buf len | id addr buf len];
      cbn [run_call has_handle] in *.
    - apply mmc_init_exits in H. destruct H as [Hc Hp].
      split; [|discriminate]. intros _. unfold chip_select. now rewrite Hc.
    - inv_bind H. inv_ret H. destruct a as [rc' buf'].
      apply mmc_read_exits in Hrun.
      destruct Hrun as [(Hid & -> & _)|(-> & Hc & Hp & _)].
      + split; [|reflexivity]. intros E. apply Z.eqb_eq in E. contradiction.
      + split; [|discriminate]. intros _. unfold chip_select. now rewrite Hc.
    - apply mmc_write_exits in H.
      destruct H as [(Hid & -> & _)|(-> & Hc & Hp & _)].
      + split; [|reflexivity]. intros E. apply Z.eqb_eq in E. contradiction.
      + split; [|discriminate]. intros _. unfold chip_select. now rewrite Hc. }
  destruct Hmain as [Ht Hf]. split; [exact Ht|]. split; [exact Hf|].
  intros Hw. destruct (has_handle c); [now apply Ht|].
  now rewrite (Hf eq_refl).
Qed.

(** Three returns: [mmc_init] with no card on the bus (an error path), a
    read on slot 0 that the card refuses, and a write on a slot that does
    not exist. *)
Lemma chip_select_released_on_return_witness :
  (exists rc w',
      run_call 1000 8 (Call_init 0 0 4) (power_up (script [])) = Some (rc, w')
      /\ chip_select w' = 1)
  /\ (exists rc w',
         run_call 1000 8 (Call_read 0 0 [7; 8; 9] 3) (attached (script []))
         = Some (rc, w')
         /\ chip_select w' = 1)
  /\ (exists rc w',
         run_call 1000 8 (Call_write 1 0 [7; 8; 9] 3) (attached (script []))
         = Some (rc, w')
         /\ chip_select w' = 1).
Proof.
  split; [|split].
  - eexists _, _. split; [vm_compute; reflexivity|].
    refine (proj1 (chip_select_released_on_return
                     1000 8 (Call_init 0 0 4) (power_up (script [])) _ _ _) _);
      [vm_compute; reflexivity | reflexivity].
  - eexists _, _. split; [vm_compute; reflexivity|].
    refine (proj1 (chip_select_released_on_return
                     1000 8 (Call_read 0 0 [7; 8; 9] 3) (attached (script [])) _ _ _) _);
      [vm_compute; reflexivity | reflexivity].
  - eexists _, _. split; [vm_compute; reflexivity|].
    refine (proj2 (proj2 (chip_select_released_on_return
                     1000 8 (Call_write 1 0 [7; 8; 9] 3) (attached (script [])) _ _ _)) _);
      [vm_compute; reflexivity | reflexivity].
Defined.

(** C9. Whenever [mmc_read] returns an error, be it for an invalid slot,
    a refused command or a start token that did not come, the caller's
    buffer is exactly as it was. *)
Theorem mmc_read_error_keeps_buf
        (tps : Z) (fuel : nat) (mmc_id addr : Z) (buf : list Z) (len : Z)
        (w : world) (rc : mmc_status) (buf' : list Z) (w' : world) :
  mmc_read tps fuel mmc_id addr buf len w = Some ((rc, buf'), w') ->
  rc <> MMC_OK ->
  buf' = buf.
Proof.
  intros H Hrc. apply mmc_read_exits in H.
  destruct H as [(_ & _ & _ & Hb)|(_ & _ & _ & [[_ Hb]|Hok])];
    [exact Hb | exact Hb | contradiction].
Qed.

(** A read that the card refuses: no card answers, the line stays high. *)
Lemma mmc_read_error_keeps_buf_witness :
  exists rc buf' w',
    mmc_read 1000 8 0 0 [7; 8; 9] 3 (attached (script [])) = Some ((rc, buf'), w')
    /\ rc <> MMC_OK
    /\ buf' = [7; 8; 9].
Proof.
  eexists _, _, _. split; [vm_compute; reflexivity|].
  split; [discriminate|].
  refine (mmc_read_error_keeps_buf 1000 8 0 0 [7; 8; 9] 3 (attached (script []))
                                   MMC_CARD_ERROR _ _ _ _);
    [vm_compute; reflexivity | discriminate].
Defined.



(** C10. A write of length 0 at a block-aligned address is not a no-op.
    With a handle and a card that accepts the command: the block count is
    0, which is not 1, so the multi-block command CMD25 goes out; after the
    gap byte the loop body runs once, sending the multi-block start token
    0xFC, the 512 bytes that [g_block_buf] held on entry (nothing is copied
    into it), two filler CRC bytes and the exchange that reads the
    data-response token; then come the busy polls, and the call returns the
    classification of that token with chip-select high.  The busy poll is
    timed: the tick rate is at least 100 per second, and the tick counter
    does not wrap within the five seconds of its deadline and one sleep. *)
Theorem mmc_write_len0_sends_stale_block
        (tps : Z) (fuel : nat) (addr : Z) (buf : list Z) (w : world) (k : nat) :
  100 <= tps ->
  5 * tps < Z.of_nat fuel ->
  no_wrap w (5 * tps + Z.quot tps 100) ->
  0 <= addr < 2 ^ 32 ->
  addr mod 512 = 0 ->
  length (g_block_buf w) = 512%nat ->
  answers w (length (mosi w)) k 0 ->
  exists (j : nat) (w' : world),
    mmc_write tps fuel 0 addr buf 0 w
    = Some (data_response_class
              (Z.land (rx w (length (mosi w) + 6 + S k + 516)) 0x1f), w')
    /\ block_count_of 0 = 0
    /\ (1 <= j)%nat
    /\ mosi w'
       = mosi w ++ frame CMD25 (addr / 512) ++ repeat 0xff (S k)
           ++ [0xff] ++ [0xFC] ++ g_block_buf w ++ [0xff; 0xff] ++ [0xff]
           ++ repeat 0xff j
    /\ g_block_buf w' = g_block_buf w
    /\ chip_select w' = 1.
Proof.
  intros Htps Hfuel Hw Haddr Hal Hl Hans.
  unfold mmc_write.
  rewrite (bind_run _ _ _ _ _ (cfg_dev_0 w)). cbv zeta.
  rewrite (bind_run _ _ _ _ _ (gpio_write_eq _ _ w)).
  rewrite (offset_of_mod addr Haddr), Hal.
  change (truthy 0) with false. cbv iota.
  rewrite (bind_run _ _ _ _ _ (ret_eq _ _)).
  unfold write_transfer.
  change (block_count_of 0 =? 1) with false. cbv iota.
  set (w0 := with_gpio (set_pin (ss_pin (g_mmc_cfg w)) 0 (gpio w)) w).
  assert (Hans0 : answers w0 (length (mosi w0)) k 0) by exact Hans.
  rewrite (bind_run _ _ _ _ _
             (send_plain_cmd_hit (g_mmc_cfg w) CMD25 (block_addr_of addr) w0 k 0
                                 eq_refl Hans0)).
  change (negb (0 =? 0)) with false. cbv iota.
  rewrite (bind_run _ _ _ _ _ (tx_run _ _ _)). rewrite sent_sent.
  destruct fuel as [|fuel']; [lia|].
  set (w1 := sent w0 ((frame CMD25 (block_addr_of addr) ++ repeat 255 (S k)) ++ [255])).
  assert (Hl1 : length (g_block_buf w1) = 512%nat) by exact Hl.
  rewrite (bind_run _ _ _ _ _ (write_blocks_len0 fuel' (g_mmc_cfg w) buf w1 Hl1)).
  cbv zeta.
  set (w2 := sent w1 ([252] ++ g_block_buf w1 ++ [255; 255; 255])).
  assert (Hw2 : no_wrap w2 (5 * tps + Z.quot tps 100)) by exact Hw.
  destruct (wait_not_busy_run tps (S fuel') (g_mmc_cfg w) w2 Htps Hfuel Hw2)
    as (res & j & t & Hrun & Hj & _).
  rewrite (bind_run _ _ _ _ _ Hrun).
  rewrite (bind_run _ _ _ _ _ (gpio_write_eq _ _ _)).
  exists j. eexists. split.
  - rewrite write_status_class. unfold ret. do 3 f_equal.
    unfold w1, w0. rewrite mosi_sent, !length_app, repeat_length.
    cbn [mosi with_gpio length frame]. unfold rx. cbn [miso sent with_mosi with_gpio].
    do 3 f_equal. lia.
  - split; [reflexivity|]. split; [exact Hj|].
    unfold w2, w1, w0.
    cbn [mosi g_block_buf with_gpio with_ticks sent with_mosi].
    split.
    + rewrite <- !app_assoc. cbn [app]. reflexivity.
    + split; [reflexivity|].
      unfold chip_select.
      cbn [gpio g_mmc_cfg with_gpio with_ticks sent with_mosi].
      apply set_pin_same.
Qed.

(** A zero-length write at address 1024 on a card that accepts the command
    at once and answers the block with the token 0xE5. *)
Lemma mmc_write_len0_sends_stale_block_witness :
  exists (j : nat) (w' : world),
    mmc_write 100 501 0 1024 [] 0 (attached (card_write_one 0xE5))
    = Some (data_response_class
              (Z.land (rx (attached (card_write_one 0xE5))
                          (length (mosi (attached (card_write_one 0xE5)))
                           + 6 + 1 + 516)) 0x1f), w')
    /\ block_count_of 0 = 0
    /\ (1 <= j)%nat
    /\ mosi w'
       = mosi (attached (card_write_one 0xE5)) ++ frame CMD25 (1024 / 512)
           ++ repeat 0xff 1
           ++ [0xff] ++ [0xFC] ++ g_block_buf (attached (card_write_one 0xE5))
           ++ [0xff; 0xff] ++ [0xff]
           ++ repeat 0xff j
    /\ g_block_buf w' = g_block_buf (attached (card_write_one 0xE5))
    /\ chip_select w' = 1.
Proof.
  apply (mmc_write_len0_sends_stale_block
           100 501 1024 [] (attached (card_write_one 0xE5)) 0).
  - lia.
  - vm_compute; reflexivity.
  - vm_compute; reflexivity.
  - vm_compute; split; [discriminate | reflexivity].
  - reflexivity.
  - reflexivity.
  - unfold answers. split; [lia|]. split; [intros i Hi; lia|].
    split; reflexivity.
Defined.

(** C6. A read of 600 bytes at byte address 100, on a card that accepts the
    command and sends the start token in time, the tick counter not
    wrapping within the 200ms of the wait: the block count is 2, so
    the multi-block read command CMD18 goes out for block 0; after the
    start token each of the two blocks takes 512 exchanges into
    [g_block_buf] and two more whose answers (the CRC) are dropped; the
    first copy takes min(512 - 100, 600) = 412 bytes from offset 100, the
    second min(512 - 0, 188) = 188 bytes from offset 0; then CMD12 goes
    out.  The caller gets success, and exactly 600 bytes: the tail of
    block 0 then the head of block 1, the rest of the buffer untouched. *)
Theorem mmc_read_600_at_100
        (tps : Z) (fuel : nat) (buf : list Z) (w : world) (k j : nat) :
  0 <= tps ->
  no_wrap w (Z.quot tps 5) ->
  length (g_block_buf w) = 512%nat ->
  (600 <= length buf)%nat ->
  (j < fuel)%nat ->
  answers w (length (mosi w)) k 0 ->
  token_after tps w (length (mosi w) + 6 + S k) j ->
  exists (k12 : nat) (w' : world),
    mmc_read tps fuel 0 100 buf 600 w
    = Some ((MMC_OK,
             map (rx w) (seq (length (mosi w) + 6 + S k + S j + 100) 412)
               ++ map (rx w) (seq (length (mosi w) + 6 + S k + S j + 514) 188)
               ++ skipn 600 buf), w')
    /\ block_count_of 600 = 2
    /\ MIN (usize (BLOCK_LEN - offset_of 100)) 600 = 412
    /\ MIN (usize (BLOCK_LEN - 0)) (usize (600 - 412)) = 188
    /\ (1 <= k12 <= 255)%nat
    /\ mosi w'
       = mosi w ++ frame CMD18 0 ++ repeat 0xff (S k) ++ repeat 0xff (S j)
           ++ (repeat 0xff 512 ++ [0xff; 0xff])
           ++ (repeat 0xff 512 ++ [0xff; 0xff])
           ++ frame CMD12 0 ++ repeat 0xff k12
    /\ chip_select w' = 1.
Proof.
  intros Htps Hw Hl Hb Hf Hans Htok.
  unfold mmc_read.
  rewrite (bind_run _ _ _ _ _ (cfg_dev_0 w)). cbv zeta.
  rewrite (bind_run _ _ _ _ _ (gpio_write_eq _ _ w)).
  change (block_count_of 600) with 2.
  change (block_addr_of 100) with 0. change (offset_of 100) with 100.
  change (2 =? 1) with false. cbv iota.
  set (mmc := g_mmc_cfg w).
  set (w0 := with_gpio (set_pin (ss_pin mmc) 0 (gpio w)) w).
  assert (Hans0 : answers w0 (length (mosi w0)) k 0) by exact Hans.
  rewrite (bind_run _ _ _ _ _ (send_plain_cmd_hit mmc CMD18 0 w0 k 0 eq_refl Hans0)).
  change (negb (0 =? 0)) with false. cbv iota.
  set (w1 := sent w0 (frame CMD18 0 ++ repeat 255 (S k))).
  assert (Hlen1 : length (mosi w1) = (length (mosi w) + 6 + S k)%nat).
  { unfold w1, w0. rewrite mosi_sent, !length_app, repeat_length.
    cbn [mosi with_gpio length frame]. lia. }
  assert (Htok1 : token_after tps w1 (length (mosi w1)) j).
  { rewrite Hlen1. exact Htok. }
  assert (Hw1 : no_wrap w1 (Z.quot tps 5)) by exact Hw.
  rewrite (bind_run _ _ _ _ _
             (wait_start_token_hit tps fuel mmc w1 j Htps Hw1 Hf Htok1)).
  change (254 =? 254) with true. cbv iota.
  set (w2 := with_ticks _ (sent w1 (repeat 255 (S j)))).
  assert (Hlen2 : length (mosi w2) = (length (mosi w) + 6 + S k + S j)%nat).
  { unfold w2. cbn [mosi with_ticks]. rewrite mosi_sent, length_app, repeat_length.
    rewrite Hlen1. reflexivity. }
  change (Z.to_nat 2) with 2%nat.
  assert (Hl2 : length (g_block_buf w2) = 512%nat) by exact Hl.
  set (b0 := map (rx w2) (seq (length (mosi w2)) 512)).
  set (w3 := with_block_buf b0 (sent w2 (repeat 255 512 ++ [255; 255]))).
  assert (Hl3 : length (g_block_buf w3) = 512%nat).
  { unfold w3, b0. cbn [g_block_buf with_block_buf].
    now rewrite length_map, length_seq. }
  assert (Hlen3 : length (mosi w3) = (length (mosi w2) + 514)%nat).
  { unfold w3. cbn [mosi with_block_buf]. rewrite mosi_sent, !length_app, repeat_length.
    reflexivity. }
  set (b1 := map (rx w3) (seq (length (mosi w3)) 512)).
  set (w4 := with_block_buf b1 (sent w3 (repeat 255 512 ++ [255; 255]))).
  assert (Hread : read_blocks 2 mmc buf 100 600 0 w2
                  = Some (memcpy (memcpy buf 0 b0 100 412) 412 b1 0 188, w4)).
  { pose proof (read_blocks_S 1 mmc buf 100 600 0 w2 Hl2) as Hr1.
    cbv zeta in Hr1. rewrite Hr1. clear Hr1.
    change (MIN (usize (BLOCK_LEN - 100)) 600) with 412.
    change (usize (600 - 412)) with 188. change (usize (0 + 412)) with 412.
    fold b0. fold w3.
    match goal with |- context [read_blocks 1 mmc ?b 0 188 412 w3] =>
      pose proof (read_blocks_S 0 mmc b 0 188 412 w3 Hl3) as Hr2 end.
    cbv zeta in Hr2. rewrite Hr2. clear Hr2.
    change (MIN (usize (BLOCK_LEN - 0)) 188) with 188.
    fold b1. fold w4. cbn [read_blocks]. reflexivity. }
  rewrite (bind_run _ _ _ _ _ Hread).
  change (CMD18 =? CMD18) with true. cbv iota.
  destruct (send_plain_cmd_run 1 mmc CMD12 0 w4 eq_refl) as (k12 & Hk12 & Hrun12).
  fold (send_mmc_cmd mmc CMD12 0) in Hrun12.
  assert (Hstop : (_ <- send_mmc_cmd mmc CMD12 0 ;; ret tt) w4
                  = Some (tt, sent w4 (frame CMD12 0 ++ repeat 255 k12)))
    by (rewrite (bind_run _ _ _ _ _ Hrun12); reflexivity).
  rewrite (bind_run _ _ _ _ _ Hstop).
  rewrite (bind_run _ _ _ _ _ (gpio_write_eq _ _ _)).
  exists k12. eexists. split.
  - unfold ret. do 3 f_equal.
    unfold b0, b1. rewrite Hlen3.
    replace (rx w2) with (rx w) by reflexivity.
    replace (rx w3) with (rx w) by reflexivity.
    rewrite two_copies by exact Hb. rewrite Hlen2. reflexivity.
  - split; [reflexivity|]. split; [reflexivity|]. split; [reflexivity|].
    split; [exact Hk12|]. split.
    + unfold w4, w3, w2, w1, w0.
      cbn [mosi with_gpio with_ticks with_block_buf sent with_mosi].
      rewrite <- !app_assoc. reflexivity.
    + unfold chip_select.
      cbn [gpio g_mmc_cfg with_gpio with_ticks with_block_buf sent with_mosi].
      apply set_pin_same.
Qed.

(** The read on a card that sends the start token after one idle byte. *)
Lemma mmc_read_600_at_100_witness :
  exists (k12 : nat) (w' : world),
    mmc_read 1000 8 0 100 (repeat 0 700) 600 (attached card_read_two)
    = Some ((MMC_OK,
             map (rx (attached card_read_two))
                 (seq (length (mosi (attached card_read_two)) + 6 + 1 + 2 + 100) 412)
               ++ map (rx (attached card_read_two))
                      (seq (length (mosi (attached card_read_two)) + 6 + 1 + 2 + 514) 188)
               ++ skipn 600 (repeat 0 700)), w')
    /\ block_count_of 600 = 2
    /\ MIN (usize (BLOCK_LEN - offset_of 100)) 600 = 412
    /\ MIN (usize (BLOCK_LEN - 0)) (usize (600 - 412)) = 188
    /\ (1 <= k12 <= 255)%nat
    /\ mosi w'
       = mosi (attached card_read_two) ++ frame CMD18 0 ++ repeat 0xff 1
           ++ repeat 0xff 2
           ++ (repeat 0xff 512 ++ [0xff; 0xff])
           ++ (repeat 0xff 512 ++ [0xff; 0xff])
           ++ frame CMD12 0 ++ repeat 0xff k12
    /\ chip_select w' = 1.
Proof.
  apply (mmc_read_600_at_100 1000 8 (repeat 0 700) (attached card_read_two) 0 1).
  - lia.
  - vm_compute. reflexivity.
  - reflexivity.
  - rewrite repeat_length. lia.
  - lia.
  - unfold answers. split; [lia|]. split; [intros i Hi; lia|].
    split; reflexivity.
  - unfold token_after. split; [|reflexivity].
    intros i Hi. assert (i = 0)%nat as -> by lia.
    split; [reflexivity|]. vm_compute. reflexivity.
Defined.



(** C2.  [mmc_init] does query the OCR register after the negotiation, but
    the addressing mode is never set: [struct mmc_cfg] has no field for it,
    and the test of the card-capacity-status bit has an empty body, under
    "FIXME: CCS" and a TODO that names the distinction ("SDSC uses byte
    addressing, SDHC/SDXC block addressing").  On two Ver2.00 cards that
    differ only in that bit of the OCR payload (first byte 0xC0, bit set,
    and 0x80, bit clear) [mmc_init] succeeds and sends the same bytes, the
    last being the CMD58 frame, its poll and four payload reads, and it
    leaves the same handle; so no flag read off the handle follows the
    bit.  A read at byte address 1024 on the card with the bit clear then
    sends the block number 2 as the command argument. *)
Theorem mmc_init_drops_capacity_status :
  (exists w1 w2 r w3,
      mmc_init 1000 8 0 0 4 (power_up (card_v2 0xC0)) = Some (MMC_OK, w1)
      /\ mmc_init 1000 8 0 0 4 (power_up (card_v2 0x80)) = Some (MMC_OK, w2)
      /\ mosi w1 = mosi w2
      /\ skipn (length (mosi w1) - 11) (mosi w1)
         = frame CMD58 0 ++ [0xff] ++ repeat 0xff 4
      /\ g_mmc_cfg w1 = g_mmc_cfg w2
      /\ mmc_read 1000 8 0 1024 (repeat 0 512) 512 w2 = Some (r, w3)
      /\ firstn 6 (skipn (length (mosi w2)) (mosi w3)) = frame CMD17 2)
  /\ ~ (exists mode : mmc_cfg -> bool, addressing_mode_follows_ccs mode).
Proof.
  split.
  - eexists _, _, _, _.
    split; [vm_compute; reflexivity|]. split; [vm_compute; reflexivity|].
    split; [vm_compute; reflexivity|]. split; [vm_compute; reflexivity|].
    split; [vm_compute; reflexivity|]. split; vm_compute; reflexivity.
  - intros [mode Hmode].
    destruct (card_v2_init 0xC0 (or_introl eq_refl)) as [w1 H1].
    destruct (card_v2_init 0x80 (or_intror eq_refl)) as [w2 H2].
    pose proof (Hmode 0xC0 w1 ltac:(lia) H1) as M1.
    pose proof (Hmode 0x80 w2 ltac:(lia) H2) as M2.
    apply mmc_init_exits in H1, H2.
    destruct H1 as [C1 _]. destruct H2 as [C2 _].
    rewrite C1 in M1. rewrite C2 in M2. rewrite M1 in M2.
    discriminate M2.
Qed.

(** C1, at a transfer of 512 bytes from byte address 100.  The start block
    and the offset are as the claim says (100 / 512 and 100 mod 512), but
    the block count is 1, the length alone rounded up, where the claim's
    ceiling((512 + 100) / 512) is 2.  So [mmc_read] sends the single-block
    command, takes one block, copies 412 bytes and reports success with
    the last 100 bytes of the caller's buffer never written; and
    [mmc_write] sends the single-block command CMD24 and then, its loop
    running until the length is used up, two data blocks. *)
Theorem block_count_ignores_offset :
  block_addr_of 100 = 100 / 512
  /\ offset_of 100 = 100 mod 512
  /\ block_count_of 512 = 1
  /\ (512 + offset_of 100 + 511) / 512 = 2
  /\ (exists w',
         mmc_read 1000 8 0 100 (repeat 0 512) 512 (attached card_read_two)
         = Some ((MMC_OK,
                  map (fun i => Z.of_nat i mod 251) (seq 100 412) ++ repeat 0 100),
                 w')
         /\ mosi w' = frame CMD17 0 ++ [0xff] ++ [0xff; 0xff]
                        ++ repeat 0xff 512 ++ [0xff; 0xff])
  /\ (exists w',
         mmc_write 1000 8 0 100 (repeat 0xAB 512) 512 (attached card_write_unaligned)
         = Some (MMC_OK, w')
         /\ mosi w' = frame CMD17 0 ++ [0xff] ++ [0xff]
                        ++ repeat 0xff 512 ++ [0xff; 0xff]
                        ++ frame CMD24 0 ++ [0xff] ++ [0xff]
                        ++ ([0xFE] ++ (repeat 0x11 100 ++ repeat 0xAB 412)
                              ++ [0xff; 0xff; 0xff])
                        ++ ([0xFE] ++ repeat 0xAB 512 ++ [0xff; 0xff; 0xff])
                        ++ [0xff]).
Proof.
  split; [reflexivity|]. split; [reflexivity|]. split; [reflexivity|].
  split; [reflexivity|]. split.
  - eexists. split; vm_compute; reflexivity.
  - eexists. split; vm_compute; reflexivity.
Qed.

(** * Further lemmas *)

(** ** A command that gets no answer *)

Lemma poll_response_timeout (n : nat) (mmc : mmc_cfg) :
  forall s0 w,
    (1 <= n)%nat ->
    (forall i, (i < n)%nat -> Z.land (rx w (length (mosi w) + i)) 0x80 <> 0) ->
    poll_response n mmc s0 w
    = Some (rx w (length (mosi w) + n - 1), sent w (repeat 0xff n)).
Proof.
  induction n as [|n IH]; intros s0 w Hn Hbusy; [lia|].
  cbn [poll_response]. rewrite (bind_run _ _ _ _ _ (tx_run _ _ w)).
  pose proof (Hbusy 0%nat ltac:(lia)) as H0. rewrite Nat.add_0_r in H0.
  unfold rx in H0. apply Z.eqb_neq in H0. rewrite H0.
  destruct n as [|n'].
  - cbn [poll_response repeat]. unfold ret, rx.
    replace (length (mosi w) + 1 - 1)%nat with (length (mosi w)) by lia.
    reflexivity.
  - rewrite (IH _ (sent w [255])).
    + rewrite sent_sent, mosi_sent, length_app. cbn [length app repeat].
      unfold rx. cbn [miso sent with_mosi].
      replace (length (mosi w) + 1 + S n' - 1)%nat
        with (length (mosi w) + S (S n') - 1)%nat by lia.
      reflexivity.
    + lia.
    + intros i Hi. rewrite mosi_sent, length_app. cbn [length].
      unfold rx. cbn [miso sent with_mosi].
      replace (length (mosi w) + 1 + i)%nat with (length (mosi w) + S i)%nat by lia.
      apply (Hbusy (S i)). lia.
Qed.

(** ** The paths of [mmc_init] *)

Lemma init_prologue_mosi (tps n c p : Z) (w : world) :
  mosi (init_prologue_world tps n c p w) = mosi w ++ repeat 0xff 75.
Proof. reflexivity. Qed.

Lemma init_prologue_length (tps n c p : Z) (w : world) :
  length (mosi (init_prologue_world tps n c p w)) = (length (mosi w) + 75)%nat.
Proof. rewrite init_prologue_mosi, length_app, repeat_length. reflexivity. Qed.

(** The end of [mmc_init] after the label [out]. *)
Lemma init_out_run (p : Z) (rc : mmc_status) (w : world) :
  (hal_gpio_write p 1 ;; ret rc) w
  = Some (rc, with_gpio (set_pin p 1 (gpio w)) w).
Proof. reflexivity. Qed.

(** The first three exchanges of [mmc_init_card] on a card that answers
    CMD0 with the idle status and CMD8 with [st8]. *)
Lemma init_negotiation_runs
      (tps n c p : Z) (w : world) (k0 k8 : nat) (st8 : Z) :
  answers w (length (mosi w) + 75) k0 R_IDLE ->
  answers w (length (mosi w) + 75 + 6 + S k0) k8 st8 ->
  exists w1 w2,
    send_mmc_cmd (mk_cfg n p c (Some mmc_settings)) CMD0 0
                 (init_prologue_world tps n c p w) = Some (R_IDLE, w1)
    /\ send_mmc_cmd (mk_cfg n p c (Some mmc_settings)) CMD8 0x1AA w1 = Some (st8, w2)
    /\ recv_resp 4 (mk_cfg n p c (Some mmc_settings)) w2
       = Some ([rx w (length (mosi w) + 75 + 6 + S k0 + 6 + S k8);
                rx w (length (mosi w) + 75 + 6 + S k0 + 6 + S k8 + 1);
                rx w (length (mosi w) + 75 + 6 + S k0 + 6 + S k8 + 2);
                rx w (length (mosi w) + 75 + 6 + S k0 + 6 + S k8 + 3)],
               init_negotiated_world tps n c p w k0 k8).
Proof.
  intros Hans0 Hans8.
  set (mmc := mk_cfg n p c (Some mmc_settings)).
  set (w0 := init_prologue_world tps n c p w).
  assert (Hlen0 : length (mosi w0) = (length (mosi w) + 75)%nat)
    by apply init_prologue_length.
  assert (Hans0' : answers w0 (length (mosi w0)) k0 R_IDLE)
    by (rewrite Hlen0; exact Hans0).
  pose proof (send_plain_cmd_hit mmc CMD0 0 w0 k0 R_IDLE eq_refl Hans0') as Hcmd0.
  set (w1 := sent w0 (frame CMD0 0 ++ repeat 255 (S k0))) in *.
  assert (Hlen1 : length (mosi w1) = (length (mosi w) + 75 + 6 + S k0)%nat).
  { unfold w1. rewrite mosi_sent, !length_app, repeat_length, Hlen0.
    cbn [length frame]. lia. }
  assert (Hans8' : answers w1 (length (mosi w1)) k8 st8)
    by (rewrite Hlen1; exact Hans8).
  pose proof (send_plain_cmd_hit mmc CMD8 0x1AA w1 k8 st8 eq_refl Hans8') as Hcmd8.
  set (w2 := sent w1 (frame CMD8 426 ++ repeat 255 (S k8))) in *.
  assert (Hlen2 : length (mosi w2)
                  = (length (mosi w) + 75 + 6 + S k0 + 6 + S k8)%nat).
  { unfold w2. rewrite mosi_sent, !length_app, repeat_length, Hlen1.
    cbn [length frame]. lia. }
  exists w1, w2. split; [exact Hcmd0|]. split; [exact Hcmd8|].
  rewrite recv_resp_run. rewrite Hlen2. cbn [seq map].
  change (rx w2) with (rx w).
  replace (S (length (mosi w) + 75 + 6 + S k0 + 6 + S k8))
    with (length (mosi w) + 75 + 6 + S k0 + 6 + S k8 + 1)%nat by lia.
  replace (S (length (mosi w) + 75 + 6 + S k0 + 6 + S k8 + 1))
    with (length (mosi w) + 75 + 6 + S k0 + 6 + S k8 + 2)%nat by lia.
  replace (S (length (mosi w) + 75 + 6 + S k0 + 6 + S k8 + 2))
    with (length (mosi w) + 75 + 6 + S k0 + 6 + S k8 + 3)%nat by lia.
  do 2 f_equal. unfold w2, w1, init_negotiated_world. fold w0.
  now rewrite !sent_sent.
Qed.

Lemma init_negotiated_mosi (tps n c p : Z) (w : world) (k0 k8 : nat) :
  mosi (init_negotiated_world tps n c p w k0 k8)
  = mosi w ++ repeat 0xff 75 ++ frame CMD0 0 ++ repeat 0xff (S k0)
      ++ frame CMD8 0x1AA ++ repeat 0xff (S k8) ++ repeat 0xff 4.
Proof.
  unfold init_negotiated_world. rewrite mosi_sent, init_prologue_mosi.
  now rewrite <- !app_assoc.
Qed.

(** ** Every loop comes to an end *)

Lemma returns_ret {A : Type} (a : A) : returns (ret a).
Proof. intros w. eexists. reflexivity. Qed.

Lemma returns_at_bind {A B : Type} (m : M A) (k : A -> M B) (w : world) :
  returns_at m w -> (forall a, returns (k a)) -> returns_at (bind m k) w.
Proof.
  intros [[a w1] Hm] Hk. destruct (Hk a w1) as [r Hr].
  exists r. unfold bind. rewrite Hm. exact Hr.
Qed.

Lemma returns_bind {A B : Type} (m : M A) (k : A -> M B) :
  returns m -> (forall a, returns (k a)) -> returns (bind m k).
Proof. intros Hm Hk w. apply returns_at_bind; [apply Hm | exact Hk]. Qed.

Lemma returns_tx (num val : Z) : returns (hal_spi_tx_val num val).
Proof. intros w. eexists. reflexivity. Qed.

Lemma returns_delay (d : Z) : returns (os_time_delay d).
Proof. intros w. eexists. reflexivity. Qed.

Lemma returns_time_get : returns os_time_get.
Proof. intros w. eexists. reflexivity. Qed.

Lemma returns_gpio_write (pin val : Z) : returns (hal_gpio_write pin val).
Proof. intros w. eexists. reflexivity. Qed.

Lemma returns_get_block_buf : returns get_block_buf.
Proof. intros w. eexists. reflexivity. Qed.

Lemma returns_put_block_buf (b : list Z) : returns (put_block_buf b).
Proof. intros w. eexists. reflexivity. Qed.

Lemma returns_cfg_dev (id : Z) : returns (mmc_cfg_dev id).
Proof. intros w. unfold mmc_cfg_dev. destruct (negb _); eexists; reflexivity. Qed.

Create HintDb returns_db.
#[export] Hint Resolve returns_ret returns_tx returns_delay returns_time_get
  returns_gpio_write returns_get_block_buf returns_put_block_buf
  returns_cfg_dev : returns_db.

Ltac returns_tac :=
  repeat first
    [ solve [auto with returns_db]
    | apply returns_bind; [|intros ?]
    | match goal with
      | |- returns (if ?c then _ else _) => destruct c
      | |- returns (match ?o with Some _ => _ | None => _ end) => destruct o
      | |- returns (let _ := _ in _) => cbv zeta
      end ].

Lemma returns_poll_response (n : nat) (mmc : mmc_cfg) :
  forall s, returns (poll_response n mmc s).
Proof. induction n as [|n IH]; intros s; cbn [poll_response]; returns_tac. Qed.
#[export] Hint Resolve returns_poll_response : returns_db.

Lemma returns_send_mmc_cmd (mmc : mmc_cfg) (cmd payload : Z) :
  returns (send_mmc_cmd mmc cmd payload).
Proof.
  intros w. unfold send_mmc_cmd.
  destruct (truthy (Z.land cmd 0x80)) eqn:Hm.
  - destruct (send_app_cmd_run mmc cmd payload w Hm) as (k' & k & _ & _ & Hrun).
    eexists. exact Hrun.
  - destruct (send_plain_cmd_run 1 mmc cmd payload w Hm) as (k & _ & Hrun).
    eexists. exact Hrun.
Qed.
#[export] Hint Resolve returns_send_mmc_cmd : returns_db.

Lemma returns_clock_idle (n : nat) (mmc : mmc_cfg) : returns (clock_idle n mmc).
Proof. intros w. eexists. apply clock_idle_run. Qed.

Lemma returns_recv_resp (n : nat) (mmc : mmc_cfg) : returns (recv_resp n mmc).
Proof. intros w. eexists. apply recv_resp_run. Qed.

Lemma returns_recv_block (todo : nat) (mmc : mmc_cfg) :
  forall n, returns (recv_block todo n mmc).
Proof. induction todo as [|todo IH]; intros n; cbn [recv_block]; returns_tac. Qed.

Lemma returns_send_block (todo : nat) (mmc : mmc_cfg) :
  forall n, returns (send_block todo n mmc).
Proof. induction todo as [|todo IH]; intros n; cbn [send_block]; returns_tac. Qed.
#[export] Hint Resolve returns_clock_idle returns_recv_resp returns_recv_block
  returns_send_block : returns_db.

Lemma returns_read_blocks (c : nat) (mmc : mmc_cfg) :
  forall buf offset len index, returns (read_blocks c mmc buf offset len index).
Proof.
  induction c as [|c IH]; intros buf offset len index; cbn [read_blocks];
    returns_tac.
Qed.
#[export] Hint Resolve returns_read_blocks : returns_db.


(** The block loop of [mmc_write] returns within one round per block of
    the span. *)
Lemma write_blocks_total (mmc : mmc_cfg) (cmd : Z) (buf : list Z) (fuel : nat) :
  forall offset len index w,
    0 <= offset < 512 ->
    0 <= len < 2 ^ 32 ->
    (len + offset) / 512 + 1 <= Z.of_nat fuel ->
    returns_at (write_blocks fuel mmc cmd buf offset len index) w.
Proof.
  induction fuel as [|fuel IH]; intros offset len index w Ho Hl Hf.
  - assert (0 <= (len + offset) / 512) by (apply Z.div_pos; lia). lia.
  - cbn [write_blocks].
    apply returns_at_bind; [destruct (cmd =? CMD24); apply returns_tx|].
    intros _. cbv zeta. apply returns_bind; [apply returns_get_block_buf|].
    intros g. apply returns_bind; [apply returns_put_block_buf|].
    intros _. apply returns_bind; [apply returns_send_block|].
    intros _. apply returns_bind; [apply returns_tx|].
    intros _. apply returns_bind; [apply returns_tx|].
    intros _. apply returns_bind; [apply returns_tx|].
    intros r w'. destruct (negb _); [eexists; reflexivity|].
    assert (Hu : usize (BLOCK_LEN - offset) = 512 - offset).
    { unfold usize, BLOCK_LEN. apply Z.mod_small.
      change (2 ^ 32) with 4294967296. lia. }
    rewrite Hu. unfold MIN.
    change (2 ^ 32) with 4294967296 in Hl.
    destruct (Z.ltb_spec (512 - offset) len) as [Hlt|Hge].
    + assert (Hn : usize (len - (512 - offset)) = len - (512 - offset)).
      { unfold usize. apply Z.mod_small. change (2 ^ 32) with 4294967296. lia. }
      rewrite Hn. destruct (truthy _); [|eexists; reflexivity].
      apply IH; [lia | change (2 ^ 32) with 4294967296; lia |].
      replace (len - (512 - offset) + 0) with ((len + offset) + (-1) * 512) by lia.
      rewrite Z.div_add by lia. lia.
    + replace (len - len) with 0 by lia. change (truthy (usize 0)) with false.
      eexists. reflexivity.
Qed.

(** ** How long the calls sleep *)

Lemma sleeps_ret {A : Type} (a : A) : sleeps_at_most 0 (ret a).
Proof. intros w b w' H. inv_ret H. lia. Qed.

Lemma sleeps_bind {A B : Type} (b1 b2 : Z) (m : M A) (k : A -> M B) :
  sleeps_at_most b1 m -> (forall a, sleeps_at_most b2 (k a)) ->
  sleeps_at_most (b1 + b2) (bind m k).
Proof.
  intros Hm Hk w b w' H. inv_bind H.
  pose proof (Hm _ _ _ Hrun). pose proof (Hk _ _ _ _ H). lia.
Qed.

Lemma sleeps_quiet_bind {A B : Type} (m : M A) (k : A -> M B) :
  sleeps_at_most 0 m -> (forall a, sleeps_at_most 0 (k a)) ->
  sleeps_at_most 0 (bind m k).
Proof. intros Hm Hk. apply (sleeps_bind 0 0); assumption. Qed.

Lemma sleeps_weaken {A : Type} (b b' : Z) (m : M A) :
  b <= b' -> sleeps_at_most b m -> sleeps_at_most b' m.
Proof. intros Hb Hm w a w' H. pose proof (Hm _ _ _ H). lia. Qed.

Lemma quiet_tx (num val : Z) : sleeps_at_most 0 (hal_spi_tx_val num val).
Proof. intros w a w' H. inversion H; subst. cbn [ticks with_mosi]. lia. Qed.

Lemma quiet_time_get : sleeps_at_most 0 os_time_get.
Proof. intros w a w' H. inversion H; subst. lia. Qed.

Lemma quiet_gpio_write (pin val : Z) : sleeps_at_most 0 (hal_gpio_write pin val).
Proof. intros w a w' H. inversion H; subst. cbn [ticks with_gpio]. lia. Qed.

Lemma quiet_get_block_buf : sleeps_at_most 0 get_block_buf.
Proof. intros w a w' H. inversion H; subst. lia. Qed.

Lemma quiet_put_block_buf (b : list Z) : sleeps_at_most 0 (put_block_buf b).
Proof. intros w a w' H. inversion H; subst. cbn [ticks with_block_buf]. lia. Qed.

Lemma quiet_cfg_dev (id : Z) : sleeps_at_most 0 (mmc_cfg_dev id).
Proof. intros w a w' H. apply cfg_dev_run in H. destruct H as [-> _]. lia. Qed.

Lemma quiet_out_of_fuel {A : Type} : sleeps_at_most 0 (@out_of_fuel A).
Proof. intros w a w' H. discriminate H. Qed.

Lemma sleeps_delay (d : Z) : 0 <= d -> sleeps_at_most d (os_time_delay d).
Proof. intros Hd w a w' H. inversion H; subst. cbn [ticks with_ticks]. lia. Qed.

Create HintDb quiet_db.
#[export] Hint Resolve sleeps_ret quiet_tx quiet_time_get quiet_gpio_write
  quiet_get_block_buf quiet_put_block_buf quiet_cfg_dev quiet_out_of_fuel : quiet_db.

Ltac quiet_tac :=
  repeat first
    [ solve [auto with quiet_db]
    | apply sleeps_quiet_bind; [|intros ?]
    | match goal with
      | |- sleeps_at_most 0 (if ?c then _ else _) => destruct c
      | |- sleeps_at_most 0 (let _ := _ in _) => cbv zeta
      end ].

Lemma quiet_poll_response (n : nat) (mmc : mmc_cfg) :
  forall s, sleeps_at_most 0 (poll_response n mmc s).
Proof. induction n as [|n IH]; intros s; cbn [poll_response]; quiet_tac. Qed.
#[export] Hint Resolve quiet_poll_response : quiet_db.

Lemma quiet_send_mmc_cmd_rec (d : nat) (mmc : mmc_cfg) :
  forall cmd payload, sleeps_at_most 0 (send_mmc_cmd_rec d mmc cmd payload).
Proof.
  induction d as [|d IH]; intros cmd payload; cbn [send_mmc_cmd_rec]; quiet_tac.
Qed.

Lemma quiet_send_mmc_cmd (mmc : mmc_cfg) (cmd payload : Z) :
  sleeps_at_most 0 (send_mmc_cmd mmc cmd payload).
Proof. apply quiet_send_mmc_cmd_rec. Qed.
#[export] Hint Resolve quiet_send_mmc_cmd : quiet_db.

Lemma quiet_clock_idle (n : nat) (mmc : mmc_cfg) : sleeps_at_most 0 (clock_idle n mmc).
Proof. induction n as [|n IH]; cbn [clock_idle]; quiet_tac. Qed.

Lemma quiet_recv_resp (n : nat) (mmc : mmc_cfg) : sleeps_at_most 0 (recv_resp n mmc).
Proof. induction n as [|n IH]; cbn [recv_resp]; quiet_tac. Qed.

Lemma quiet_recv_block (todo : nat) (mmc : mmc_cfg) :
  forall n, sleeps_at_most 0 (recv_block todo n mmc).
Proof. induction todo as [|todo IH]; intros n; cbn [recv_block]; quiet_tac. Qed.

Lemma quiet_send_block (todo : nat) (mmc : mmc_cfg) :
  forall n, sleeps_at_most 0 (send_block todo n mmc).
Proof. induction todo as [|todo IH]; intros n; cbn [send_block]; quiet_tac. Qed.
#[export] Hint Resolve quiet_clock_idle quiet_recv_resp quiet_recv_block
  quiet_send_block : quiet_db.

Lemma quiet_read_blocks (c : nat) (mmc : mmc_cfg) :
  forall buf offset len index,
    sleeps_at_most 0 (read_blocks c mmc buf offset len index).
Proof.
  induction c as [|c IH]; intros buf offset len index; cbn [read_blocks];
    quiet_tac.
Qed.

Lemma quiet_write_blocks (fuel : nat) (mmc : mmc_cfg) (cmd : Z) (buf : list Z) :
  forall offset len index,
    sleeps_at_most 0 (write_blocks fuel mmc cmd buf offset len index).
Proof.
  induction fuel as [|fuel IH]; intros offset len index; cbn [write_blocks];
    quiet_tac.
Qed.
#[export] Hint Resolve quiet_read_blocks quiet_write_blocks : quiet_db.


(** ** Returning in time

    The calls return, and within the time their waits allow, from every
    world whose tick counter does not wrap on the way. *)

Lemma no_wrap_same (w w1 : world) (b : Z) :
  ticks w1 = ticks w -> no_wrap w b -> no_wrap w1 b.
Proof. unfold no_wrap. intros ->. auto. Qed.

Lemma within_weaken {A : Type} (b b' : Z) (m : M A) (w : world) :
  b <= b' -> returns_within b m w -> returns_within b' m w.
Proof. intros Hb (a & w' & Hm & Ht). exists a, w'. split; [exact Hm | lia]. Qed.

Lemma within_run {A : Type} (b : Z) (m : M A) (w : world) (a : A) (w' : world) :
  returns_within b m w -> m w = Some (a, w') ->
  ticks w <= ticks w' <= ticks w + b.
Proof.
  intros (a0 & w0 & Hm & Ht) H. rewrite H in Hm. inversion Hm; subst. exact Ht.
Qed.

Lemma within_quiet {A : Type} (b : Z) (m : M A) (w : world) :
  0 <= b -> returns m -> sleeps_at_most 0 m -> returns_within b m w.
Proof.
  intros Hb Hr Hq. destruct (Hr w) as [[a w'] Hm].
  exists a, w'. split; [exact Hm|]. pose proof (Hq _ _ _ Hm). lia.
Qed.

Lemma within_bind {A B : Type} (b1 b2 : Z) (m : M A) (k : A -> M B) (w : world) :
  returns_within b1 m w ->
  (forall a w1, m w = Some (a, w1) -> ticks w <= ticks w1 <= ticks w + b1 ->
                returns_within b2 (k a) w1) ->
  returns_within (b1 + b2) (bind m k) w.
Proof.
  intros (a & w1 & Hm & Ht) Hk. destruct (Hk a w1 Hm Ht) as (r & w' & Hr & Ht').
  exists r, w'. split; [rewrite (bind_run _ _ _ _ _ Hm); exact Hr | lia].
Qed.

Lemma within_quiet_bind {A B : Type} (b : Z) (m : M A) (k : A -> M B) (w : world) :
  returns m -> sleeps_at_most 0 m ->
  (forall a w1, ticks w1 = ticks w -> returns_within b (k a) w1) ->
  returns_within b (bind m k) w.
Proof.
  intros Hr Hq Hk. destruct (Hr w) as [[a w1] Hm].
  pose proof (Hq _ _ _ Hm) as Ht. assert (E : ticks w1 = ticks w) by lia.
  destruct (Hk a w1 E) as (r & w' & Hrun & Ht').
  exists r, w'. split; [rewrite (bind_run _ _ _ _ _ Hm); exact Hrun | lia].
Qed.

(** A step that is known: it returns [a] in [w1], [d] ticks later. *)
Lemma within_step {A B : Type} (d b : Z) (m : M A) (k : A -> M B)
      (w : world) (a : A) (w1 : world) :
  m w = Some (a, w1) ->
  0 <= d ->
  ticks w1 = ticks w + d ->
  returns_within b (k a) w1 ->
  returns_within (d + b) (bind m k) w.
Proof.
  intros Hm Hd Ht (r & w' & Hr & Ht').
  exists r, w'. split; [rewrite (bind_run _ _ _ _ _ Hm); exact Hr | lia].
Qed.

Ltac within_quiet_step :=
  apply within_quiet_bind; [solve [returns_tac] | solve [quiet_tac] |].

Ltac within_quiet_end :=
  apply within_quiet; [lia | solve [returns_tac] | solve [quiet_tac]].

(** The two timed waits of the transfers. *)
Lemma within_wait_start_token (tps : Z) (fuel : nat) (mmc : mmc_cfg) (w : world) :
  20 <= tps ->
  Z.quot tps 5 < Z.of_nat fuel ->
  no_wrap w (Z.quot tps 5 + Z.quot tps 20) ->
  returns_within (Z.quot tps 5 + Z.quot tps 20) (wait_start_token tps fuel mmc) w.
Proof.
  intros Htps Hf Hw.
  destruct (wait_start_token_run tps fuel mmc w Htps Hf Hw)
    as (res & j & t & Hrun & _ & _ & Ht).
  eexists _, _. split; [exact Hrun|]. cbn [ticks with_ticks]. lia.
Qed.

Lemma within_wait_not_busy (tps : Z) (fuel : nat) (mmc : mmc_cfg) (w : world) :
  100 <= tps ->
  5 * tps < Z.of_nat fuel ->
  no_wrap w (5 * tps + Z.quot tps 100) ->
  returns_within (5 * tps + Z.quot tps 100) (wait_not_busy tps fuel mmc) w.
Proof.
  intros Htps Hf Hw.
  destruct (wait_not_busy_run tps fuel mmc w Htps Hf Hw)
    as (res & j & t & Hrun & _ & _ & Ht).
  eexists _, _. split; [exact Hrun|]. cbn [ticks with_ticks]. lia.
Qed.

(** The operating-condition wait returns whatever the card answers: it
    looks at the clock on every round, and leaves at the first reading
    past the deadline, one sleep after it at the latest. *)
Lemma wait_op_cond_run (tps : Z) (mmc : mmc_cfg) (timeout : Z) (fuel : nat) :
  forall w,
    1 <= Z.quot tps 10 ->
    os_time_t (ticks w) <= timeout + Z.quot tps 10 ->
    timeout + Z.quot tps 10 < 2 ^ 32 ->
    1 <= Z.of_nat fuel ->
    timeout - os_time_t (ticks w) + 2 <= Z.of_nat fuel ->
    returns_within (timeout - os_time_t (ticks w) + Z.quot tps 10)
                   (wait_op_cond tps fuel mmc timeout) w.
Proof.
  induction fuel as [|fuel IH]; intros w Hd Hc Hw Hf1 Hf; [lia|].
  cbn [wait_op_cond].
  destruct (send_app_cmd_run mmc ACMD41 HCS w eq_refl) as (k' & k & _ & _ & Hrun).
  unfold returns_within. rewrite (bind_run _ _ _ _ _ Hrun).
  set (w1 := sent w _) in *.
  destruct (Z.land _ R_IDLE =? 0).
  { eexists _, _. split; [reflexivity|]. change (ticks w1) with (ticks w). lia. }
  rewrite (bind_run _ _ _ _ _ (time_get_eq w1)).
  change (ticks w1) with (ticks w).
  destruct (Z.gtb_spec (os_time_t (ticks w)) timeout) as [Hgt|Hle].
  { eexists _, _. split; [reflexivity|]. change (ticks w1) with (ticks w). lia. }
  unfold os_time_delay. unfold bind at 1.
  set (w2 := with_ticks _ w1).
  assert (Hc2 : os_time_t (ticks w2) = os_time_t (ticks w) + Z.quot tps 10).
  { unfold w2. cbn [ticks with_ticks]. change (ticks w1) with (ticks w).
    apply os_time_t_add; lia. }
  destruct (IH w2) as (st & w' & Hrun' & Ht); try lia.
  exists st, w'. split; [exact Hrun'|].
  rewrite Hc2 in Ht. change (ticks w2) with (ticks w + Z.quot tps 10) in Ht. lia.
Qed.

Lemma within_time_get_bind {B : Type} (b : Z) (k : Z -> M B) (w : world) :
  returns_within b (k (os_time_t (ticks w))) w ->
  returns_within b (bind os_time_get k) w.
Proof. intros (r & w' & Hr & Ht). exists r, w'. split; [exact Hr | exact Ht]. Qed.

Lemma within_mmc_init_card (tps : Z) (fuel : nat) (mmc : mmc_cfg) (w : world) :
  10 <= tps ->
  tps + 2 <= Z.of_nat fuel ->
  no_wrap w (tps + Z.quot tps 10) ->
  returns_within (tps + Z.quot tps 10) (mmc_init_card tps fuel mmc) w.
Proof.
  intros Htps Hf Hw. unfold mmc_init_card.
  assert (Hq : Z.quot tps 10 = tps / 10) by (apply Z.quot_div_nonneg; lia).
  assert (Hd : 1 <= Z.quot tps 10)
    by (rewrite Hq; apply Z.div_le_lower_bound; lia).
  within_quiet_step. intros st0 w1 E1.
  destruct (negb _); [within_quiet_end|].
  within_quiet_step. intros st8 w2 E2.
  within_quiet_step. intros resp w3 E3.
  destruct (truthy _); [within_quiet_end|].
  destruct (negb _); [within_quiet_end|].
  destruct (negb _); [within_quiet_end|].
  assert (Hw3 : no_wrap w3 (tps + Z.quot tps 10)).
  { apply (no_wrap_same w); [congruence | exact Hw]. }
  apply within_time_get_bind. cbv zeta.
  rewrite (deadline_no_wrap w3 tps)
    by first [lia | apply (no_wrap_less w3 tps (tps + Z.quot tps 10)); [lia | exact Hw3]].
  replace (tps + Z.quot tps 10) with ((tps + Z.quot tps 10) + 0) by lia.
  apply within_bind.
  - unfold no_wrap in Hw3.
    replace (tps + Z.quot tps 10)
      with (os_time_t (ticks w3) + tps - os_time_t (ticks w3) + Z.quot tps 10) by lia.
    apply wait_op_cond_run; lia.
  - intros status w4 _ _. within_quiet_end.
Qed.

Lemma within_mmc_init (tps : Z) (fuel : nat) (n c p : Z) (w : world) :
  10 <= tps ->
  tps + 2 <= Z.of_nat fuel ->
  no_wrap w (Z.quot tps 100 + tps + Z.quot tps 10) ->
  returns_within (Z.quot tps 100 + tps + Z.quot tps 10) (mmc_init tps fuel n c p) w.
Proof.
  intros Htps Hf Hw.
  assert (Hq100 : 0 <= Z.quot tps 100) by (apply Z.quot_pos; lia).
  assert (Hq10 : 0 <= Z.quot tps 10) by (apply Z.quot_pos; lia).
  unfold mmc_init.
  replace (Z.quot tps 100 + tps + Z.quot tps 10)
    with (0 + (Z.quot tps 100 + tps + Z.quot tps 10)) by lia.
  eapply within_step; [reflexivity | lia | cbn [ticks with_cfg]; lia |].
  replace (Z.quot tps 100 + tps + Z.quot tps 10)
    with (0 + (Z.quot tps 100 + tps + Z.quot tps 10)) by lia.
  eapply within_step; [reflexivity | lia | lia |].
  replace (Z.quot tps 100 + tps + Z.quot tps 10)
    with (0 + (Z.quot tps 100 + tps + Z.quot tps 10)) by lia.
  eapply within_step; [reflexivity | lia | cbn [ticks with_gpio with_cfg]; lia |].
  replace (Z.quot tps 100 + tps + Z.quot tps 10)
    with (0 + (Z.quot tps 100 + tps + Z.quot tps 10)) by lia.
  eapply within_step; [reflexivity | lia | lia |].
  set (w1 := with_gpio _ (with_cfg _ w)).
  assert (T1 : ticks w1 = ticks w) by reflexivity.
  destruct (truthy _).
  { apply within_quiet; [lia | apply returns_ret | apply sleeps_ret]. }
  replace (Z.quot tps 100 + tps + Z.quot tps 10)
    with (0 + (Z.quot tps 100 + tps + Z.quot tps 10)) by lia.
  eapply within_step; [reflexivity | lia | lia |].
  destruct (truthy _).
  { apply within_quiet; [lia | apply returns_ret | apply sleeps_ret]. }
  replace (Z.quot tps 100 + tps + Z.quot tps 10)
    with (0 + (Z.quot tps 100 + tps + Z.quot tps 10)) by lia.
  eapply within_step; [reflexivity | lia | lia |].
  replace (Z.quot tps 100 + tps + Z.quot tps 10)
    with (0 + (Z.quot tps 100 + tps + Z.quot tps 10)) by lia.
  eapply within_step; [reflexivity | lia | lia |].
  replace (Z.quot tps 100 + tps + Z.quot tps 10)
    with (Z.quot tps 100 + (tps + Z.quot tps 10)) by lia.
  eapply within_step; [reflexivity | lia | reflexivity |].
  set (w2 := with_ticks _ w1).
  assert (T2 : ticks w2 = ticks w + Z.quot tps 100) by reflexivity.
  within_quiet_step. intros u3 w3 E3.
  within_quiet_step. intros u4 w4 E4.
  within_quiet_step. intros u5 w5 E5.
  replace (tps + Z.quot tps 10) with ((tps + Z.quot tps 10) + 0) by lia.
  apply within_bind.
  - apply within_mmc_init_card; [exact Htps | exact Hf |].
    apply (no_wrap_later w w5 (Z.quot tps 100) (tps + Z.quot tps 10)); [lia | lia |].
    replace (Z.quot tps 100 + (tps + Z.quot tps 10))
      with (Z.quot tps 100 + tps + Z.quot tps 10) by lia.
    exact Hw.
  - intros rc w6 _ _. within_quiet_end.
Qed.

Lemma within_mmc_read (tps : Z) (fuel : nat) (id addr : Z) (buf : list Z) (len : Z)
      (w : world) :
  20 <= tps ->
  Z.quot tps 5 < Z.of_nat fuel ->
  no_wrap w (Z.quot tps 5 + Z.quot tps 20) ->
  returns_within (Z.quot tps 5 + Z.quot tps 20) (mmc_read tps fuel id addr buf len) w.
Proof.
  intros Htps Hf Hw.
  assert (0 <= Z.quot tps 20) by (apply Z.quot_pos; lia).
  assert (0 <= Z.quot tps 5) by (apply Z.quot_pos; lia).
  unfold mmc_read.
  within_quiet_step. intros o w1 E1.
  destruct o as [mmc|]; [|within_quiet_end]. cbv zeta.
  within_quiet_step. intros u2 w2 E2.
  within_quiet_step. intros st w3 E3.
  destruct (negb _); [within_quiet_end|].
  replace (Z.quot tps 5 + Z.quot tps 20) with ((Z.quot tps 5 + Z.quot tps 20) + 0) by lia.
  apply within_bind.
  - apply within_wait_start_token; [exact Htps | exact Hf |].
    apply (no_wrap_same w); [congruence | exact Hw].
  - intros res w4 _ _. destruct (res =? 254); within_quiet_end.
Qed.

Lemma within_write_preread (tps : Z) (fuel : nat) (mmc : mmc_cfg) (ba : Z) (w : world) :
  20 <= tps ->
  Z.quot tps 5 < Z.of_nat fuel ->
  no_wrap w (Z.quot tps 5 + Z.quot tps 20) ->
  returns_within (Z.quot tps 5 + Z.quot tps 20) (write_preread tps fuel mmc ba) w.
Proof.
  intros Htps Hf Hw.
  assert (0 <= Z.quot tps 20) by (apply Z.quot_pos; lia).
  assert (0 <= Z.quot tps 5) by (apply Z.quot_pos; lia).
  unfold write_preread.
  within_quiet_step. intros st w1 E1.
  destruct (negb _); [within_quiet_end|].
  replace (Z.quot tps 5 + Z.quot tps 20) with ((Z.quot tps 5 + Z.quot tps 20) + 0) by lia.
  apply within_bind.
  - apply within_wait_start_token; [exact Htps | exact Hf |].
    apply (no_wrap_same w); [congruence | exact Hw].
  - intros res w2 _ _. destruct (negb _); within_quiet_end.
Qed.

Lemma within_mmc_write (tps : Z) (fuel : nat) (id addr : Z) (buf : list Z) (len : Z)
      (w : world) :
  100 <= tps ->
  5 * tps < Z.of_nat fuel ->
  0 <= addr < 2 ^ 32 ->
  0 <= len < 2 ^ 32 ->
  (len + addr mod 512) / 512 + 1 <= Z.of_nat fuel ->
  no_wrap w (Z.quot tps 5 + Z.quot tps 20 + (5 * tps + Z.quot tps 100)) ->
  returns_within (Z.quot tps 5 + Z.quot tps 20 + (5 * tps + Z.quot tps 100))
                 (mmc_write tps fuel id addr buf len) w.
Proof.
  intros Htps Hf Ha Hl Hblocks Hw.
  assert (H20 : 0 <= Z.quot tps 20) by (apply Z.quot_pos; lia).
  assert (H5 : 0 <= Z.quot tps 5) by (apply Z.quot_pos; lia).
  assert (H100 : 0 <= Z.quot tps 100) by (apply Z.quot_pos; lia).
  assert (Hq5 : Z.quot tps 5 = tps / 5) by (apply Z.quot_div_nonneg; lia).
  assert (Hf5 : Z.quot tps 5 < Z.of_nat fuel).
  { rewrite Hq5. assert (tps / 5 <= tps) by (apply Z.div_le_upper_bound; lia). lia. }
  assert (Hloop : forall mmc cmd,
             returns (write_blocks fuel mmc cmd buf (offset_of addr) len 0)).
  { intros mmc cmd w0. apply write_blocks_total; rewrite ?(offset_of_mod addr Ha);
      [apply Z.mod_pos_bound; lia | exact Hl | exact Hblocks]. }
  unfold mmc_write.
  within_quiet_step. intros o w1 E1.
  destruct o as [mmc|]; [|within_quiet_end]. cbv zeta.
  within_quiet_step. intros u2 w2 E2.
  apply within_bind.
  - destruct (truthy _).
    + apply within_write_preread; [lia | exact Hf5 |].
      apply (no_wrap_same w); [congruence|].
      apply (no_wrap_less w (Z.quot tps 5 + Z.quot tps 20)
                          (Z.quot tps 5 + Z.quot tps 20 + (5 * tps + Z.quot tps 100)));
        [lia | exact Hw].
    + apply within_quiet; [lia | apply returns_ret | apply sleeps_ret].
  - intros early w3 _ T3. destruct early as [rc|]; [within_quiet_end|].
    assert (Hw3 : no_wrap w3 (5 * tps + Z.quot tps 100)).
    { apply (no_wrap_later w w3 (Z.quot tps 5 + Z.quot tps 20)
                           (5 * tps + Z.quot tps 100)); [lia | lia | exact Hw]. }
    unfold write_transfer. cbv zeta.
    within_quiet_step. intros st w4 E4.
    destruct (negb _); [within_quiet_end|].
    within_quiet_step. intros u5 w5 E5.
    apply within_quiet_bind; [apply Hloop | solve [quiet_tac] |]. intros tok w6 E6.
    cbv zeta.
    replace (5 * tps + Z.quot tps 100) with ((5 * tps + Z.quot tps 100) + 0) by lia.
    apply within_bind.
    + apply within_wait_not_busy; [exact Htps | exact Hf |].
      apply (no_wrap_same w3); [congruence | exact Hw3].
    + intros busy w7 _ _. within_quiet_end.
Qed.

(** ** The block loop of a read, for any number of blocks *)

Lemma amount_nat (off len : nat) :
  (off < 512)%nat ->
  Z.of_nat len < 2 ^ 32 ->
  MIN (usize (BLOCK_LEN - Z.of_nat off)) (Z.of_nat len)
  = Z.of_nat (Nat.min (512 - off) len).
Proof.
  intros Ho Hl. unfold MIN, usize, BLOCK_LEN.
  change (2 ^ 32) with 4294967296 in *.
  rewrite Z.mod_small by lia.
  destruct (Z.ltb_spec (512 - Z.of_nat off) (Z.of_nat len)); lia.
Qed.

Lemma usize_of_nat (n : nat) :
  Z.of_nat n < 2 ^ 32 -> usize (Z.of_nat n) = Z.of_nat n.
Proof. intros H. unfold usize. apply Z.mod_small. lia. Qed.

Lemma map_seq_shift (f : nat -> Z) (s n : nat) :
  map f (seq s n) = map (fun i => f (s + i)%nat) (seq 0 n).
Proof.
  revert f s. induction n as [|n IH]; intros f s; [reflexivity|].
  cbn [seq map]. rewrite Nat.add_0_r. f_equal.
  rewrite (IH f (S s)), (IH (fun i => f (s + i)%nat) 1%nat).
  apply map_ext. intros i. f_equal. lia.
Qed.

Lemma map_seq_app (f : nat -> Z) (a n : nat) :
  map f (seq 0 (a + n))
  = map f (seq 0 a) ++ map (fun i => f (a + i)%nat) (seq 0 n).
Proof. rewrite seq_app, map_app. cbn [Nat.add]. now rewrite (map_seq_shift f a n). Qed.

Lemma stream_pos_first (d off i : nat) :
  (i + off < 512)%nat -> stream_pos d off i = (d + off + i)%nat.
Proof.
  intros H. unfold stream_pos.
  rewrite Nat.div_small by lia. rewrite Nat.mod_small by lia. lia.
Qed.

Lemma stream_pos_next (d off j : nat) :
  (off < 512)%nat ->
  stream_pos d off (512 - off + j) = stream_pos (d + 514) 0 j.
Proof.
  intros H. unfold stream_pos.
  replace (512 - off + j + off)%nat with (j + 1 * 512)%nat by lia.
  rewrite Nat.div_add by lia. rewrite Nat.Div0.mod_add.
  rewrite Nat.add_0_r. lia.
Qed.

Lemma read_blocks_delivers (mmc : mmc_cfg) (c : nat) :
  forall (buf : list Z) (off len idx : nat) (w : world),
    length (g_block_buf w) = 512%nat ->
    (off < 512)%nat ->
    (idx + len <= length buf)%nat ->
    Z.of_nat (idx + len) < 2 ^ 32 ->
    exists w',
      read_blocks c mmc buf (Z.of_nat off) (Z.of_nat len) (Z.of_nat idx) w
      = Some (firstn idx buf
                ++ map (fun i => rx w (stream_pos (length (mosi w)) off i))
                       (seq 0 (Nat.min len (512 * c - off)))
                ++ skipn (idx + Nat.min len (512 * c - off)) buf,
              w')
      /\ mosi w' = mosi w ++ repeat 0xff (514 * c)
      /\ g_mmc_cfg w' = g_mmc_cfg w
      /\ gpio w' = gpio w
      /\ miso w' = miso w
      /\ ticks w' = ticks w.
Proof.
  induction c as [|c IH]; intros buf off len idx w Hl Ho Hb Hz.
  - exists w. cbn [read_blocks]. unfold ret.
    replace (512 * 0 - off)%nat with 0%nat by lia.
    rewrite Nat.min_0_r, Nat.add_0_r.
    replace (514 * 0)%nat with 0%nat by lia. cbn [seq map app repeat].
    rewrite firstn_skipn, app_nil_r. auto 10.
  - pose proof (read_blocks_S c mmc buf (Z.of_nat off) (Z.of_nat len)
                              (Z.of_nat idx) w Hl) as Hstep.
    cbv zeta in Hstep. rewrite Hstep. clear Hstep.
    rewrite (amount_nat off len Ho) by lia.
    set (a := Nat.min (512 - off) len).
    assert (Ha : (a <= len)%nat) by (unfold a; lia).
    assert (Ha' : (a <= 512 - off)%nat) by (unfold a; lia).
    rewrite <- Nat2Z.inj_sub by exact Ha.
    rewrite <- Nat2Z.inj_add.
    rewrite (usize_of_nat (len - a)) by lia.
    rewrite (usize_of_nat (idx + a)) by lia.
    rewrite !Nat2Z.id.
    set (pos := length (mosi w)).
    set (block := map (rx w) (seq pos 512)).
    set (w1 := with_block_buf block (sent w (repeat 255 512 ++ [255; 255]))).
    set (buf1 := memcpy buf idx block off a).
    assert (Hcopy : firstn a (skipn off block) = map (rx w) (seq (pos + off) a)).
    { unfold block. rewrite skipn_map, firstn_map, skipn_seq.
      rewrite firstn_seq_le by lia. reflexivity. }
    assert (Hbuf1 : buf1 = firstn idx buf ++ map (rx w) (seq (pos + off) a)
                             ++ skipn (idx + a) buf).
    { unfold buf1, memcpy. rewrite Hcopy. reflexivity. }
    assert (Hlen1 : length buf1 = length buf).
    { rewrite Hbuf1, !length_app, length_firstn, length_map, length_seq, length_skipn.
      lia. }
    destruct (IH buf1 0%nat (len - a)%nat (idx + a)%nat w1)
      as (w' & Hrun & Hmosi & Hcfg & Hgpio & Hmiso & Hticks).
    { unfold w1, block. cbn [g_block_buf with_block_buf].
      now rewrite length_map, length_seq. }
    { lia. }
    { rewrite Hlen1. lia. }
    { replace (idx + a + (len - a))%nat with (idx + len)%nat by lia. exact Hz. }
    exists w'. change (Z.of_nat 0) with 0 in Hrun. rewrite Hrun.
    split; [|split; [|split; [|split; [|split]]]].
    + do 2 f_equal.
      set (n' := Nat.min (len - a) (512 * c - 0)).
      assert (Hn : Nat.min len (512 * S c - off) = (a + n')%nat)
        by (unfold n', a; lia).
      rewrite Hn.
      assert (Hpos1 : length (mosi w1) = (pos + 514)%nat).
      { unfold w1. cbn [mosi with_block_buf]. rewrite mosi_sent, !length_app.
        rewrite repeat_length. reflexivity. }
      rewrite Hpos1. change (rx w1) with (rx w).
      assert (Hfirst : firstn (idx + a) buf1
                       = firstn idx buf ++ map (rx w) (seq (pos + off) a)).
      { rewrite Hbuf1, app_assoc.
        assert (Hl2 : length (firstn idx buf ++ map (rx w) (seq (pos + off) a))
                      = (idx + a)%nat).
        { rewrite length_app, length_firstn, length_map, length_seq. lia. }
        rewrite firstn_app, Hl2, Nat.sub_diag, firstn_O, app_nil_r.
        apply firstn_all2. lia. }
      assert (Hskip : skipn (idx + a + n') buf1 = skipn (idx + (a + n')) buf).
      { rewrite Hbuf1, app_assoc.
        assert (Hl2 : length (firstn idx buf ++ map (rx w) (seq (pos + off) a))
                      = (idx + a)%nat).
        { rewrite length_app, length_firstn, length_map, length_seq. lia. }
        rewrite skipn_app, Hl2.
        rewrite (skipn_all2 (firstn idx buf ++ _)) by lia. cbn [app].
        replace (idx + a + n' - (idx + a))%nat with n' by lia.
        rewrite skipn_skipn. f_equal. lia. }
      rewrite Hfirst, Hskip. rewrite <- !app_assoc. f_equal.
      rewrite map_seq_app. rewrite <- app_assoc. f_equal.
      * rewrite (map_seq_shift (rx w) (pos + off) a).
        apply map_ext_in. intros i Hi. apply in_seq in Hi.
        rewrite stream_pos_first by lia. reflexivity.
      * f_equal. apply map_ext_in. intros j Hj. apply in_seq in Hj.
        assert (a = 512 - off)%nat by (unfold n', a in *; lia).
        subst a. rewrite H. rewrite stream_pos_next by lia. reflexivity.
    + rewrite Hmosi. unfold w1. cbn [mosi with_block_buf]. rewrite mosi_sent.
      rewrite <- !app_assoc. f_equal.
      replace (514 * S c)%nat with (512 + (2 + 514 * c))%nat by lia.
      rewrite !repeat_app. reflexivity.
    + rewrite Hcfg. reflexivity.
    + rewrite Hgpio. reflexivity.
    + rewrite Hmiso. reflexivity.
    + rewrite Hticks. reflexivity.
Qed.


(** ** Polls that wait in vain *)

(** A poll that never sees what it waits for ends by the clock. *)
Lemma poll_until_never (fuel : nat) (mmc : mmc_cfg) (stop : Z -> bool) (d timeout : Z) :
  forall w res w',
    (forall m, (length (mosi w) <= m)%nat -> stop (rx w m) = false) ->
    poll_until fuel mmc stop d timeout w = Some (res, w') ->
    timeout <= os_time_t (ticks w') /\ stop res = false.
Proof.
  induction fuel as [|fuel IH]; intros w res w' Hno H; [discriminate H|].
  cbn [poll_until] in H. inv_bind H. inversion Hrun; subst. clear Hrun.
  cbv zeta in H.
  pose proof (Hno (length (mosi w)) (le_n _)) as H0. unfold rx in H0.
  rewrite H0 in H.
  inv_bind H. inversion Hrun; subst. clear Hrun.
  inv_bind H. inversion Hrun; subst. clear Hrun.
  cbn [ticks with_ticks with_mosi] in H.
  destruct (Z.ltb_spec (os_time_t (ticks w + d)) timeout) as [Hlt|Hge].
  - apply IH in H; [exact H|].
    intros m Hm. cbn [mosi with_ticks with_mosi] in Hm. rewrite length_app in Hm.
    cbn [length] in Hm. change (rx (with_ticks _ _) m) with (rx w m).
    apply Hno. lia.
  - inv_ret H. cbn [ticks with_ticks with_mosi]. split; [lia | exact H0].
Qed.

(** ** The block loop of a write, round by round *)

Lemma length_memcpy (dst : list Z) (d : nat) (src : list Z) (s n : nat) :
  (d + n <= length dst)%nat ->
  (s + n <= length src)%nat ->
  length (memcpy dst d src s n) = length dst.
Proof.
  intros Hd Hs. unfold memcpy.
  rewrite !length_app, !length_firstn, !length_skipn. lia.
Qed.

(** One round of the write loop: the start token, the 512 bytes of
    [g_block_buf] after the copy, two CRC fillers and the exchange that
    reads the data-response token; then the loop ends if the token is not
    "accepted" or nothing is left, and goes on otherwise. *)
Lemma write_blocks_S (fuel : nat) (mmc : mmc_cfg) (cmd : Z) (buf : list Z)
      (offset len index : Z) (w : world) :
  let amount := MIN (usize (BLOCK_LEN - offset)) len in
  let g := memcpy (g_block_buf w) (Z.to_nat offset) buf (Z.to_nat index)
                  (Z.to_nat amount) in
  let w1 := with_block_buf g (sent w ([start_token cmd] ++ g ++ [0xff; 0xff; 0xff])) in
  let res := rx w (length (mosi w) + 515) in
  length g = 512%nat ->
  write_blocks (S fuel) mmc cmd buf offset len index w
  = if negb (Z.land res 0x1f =? 0x05) then Some (res, w1)
    else if truthy (usize (len - amount))
         then write_blocks fuel mmc cmd buf 0 (usize (len - amount))
                           (usize (index + amount)) w1
         else Some (res, w1).
Proof.
  intros amount g w1 res Hg. cbn [write_blocks].
  assert (Htok : (if cmd =? CMD24 then hal_spi_tx_val (spi_num mmc) 254
                  else hal_spi_tx_val (spi_num mmc) 252) w
                 = Some (miso w (length (mosi w)), sent w [start_token cmd])).
  { unfold start_token. destruct (cmd =? CMD24); reflexivity. }
  rewrite (bind_run _ _ _ _ _ Htok).
  unfold get_block_buf, put_block_buf. unfold bind at 1. unfold bind at 1.
  cbn [g_block_buf sent with_mosi]. fold amount. fold g.
  set (wa := with_block_buf g (with_mosi (mosi w ++ [start_token cmd]) w)).
  assert (Hga : length (g_block_buf wa) = 512%nat) by exact Hg.
  rewrite (bind_run _ _ _ _ _ (send_full_block mmc wa Hga)).
  repeat (rewrite (bind_run _ _ _ _ _ (tx_run _ _ _)); rewrite ?sent_sent).
  cbv zeta.
  change (g_block_buf wa) with g. rewrite <- ?app_assoc. cbn [app].
  assert (Hpos : length (mosi (sent wa (g ++ [255; 255])))
                 = (length (mosi w) + 515)%nat).
  { rewrite mosi_sent, !length_app. unfold wa.
    cbn [mosi with_block_buf with_mosi length].
    rewrite length_app, Hg. cbn [length]. lia. }
  rewrite Hpos.
  assert (Hw1 : sent wa (g ++ [255; 255; 255]) = w1).
  { unfold w1, wa, sent, with_block_buf, with_mosi.
    cbn [g_mmc_cfg g_block_buf gpio ticks miso mosi spi_init_rc spi_config_rc].
    rewrite <- !app_assoc. reflexivity. }
  rewrite Hw1.
  change (miso (sent wa (g ++ [255; 255]))) with (miso w).
  fold (rx w (length (mosi w) + 515)). fold res.
  destruct (negb (Z.land res 31 =? 5)); [reflexivity|].
  destruct (truthy (usize (len - amount))); reflexivity.
Qed.

(** When what is left fits in the block, the round is the last one. *)
Lemma write_blocks_last (fuel : nat) (mmc : mmc_cfg) (cmd : Z) (buf : list Z)
      (off len idx : nat) (w : world) :
  length (g_block_buf w) = 512%nat ->
  (off < 512)%nat ->
  (off + len <= 512)%nat ->
  (idx + len <= length buf)%nat ->
  write_blocks (S fuel) mmc cmd buf (Z.of_nat off) (Z.of_nat len) (Z.of_nat idx) w
  = Some (rx w (length (mosi w) + 515),
          with_block_buf
            (memcpy (g_block_buf w) off buf idx len)
            (sent w ([start_token cmd] ++ memcpy (g_block_buf w) off buf idx len
                       ++ [0xff; 0xff; 0xff]))).
Proof.
  intros Hg Ho Hfit Hb.
  assert (Ha : MIN (usize (BLOCK_LEN - Z.of_nat off)) (Z.of_nat len) = Z.of_nat len).
  { rewrite amount_nat; [f_equal; lia | exact Ho | change (2 ^ 32) with 4294967296; lia]. }
  pose proof (write_blocks_S fuel mmc cmd buf (Z.of_nat off) (Z.of_nat len)
                             (Z.of_nat idx) w) as Hstep.
  cbv zeta in Hstep. rewrite Ha, !Nat2Z.id in Hstep.
  rewrite Hstep by (rewrite length_memcpy; lia).
  replace (Z.of_nat len - Z.of_nat len) with 0 by lia.
  change (truthy (usize 0)) with false.
  destruct (negb _); reflexivity.
Qed.


(** The end of [mmc_write] after the block loop. *)
Lemma write_tail_run (tps : Z) (fuel : nat) (mmc : mmc_cfg) (status : mmc_status)
      (w : world) :
  100 <= tps ->
  5 * tps < Z.of_nat fuel ->
  no_wrap w (5 * tps + Z.quot tps 100) ->
  exists (j : nat) (t : Z),
    (_ <- wait_not_busy tps fuel mmc ;; hal_gpio_write (ss_pin mmc) 1 ;; ret status) w
    = Some (status,
            with_gpio (set_pin (ss_pin mmc) 1 (gpio w))
                      (with_ticks t (sent w (repeat 0xff j))))
    /\ (1 <= j)%nat.
Proof.
  intros Htps Hf Hw.
  destruct (wait_not_busy_run tps fuel mmc w Htps Hf Hw)
    as (res & j & t & Hrun & Hj & _).
  exists j, t. split; [|exact Hj].
  rewrite (bind_run _ _ _ _ _ Hrun). reflexivity.
Qed.

Lemma block_count_of_one (len : Z) : 1 <= len <= 512 -> block_count_of len = 1.
Proof.
  intros H. rewrite block_count_of_ceil by (change (2 ^ 32) with 4294967296; lia).
  Z.to_euclidean_division_equations. lia.
Qed.

(** The read-ahead of [mmc_write] on a card that serves it. *)

(** The read-ahead of [mmc_write] on a card that serves it. *)

(** The read-ahead of [mmc_write] on a card that serves it. *)
Lemma write_preread_hit (tps : Z) (fuel : nat) (mmc : mmc_cfg) (ba : Z) (w : world)
      (k j : nat) :
  0 <= tps ->
  no_wrap w (Z.quot tps 5) ->
  length (g_block_buf w) = 512%nat ->
  (j < fuel)%nat ->
  answers w (length (mosi w)) k 0 ->
  token_after tps w (length (mosi w) + 6 + S k) j ->
  write_preread tps fuel mmc ba w
  = Some (None,
          with_ticks (ticks w + Z.of_nat j * Z.quot tps 20)
            (with_block_buf
               (map (rx w) (seq (length (mosi w) + 6 + S k + S j) 512))
               (sent w (frame CMD17 ba ++ repeat 0xff (S k) ++ repeat 0xff (S j)
                          ++ repeat 0xff 512 ++ [0xff; 0xff])))).
Proof.
  intros Htps Hw Hg Hf Hans Htok. unfold write_preread.
  rewrite (bind_run _ _ _ _ _ (send_plain_cmd_hit mmc CMD17 ba w k 0 eq_refl Hans)).
  change (negb (0 =? 0)) with false. cbv iota.
  set (w1 := sent w (frame CMD17 ba ++ repeat 255 (S k))).
  assert (Hlen1 : length (mosi w1) = (length (mosi w) + 6 + S k)%nat).
  { unfold w1. rewrite mosi_sent, !length_app, repeat_length.
    cbn [length frame]. lia. }
  assert (Htok1 : token_after tps w1 (length (mosi w1)) j)
    by (rewrite Hlen1; exact Htok).
  assert (Hw1 : no_wrap w1 (Z.quot tps 5)) by exact Hw.
  rewrite (bind_run _ _ _ _ _
             (wait_start_token_hit tps fuel mmc w1 j Htps Hw1 Hf Htok1)).
  change (negb (254 =? 254)) with false. cbv iota.
  set (w2 := with_ticks _ (sent w1 (repeat 255 (S j)))).
  assert (Hlen2 : length (mosi w2) = (length (mosi w) + 6 + S k + S j)%nat).
  { unfold w2. cbn [mosi with_ticks]. rewrite mosi_sent, length_app, repeat_length.
    rewrite Hlen1. reflexivity. }
  assert (Hg2 : length (g_block_buf w2) = 512%nat) by exact Hg.
  rewrite (bind_run _ _ _ _ _ (recv_full_block mmc w2 Hg2)).
  rewrite (bind_run _ _ _ _ _ (tx_run _ _ _)).
  rewrite (bind_run _ _ _ _ _ (tx_run _ _ _)).
  rewrite Hlen2. change (rx w2) with (rx w).
  unfold ret. do 2 f_equal.
  unfold w2, w1, sent, with_ticks, with_block_buf, with_mosi.
  cbn [g_mmc_cfg g_block_buf gpio ticks miso mosi spi_init_rc spi_config_rc].
  rewrite <- !app_assoc. cbn [app]. reflexivity.
Qed.

Lemma flat_map_seq_S (f : nat -> list Z) (n : nat) :
  flat_map f (seq 0 (S n)) = f 0%nat ++ flat_map (fun i => f (S i)) (seq 0 n).
Proof.
  cbn [seq flat_map]. f_equal. rewrite <- seq_shift.
  rewrite flat_map_concat_map, map_map, <- flat_map_concat_map. reflexivity.
Qed.

Lemma block_buf_sent_twice (b g : list Z) (w : world) (l1 l2 : list Z) :
  with_block_buf b (sent (with_block_buf g (sent w l1)) l2)
  = with_block_buf b (sent w (l1 ++ l2)).
Proof.
  unfold sent, with_block_buf, with_mosi.
  cbn [g_mmc_cfg g_block_buf gpio ticks miso mosi spi_init_rc spi_config_rc].
  rewrite <- app_assoc. reflexivity.
Qed.

(** The write loop on whole blocks stops at the first block that is not
    accepted, or after the last. *)
Lemma write_blocks_full (mmc : mmc_cfg) (cmd : Z) (buf : list Z) :
  forall (m fuel n idx : nat) (w : world),
    length (g_block_buf w) = 512%nat ->
    (m < fuel)%nat ->
    (idx + 512 * n <= length buf)%nat ->
    Z.of_nat (idx + 512 * n) < 2 ^ 32 ->
    stops_at w (length (mosi w)) n m ->
    write_blocks fuel mmc cmd buf 0 (Z.of_nat (512 * n)) (Z.of_nat idx) w
    = Some (rx w (length (mosi w) + 516 * m + 515),
            with_block_buf (firstn 512 (skipn (idx + 512 * m) buf))
              (sent w (flat_map (block_frame cmd buf idx) (seq 0 (S m))))).
Proof.
  induction m as [|m IH]; intros fuel n idx w Hg Hf Hb Hr (Hmn & Hacc & Hrej);
    (destruct fuel as [|fuel]; [lia|]).
  - pose proof (write_blocks_S fuel mmc cmd buf 0 (Z.of_nat (512 * n))
                               (Z.of_nat idx) w) as Hstep.
    cbv zeta in Hstep.
    assert (Ha : MIN (usize (BLOCK_LEN - 0)) (Z.of_nat (512 * n)) = 512).
    { change 0 with (Z.of_nat 0). rewrite amount_nat by lia. lia. }
    rewrite Ha in Hstep. change (Z.to_nat 0) with 0%nat in Hstep.
    change (Z.to_nat 512) with 512%nat in Hstep. rewrite Nat2Z.id in Hstep.
    assert (Hcpy : memcpy (g_block_buf w) 0 buf idx 512 = firstn 512 (skipn idx buf)).
    { unfold memcpy. rewrite firstn_O, (skipn_all2 (g_block_buf w)) by lia.
      cbn [app]. apply app_nil_r. }
    rewrite Hcpy in Hstep.
    rewrite Hstep by (rewrite length_firstn, length_skipn; lia).
    replace (idx + 512 * 0)%nat with idx by lia.
    replace (length (mosi w) + 516 * 0 + 515)%nat
      with (length (mosi w) + 515)%nat in * by lia.
    cbn [seq flat_map]. rewrite app_nil_r. unfold block_frame.
    replace (idx + 512 * 0)%nat with idx by lia.
    destruct (negb (Z.land (rx w (length (mosi w) + 515)) 31 =? 5)) eqn:E;
      [reflexivity|].
    apply negb_false_iff, Z.eqb_eq in E.
    assert (n = 1)%nat by (destruct (Nat.lt_ge_cases 1 n) as [H1|H1];
                            [destruct (Hrej H1 E) | lia]).
    subst n. change (Z.of_nat (512 * 1) - 512) with 0.
    change (truthy (usize 0)) with false. reflexivity.
  - pose proof (write_blocks_S fuel mmc cmd buf 0 (Z.of_nat (512 * n))
                               (Z.of_nat idx) w) as Hstep.
    cbv zeta in Hstep.
    assert (Ha : MIN (usize (BLOCK_LEN - 0)) (Z.of_nat (512 * n)) = 512).
    { change 0 with (Z.of_nat 0). rewrite amount_nat by lia. lia. }
    rewrite Ha in Hstep. change (Z.to_nat 0) with 0%nat in Hstep.
    change (Z.to_nat 512) with 512%nat in Hstep. rewrite Nat2Z.id in Hstep.
    assert (Hcpy : memcpy (g_block_buf w) 0 buf idx 512 = firstn 512 (skipn idx buf)).
    { unfold memcpy. rewrite firstn_O, (skipn_all2 (g_block_buf w)) by lia.
      cbn [app]. apply app_nil_r. }
    rewrite Hcpy in Hstep.
    rewrite Hstep by (rewrite length_firstn, length_skipn; lia).
    pose proof (Hacc 0%nat ltac:(lia)) as H0.
    replace (length (mosi w) + 516 * 0 + 515)%nat
      with (length (mosi w) + 515)%nat in H0 by lia.
    rewrite H0. change (negb (5 =? 5)) with false. cbv iota.
    replace (Z.of_nat (512 * n) - 512) with (Z.of_nat (512 * (n - 1))) by lia.
    replace (Z.of_nat idx + 512) with (Z.of_nat (idx + 512)) by lia.
    rewrite !usize_of_nat by lia.
    assert (Htr : truthy (Z.of_nat (512 * (n - 1))) = true).
    { unfold truthy. destruct (Z.eqb_spec (Z.of_nat (512 * (n - 1))) 0) as [E|E];
        [lia | reflexivity]. }
    rewrite Htr.
    set (g := firstn 512 (skipn idx buf)).
    set (w1 := with_block_buf g (sent w ([start_token cmd] ++ g ++ [255; 255; 255]))).
    assert (Hg1 : length (g_block_buf w1) = 512%nat).
    { unfold w1, g. cbn [g_block_buf with_block_buf].
      rewrite length_firstn, length_skipn. lia. }
    assert (Hlen1 : length (mosi w1) = (length (mosi w) + 516)%nat).
    { unfold w1. cbn [mosi with_block_buf]. rewrite mosi_sent, !length_app.
      unfold g. rewrite length_firstn, length_skipn. cbn [length]. lia. }
    rewrite (IH fuel (n - 1)%nat (idx + 512)%nat w1 Hg1); try lia.
    + rewrite Hlen1. change (rx w1) with (rx w).
      replace (length (mosi w) + 516 + 516 * m + 515)%nat
        with (length (mosi w) + 516 * S m + 515)%nat by lia.
      replace (idx + 512 + 512 * m)%nat with (idx + 512 * S m)%nat by lia.
      unfold w1. rewrite block_buf_sent_twice.
      rewrite (flat_map_seq_S (block_frame cmd buf idx) (S m)).
      assert (Hext : flat_map (fun i => block_frame cmd buf idx (S i)) (seq 0 (S m))
                     = flat_map (block_frame cmd buf (idx + 512)) (seq 0 (S m))).
      { apply flat_map_ext. intros i. unfold block_frame.
        replace (idx + 512 * S i)%nat with (idx + 512 + 512 * i)%nat by lia.
        reflexivity. }
      rewrite Hext.
      unfold block_frame at 2. replace (idx + 512 * 0)%nat with idx by lia.
      reflexivity.
    + rewrite Hlen1. change (rx w1) with (rx w).
      refine (conj _ (conj _ _)).
      * lia.
      * intros i Hi.
        replace (length (mosi w) + 516 + 516 * i + 515)%nat
          with (length (mosi w) + 516 * S i + 515)%nat by lia.
        apply Hacc. lia.
      * intros Hlt.
        replace (length (mosi w) + 516 + 516 * m + 515)%nat
          with (length (mosi w) + 516 * S m + 515)%nat by lia.
        apply Hrej. lia.
Qed.

Lemma block_count_of_whole (n : nat) :
  Z.of_nat (512 * n) <= 2 ^ 32 - 512 ->
  block_count_of (Z.of_nat (512 * n)) = Z.of_nat n.
Proof.
  intros H. rewrite block_count_of_ceil by lia.
  Z.to_euclidean_division_equations. lia.
Qed.

Lemma data_response_class_ok (x : Z) : data_response_class x = MMC_OK -> x = 5.
Proof.
  unfold data_response_class.
  destruct (Z.eqb_spec x 5) as [E|E]; [intros _; exact E|].
  destruct (x =? 11); intros H; discriminate H.
Qed.


(** The wait for the start token on a line that stays high. *)
Lemma wait_start_token_never (tps : Z) (fuel : nat) (mmc : mmc_cfg) (w : world) :
  20 <= tps ->
  Z.quot tps 5 < Z.of_nat fuel ->
  no_wrap w (Z.quot tps 5 + Z.quot tps 20) ->
  (forall m, (length (mosi w) <= m)%nat -> rx w m = 0xFF) ->
  exists (j : nat) (t : Z),
    wait_start_token tps fuel mmc w
    = Some (0xFF, with_ticks t (sent w (repeat 0xff j)))
    /\ (1 <= j)%nat
    /\ ticks w + Z.quot tps 5 <= t <= ticks w + Z.quot tps 5 + Z.quot tps 20.
Proof.
  intros Htps Hf Hw Hff.
  assert (Hq5 : 0 <= Z.quot tps 5) by (apply Z.quot_pos; lia).
  assert (Hq20 : 0 <= Z.quot tps 20) by (apply Z.quot_pos; lia).
  destruct (wait_start_token_run tps fuel mmc w Htps Hf Hw)
    as (res & j & t & Hrun & Hj & Hres & Ht).
  assert (E : res = 0xFF) by (rewrite Hres; apply Hff; lia).
  clear Hres. subst res.
  exists j, t. split; [exact Hrun|]. split; [exact Hj|]. split; [|lia].
  unfold wait_start_token in Hrun.
  rewrite (bind_run _ _ _ _ _ (time_get_eq w)) in Hrun. cbv zeta in Hrun.
  rewrite (deadline_no_wrap w _ Hq5) in Hrun
    by (apply (no_wrap_less w (Z.quot tps 5) (Z.quot tps 5 + Z.quot tps 20));
        [lia | exact Hw]).
  apply poll_until_never in Hrun.
  - destruct Hrun as [Hdead _]. cbn [ticks with_ticks] in Hdead.
    unfold no_wrap in Hw.
    replace t with (ticks w + (t - ticks w)) in Hdead by lia.
    rewrite os_time_t_add in Hdead by lia. lia.
  - intros m Hm. rewrite (Hff m Hm). reflexivity.
Qed.

Lemma frame_body_hit (mmc : mmc_cfg) (cmd payload : Z) (w : world) (k : nat) (st : Z) :
  answers w (length (mosi w)) k st ->
  frame_body mmc cmd payload w
  = Some (st, sent w (frame cmd payload ++ repeat 0xff (S k))).
Proof.
  intros (Hk & Hbusy & Hst & Hhi). unfold frame_body.
  repeat (rewrite (bind_run _ _ _ _ _ (tx_run _ _ _)); rewrite ?sent_sent).
  cbn [app].
  rewrite (poll_response_hit k).
  - rewrite sent_sent, mosi_sent, length_app. cbn [length].
    unfold rx in *. cbn [miso sent with_mosi]. rewrite Hst. reflexivity.
  - lia.
  - intros i Hi. rewrite mosi_sent, length_app. cbn [length].
    unfold rx in *. cbn [miso sent with_mosi]. apply Hbusy. exact Hi.
  - rewrite mosi_sent, length_app. cbn [length].
    unfold rx in *. cbn [miso sent with_mosi]. rewrite Hst. exact Hhi.
Qed.

(** A command with the marker on a card that answers CMD55 and then the
    command itself. *)
Lemma send_app_cmd_hit (mmc : mmc_cfg) (cmd payload : Z) (w : world)
      (k' k : nat) (st' st : Z) :
  truthy (Z.land cmd 0x80) = true ->
  answers w (length (mosi w)) k' st' ->
  answers w (length (mosi w) + 6 + S k') k st ->
  send_mmc_cmd mmc cmd payload w
  = Some (st, sent w ((frame CMD55 0 ++ repeat 0xff (S k'))
                        ++ frame cmd payload ++ repeat 0xff (S k))).
Proof.
  intros Hm H55 Hcmd. unfold send_mmc_cmd. rewrite send_mmc_cmd_rec_S, Hm.
  assert (Hpre : send_mmc_cmd_rec 1 mmc CMD55 0 w
                 = Some (st', sent w (frame CMD55 0 ++ repeat 0xff (S k')))).
  { rewrite send_mmc_cmd_rec_S. change (truthy (Z.land CMD55 128)) with false.
    cbv iota. unfold bind at 1. unfold ret at 1.
    apply frame_body_hit. exact H55. }
  unfold bind at 1. unfold bind at 1. rewrite Hpre. unfold ret at 1.
  set (w1 := sent w (frame CMD55 0 ++ repeat 255 (S k'))).
  assert (Hlen1 : length (mosi w1) = (length (mosi w) + 6 + S k')%nat).
  { unfold w1. rewrite mosi_sent, !length_app, repeat_length.
    cbn [length frame]. lia. }
  assert (Hcmd1 : answers w1 (length (mosi w1)) k st) by (rewrite Hlen1; exact Hcmd).
  rewrite (frame_body_hit mmc cmd payload w1 k st Hcmd1).
  unfold w1. rewrite sent_sent. reflexivity.
Qed.

Lemma with_ticks_same (w : world) (t : Z) : t = ticks w -> with_ticks t w = w.
Proof. intros ->. destruct w. reflexivity. Qed.


(** The wait on a card that leaves the idle state before the deadline. *)

(** The wait on a card that leaves the idle state before the deadline. *)
Lemma wait_op_cond_ready (tps : Z) (mmc : mmc_cfg) (timeout : Z) (st : Z) :
  forall (r fuel : nat) (w : world),
    (r < fuel)%nat ->
    leaves_idle_after w (length (mosi w)) r st ->
    (forall i, (i < r)%nat ->
               os_time_t (ticks w + Z.of_nat i * Z.quot tps 10) <= timeout) ->
    wait_op_cond tps fuel mmc timeout w
    = Some (st, with_ticks (ticks w + Z.of_nat r * Z.quot tps 10)
                           (sent w (concat (repeat op_cond_round (S r))))).
Proof.
  induction r as [|r IH]; intros fuel w Hf (H55 & Hidle & Hst & Hhi & Hready) Ht;
    (destruct fuel as [|fuel]; [lia|]); cbn [wait_op_cond].
  - assert (Ha : answers w (length (mosi w)) 0 (rx w (length (mosi w) + 6))).
    { split; [lia|]. split; [intros i Hi; lia|]. split.
      - f_equal. lia.
      - pose proof (H55 0%nat (le_n _)) as H.
        replace (length (mosi w) + 14 * 0 + 6)%nat
          with (length (mosi w) + 6)%nat in H by lia. exact H. }
    assert (Hb : answers w (length (mosi w) + 6 + 1) 0 st).
    { split; [lia|]. split; [intros i Hi; lia|]. split; [|exact Hhi].
      rewrite <- Hst. f_equal. lia. }
    rewrite (bind_run _ _ _ _ _
               (send_app_cmd_hit mmc ACMD41 HCS w 0 0 _ st eq_refl Ha Hb)).
    apply Z.eqb_eq in Hready. rewrite Hready. unfold ret. do 2 f_equal.
    rewrite with_ticks_same by (cbn [ticks sent with_mosi]; lia).
    cbn [repeat concat]. rewrite app_nil_r. unfold op_cond_round.
    cbn [repeat]. rewrite <- !app_assoc. reflexivity.
  - assert (Ha : answers w (length (mosi w)) 0 (rx w (length (mosi w) + 6))).
    { split; [lia|]. split; [intros i Hi; lia|]. split.
      - f_equal. lia.
      - pose proof (H55 0%nat ltac:(lia)) as H.
        replace (length (mosi w) + 14 * 0 + 6)%nat
          with (length (mosi w) + 6)%nat in H by lia. exact H. }
    destruct (Hidle 0%nat ltac:(lia)) as [Hhi0 Hidle0].
    replace (length (mosi w) + 14 * 0 + 13)%nat
      with (length (mosi w) + 13)%nat in Hhi0, Hidle0 by lia.
    assert (Hb : answers w (length (mosi w) + 6 + 1) 0 (rx w (length (mosi w) + 13))).
    { split; [lia|]. split; [intros i Hi; lia|]. split; [|exact Hhi0].
      f_equal. lia. }
    rewrite (bind_run _ _ _ _ _
               (send_app_cmd_hit mmc ACMD41 HCS w 0 0 _ _ eq_refl Ha Hb)).
    apply Z.eqb_neq in Hidle0. rewrite Hidle0.
    set (w1 := sent w _).
    rewrite (bind_run _ _ _ _ _ (time_get_eq w1)).
    change (ticks w1) with (ticks w).
    pose proof (Ht 0%nat ltac:(lia)) as Ht0.
    replace (ticks w + Z.of_nat 0 * Z.quot tps 10) with (ticks w) in Ht0 by lia.
    assert (Hgt : (os_time_t (ticks w) >? timeout) = false).
    { destruct (Z.gtb_spec (os_time_t (ticks w)) timeout) as [G|G];
        [lia | reflexivity]. }
    rewrite Hgt.
    unfold os_time_delay at 1. unfold bind at 1.
    change (ticks w1) with (ticks w).
    set (w2 := with_ticks (ticks w + Z.quot tps 10) w1).
    assert (Hlen2 : length (mosi w2) = (length (mosi w) + 14)%nat).
    { unfold w2, w1. cbn [mosi with_ticks]. rewrite mosi_sent, !length_app.
      cbn [length frame repeat]. lia. }
    rewrite (IH fuel w2).
    + do 2 f_equal. unfold w2, w1, sent, with_ticks, with_mosi.
      cbn [g_mmc_cfg g_block_buf gpio ticks miso mosi spi_init_rc spi_config_rc].
      f_equal; [lia|].
      change (concat (repeat op_cond_round (S (S r))))
        with (op_cond_round ++ concat (repeat op_cond_round (S r))).
      unfold op_cond_round at 2. cbn [repeat].
      rewrite <- !app_assoc. reflexivity.
    + lia.
    + rewrite Hlen2. unfold leaves_idle_after. change (rx w2) with (rx w).
      refine (conj _ (conj _ (conj _ (conj Hhi Hready)))).
      * intros i Hi.
        replace (length (mosi w) + 14 + 14 * i + 6)%nat
          with (length (mosi w) + 14 * S i + 6)%nat by lia.
        apply H55. lia.
      * intros i Hi.
        replace (length (mosi w) + 14 + 14 * i + 13)%nat
          with (length (mosi w) + 14 * S i + 13)%nat by lia.
        apply Hidle. lia.
      * rewrite <- Hst. f_equal. lia.
    + intros i Hi. change (ticks w2) with (ticks w + Z.quot tps 10).
      pose proof (Ht (S i) ltac:(lia)) as H.
      replace (ticks w + Z.quot tps 10 + Z.of_nat i * Z.quot tps 10)
        with (ticks w + Z.of_nat (S i) * Z.quot tps 10) by lia.
      exact H.
Qed.

(** [mmc_init] on a Ver2.00 card, from the end of the wait on. *)
Lemma mmc_init_v2_after_wait
      (tps : Z) (fuel : nat) (n c p : Z) (w : world) (k0 k8 : nat) (st8 st : Z)
      (w4 : world) :
  spi_init_rc w = 0 ->
  spi_config_rc w = 0 ->
  answers w (length (mosi w) + 75) k0 R_IDLE ->
  answers w (length (mosi w) + 75 + 6 + S k0) k8 st8 ->
  Z.land st8 R_ILLEGAL_COMMAND = 0 ->
  rx w (length (mosi w) + 75 + 6 + S k0 + 6 + S k8 + 2) = 0x01 ->
  rx w (length (mosi w) + 75 + 6 + S k0 + 6 + S k8 + 3) = 0xAA ->
  wait_op_cond tps fuel (mk_cfg n p c (Some mmc_settings))
               (os_time_t (os_time_t (ticks w + Z.quot tps 100) + tps))
               (init_negotiated_world tps n c p w k0 k8)
  = Some (st, w4) ->
  exists k58 : nat,
    (1 <= k58 <= 255)%nat
    /\ mmc_init tps fuel n c p w
       = Some (mmc_error_by_status st,
               with_gpio (set_pin p 1 (gpio w4))
                         (sent w4 (if st =? 0
                                   then frame CMD58 0 ++ repeat 0xff k58
                                          ++ repeat 0xff 4
                                   else []))).
Proof.
  intros Hi Hc Hans0 Hans8 Hleg Hvolt Hpat Hwait.
  rewrite (mmc_init_prologue tps fuel n c p w Hi Hc).
  set (mmc := mk_cfg n p c (Some mmc_settings)) in *.
  destruct (init_negotiation_runs tps n c p w k0 k8 st8 Hans0 Hans8)
    as (w1 & w2 & Hcmd0 & Hcmd8 & Hresp).
  fold mmc in Hcmd0, Hcmd8, Hresp.
  set (w0 := init_prologue_world tps n c p w) in *.
  set (w3 := init_negotiated_world tps n c p w k0 k8) in *.
  destruct (send_plain_cmd_run 1 mmc CMD58 0 w4 eq_refl) as (k58 & Hk58 & Hrun58).
  fold (send_mmc_cmd mmc CMD58 0) in Hrun58.
  set (w5 := sent w4 (frame CMD58 0 ++ repeat 255 k58)) in *.
  pose proof (recv_resp_run 4 mmc w5) as Hocr.
  exists k58. split; [exact Hk58|].
  assert (Hcard : mmc_init_card tps fuel mmc w0
                  = Some (mmc_error_by_status st,
                          sent w4 (if st =? 0
                                   then frame CMD58 0 ++ repeat 0xff k58
                                          ++ repeat 0xff 4
                                   else []))).
  { unfold mmc_init_card.
    rewrite (bind_run _ _ _ _ _ Hcmd0).
    change (negb (R_IDLE =? R_IDLE)) with false. cbv iota.
    rewrite (bind_run _ _ _ _ _ Hcmd8).
    rewrite (bind_run _ _ _ _ _ Hresp).
    assert (Hill : truthy (Z.land st8 R_ILLEGAL_COMMAND) = false)
      by (rewrite Hleg; reflexivity).
    rewrite Hill. cbn [nth]. rewrite Hvolt, Hpat.
    change (negb (170 =? 170)) with false. change (negb (1 =? 1)) with false.
    cbv iota.
    rewrite (bind_run _ _ _ _ _ (time_get_eq w3)). cbv zeta.
    change (ticks w3) with (ticks w + Z.quot tps 100).
    rewrite (bind_run _ _ _ _ _ Hwait).
    change (truthy st) with (negb (st =? 0)).
    destruct (Z.eqb_spec st 0) as [E|E]; cbn [negb].
    - subst st.
      rewrite (bind_run _ _ _ _ _ Hrun58).
      rewrite (bind_run _ _ _ _ _ Hocr).
      unfold w5. rewrite sent_sent, <- app_assoc.
      match goal with |- context [if ?b then ret tt else ret tt] =>
        destruct b end; reflexivity.
    - rewrite sent_nil. reflexivity. }
  rewrite (bind_run _ _ _ _ _ Hcard).
  rewrite (bind_run _ _ _ _ _ (gpio_write_eq _ _ _)). reflexivity.
Qed.

(** * Further properties of the driver *)

(** X1. The classifier reports success for the status 0 and for no other
    value: every status with any bit set is an error. *)
Theorem mmc_error_by_status_ok_iff_zero (status : Z) :
  mmc_error_by_status status = MMC_OK <-> status = 0.
Proof.
  split.
  - unfold mmc_error_by_status. destruct (Z.eqb_spec status 0) as [E|E];
      [intros _; exact E|].
    repeat match goal with
           | |- (if ?c then _ else _) = _ -> _ => destruct c
           end; intros H; discriminate H.
  - intros ->. reflexivity.
Qed.

(** X2. The order of the tests decides between flags that are set
    together.  For a status byte with the idle flag clear: erase-reset or
    illegal-command gives the generic card error even when the CRC-error or
    parameter-error flag is set too; the CRC error is reported only when
    neither of those two is set, and then even when the parameter-error
    flag is set; erase-error or address-error come next and hide a
    parameter error; the parameter error is reported only when it is the
    lowest flag set; and the byte 0x80 is a generic card error. *)
Theorem mmc_error_by_status_precedence (status : Z) :
  0 <= status < 256 ->
  Z.testbit status 0 = false ->
  (Z.testbit status 1 || Z.testbit status 2 = true ->
   mmc_error_by_status status = MMC_CARD_ERROR)
  /\ (Z.testbit status 1 || Z.testbit status 2 = false ->
      Z.testbit status 3 = true ->
      mmc_error_by_status status = MMC_CRC_ERROR)
  /\ (Z.testbit status 1 || Z.testbit status 2 = false ->
      Z.testbit status 3 = false ->
      Z.testbit status 4 || Z.testbit status 5 = true ->
      mmc_error_by_status status = MMC_CARD_ERROR)
  /\ (Z.testbit status 1 || Z.testbit status 2 = false ->
      Z.testbit status 3 = false ->
      Z.testbit status 4 || Z.testbit status 5 = false ->
      Z.testbit status 6 = true ->
      mmc_error_by_status status = MMC_PARAM_ERROR)
  /\ (status = 0x80 -> mmc_error_by_status status = MMC_CARD_ERROR).
Proof.
  intros Hb Hidle.
  assert (Hrow : classifier_order_row status = true).
  { apply byte_forall; [vm_compute; reflexivity | exact Hb]. }
  unfold classifier_order_row in Hrow. cbv zeta in Hrow.
  rewrite Hidle in Hrow. cbn [negb andb] in Hrow.
  repeat (apply andb_prop in Hrow; destruct Hrow as [Hrow ?]).
  split; [|split; [|split; [|split]]].
  - intros E. rewrite E in *. now apply mmc_status_eqb_eq.
  - intros E1 E2. rewrite E1, E2 in *. now apply mmc_status_eqb_eq.
  - intros E1 E2 E3. rewrite E1, E2, E3 in *. now apply mmc_status_eqb_eq.
  - intros E1 E2 E3 E4. rewrite E1, E2, E3, E4 in *. now apply mmc_status_eqb_eq.
  - intros ->. reflexivity.
Qed.

(** Statuses with two flags: illegal-command with CRC error, CRC error
    with parameter error, address error with parameter error, parameter
    error alone. *)
Lemma mmc_error_by_status_precedence_witness :
  mmc_error_by_status 0x0C = MMC_CARD_ERROR
  /\ mmc_error_by_status 0x48 = MMC_CRC_ERROR
  /\ mmc_error_by_status 0x60 = MMC_CARD_ERROR
  /\ mmc_error_by_status 0x40 = MMC_PARAM_ERROR.
Proof.
  refine (conj _ (conj _ (conj _ _))).
  - refine (proj1 (mmc_error_by_status_precedence 0x0C _ _) _);
      [lia | reflexivity | reflexivity].
  - refine (proj1 (proj2 (mmc_error_by_status_precedence 0x48 _ _)) _ _);
      [lia | reflexivity | reflexivity | reflexivity].
  - refine (proj1 (proj2 (proj2 (mmc_error_by_status_precedence 0x60 _ _))) _ _ _);
      [lia | reflexivity | reflexivity | reflexivity | reflexivity].
  - refine (proj1 (proj2 (proj2 (proj2
              (mmc_error_by_status_precedence 0x40 _ _)))) _ _ _ _);
      [lia | reflexivity | reflexivity | reflexivity | reflexivity | reflexivity].
Defined.

(** X3. The address computation of [mmc_read] and [mmc_write], for a
    32-bit address and a length that does not wrap when rounded up: the
    block address and the offset split the byte address, the offset lies
    inside a block, and the mask-and-divide block count is the length
    rounded up to whole blocks, whatever the address. *)
Theorem address_split (addr len : Z) :
  0 <= addr < 2 ^ 32 ->
  0 <= len <= 2 ^ 32 - 512 ->
  block_addr_of addr * BLOCK_LEN + offset_of addr = addr
  /\ 0 <= offset_of addr < BLOCK_LEN
  /\ BLOCK_LEN * (block_count_of len - 1) < len <= BLOCK_LEN * block_count_of len.
Proof.
  intros Ha Hl. rewrite (offset_of_mod addr Ha), (block_count_of_ceil len Hl).
  unfold block_addr_of, BLOCK_LEN. change (2 ^ 32) with 4294967296 in *.
  Z.to_euclidean_division_equations. lia.
Qed.

Lemma address_split_witness :
  block_addr_of 1124 * BLOCK_LEN + offset_of 1124 = 1124
  /\ 0 <= offset_of 1124 < BLOCK_LEN
  /\ BLOCK_LEN * (block_count_of 513 - 1) < 513 <= BLOCK_LEN * block_count_of 513.
Proof.
  apply (address_split 1124 513); lia.
Defined.

(** X4. The response poll of [send_mmc_cmd] stops at the first answer
    whose top bit is clear.  For a command without the 0x80 marker that the
    card answers with [st] after [k] filler bytes (k < 255), the call
    returns [st], and the wire got the six frame bytes and exactly k + 1
    filler bytes; nothing but the bus changed. *)
Theorem send_mmc_cmd_answered
        (mmc : mmc_cfg) (cmd payload : Z) (w : world) (k : nat) (st : Z) :
  Z.land cmd 0x80 = 0 ->
  answers w (length (mosi w)) k st ->
  send_mmc_cmd mmc cmd payload w
  = Some (st, with_mosi (mosi w ++ frame cmd payload ++ repeat 0xff (S k)) w).
Proof.
  intros Hm Hans. apply send_plain_cmd_hit; [|exact Hans].
  unfold truthy. rewrite Hm. reflexivity.
Qed.

Lemma send_mmc_cmd_answered_witness :
  send_mmc_cmd (mk_cfg 0 4 0 (Some mmc_settings)) CMD17 3
               (attached (script (repeat 0xFF 8 ++ [0x05])))
  = Some (0x05,
          with_mosi (mosi (attached (script (repeat 0xFF 8 ++ [0x05])))
                       ++ frame CMD17 3 ++ repeat 0xff 3)
                    (attached (script (repeat 0xFF 8 ++ [0x05])))).
Proof.
  apply (send_mmc_cmd_answered (mk_cfg 0 4 0 (Some mmc_settings)) CMD17 3
                               (attached (script (repeat 0xFF 8 ++ [0x05]))) 2 0x05).
  - reflexivity.
  - unfold answers. split; [lia|]. split; [|split; reflexivity].
    intros i Hi. destruct i as [|[|i]]; [vm_compute; discriminate ..| lia].
Defined.

(** X5. [send_mmc_cmd] gives up after 255 polls.  When none of the 255
    bytes that follow the frame of a command without the marker has its
    top bit clear, the call sends exactly 255 filler bytes and returns the
    last byte read, whose top bit is set: the caller gets no other sign of
    the time-out. *)
Theorem send_mmc_cmd_unanswered
        (mmc : mmc_cfg) (cmd payload : Z) (w : world) :
  Z.land cmd 0x80 = 0 ->
  (forall i, (i < 255)%nat -> Z.land (rx w (length (mosi w) + 6 + i)) 0x80 <> 0) ->
  send_mmc_cmd mmc cmd payload w
  = Some (rx w (length (mosi w) + 6 + 254),
          with_mosi (mosi w ++ frame cmd payload ++ repeat 0xff 255) w)
  /\ Z.land (rx w (length (mosi w) + 6 + 254)) 0x80 <> 0.
Proof.
  intros Hm Hbusy. split; [|apply Hbusy; lia].
  unfold send_mmc_cmd. rewrite send_mmc_cmd_rec_S.
  unfold truthy. rewrite Hm. cbn [Z.eqb negb].
  unfold bind at 1. unfold ret at 1. unfold frame_body.
  repeat (rewrite (bind_run _ _ _ _ _ (tx_run _ _ _)); rewrite ?sent_sent).
  cbn [app].
  rewrite poll_response_timeout.
  - rewrite sent_sent, mosi_sent, length_app. cbn [length].
    replace (length (mosi w) + 6 + 255 - 1)%nat
      with (length (mosi w) + 6 + 254)%nat by lia.
    reflexivity.
  - lia.
  - intros i Hi. rewrite mosi_sent, length_app. cbn [length].
    unfold rx in *. cbn [miso sent with_mosi]. now apply Hbusy.
Qed.

(** No card on the bus: the line stays high. *)
Lemma send_mmc_cmd_unanswered_witness :
  send_mmc_cmd (mk_cfg 0 4 0 (Some mmc_settings)) CMD0 0 (attached (script []))
  = Some (rx (attached (script [])) (length (mosi (attached (script []))) + 6 + 254),
          with_mosi (mosi (attached (script [])) ++ frame CMD0 0 ++ repeat 0xff 255)
                    (attached (script [])))
  /\ Z.land (rx (attached (script [])) (length (mosi (attached (script []))) + 6 + 254))
            0x80 <> 0.
Proof.
  apply (send_mmc_cmd_unanswered (mk_cfg 0 4 0 (Some mmc_settings)) CMD0 0
                                 (attached (script []))).
  - reflexivity.
  - intros i Hi. unfold rx, script. cbn [miso attached with_gpio with_cfg power_up].
    rewrite nth_overflow by (cbn [length]; lia). vm_compute. discriminate.
Defined.

(** X6. When the SPI layer does not come up, [mmc_init] hands its code
    back and stops: the first non-zero result of [hal_spi_init] and
    [hal_spi_config] is returned unchanged, no byte goes out on the bus and
    the clock is not waited on; but the handle is already overwritten with
    the arguments of the call, and the chip-select pin is already set up
    high. *)
Theorem mmc_init_spi_failure
        (tps : Z) (fuel : nat) (n c p : Z) (w : world) :
  (if spi_init_rc w =? 0 then spi_config_rc w else spi_init_rc w) <> 0 ->
  mmc_init tps fuel n c p w
  = Some (HAL_ERROR (if spi_init_rc w =? 0 then spi_config_rc w else spi_init_rc w),
          with_gpio (set_pin p 1 (gpio w))
                    (with_cfg (mk_cfg n p c (Some mmc_settings)) w)).
Proof.
  intros Hrc. unfold mmc_init.
  unfold put_cfg, get_cfg, hal_gpio_init_out, hal_spi_init, hal_spi_config.
  unfold bind at 1. unfold bind at 1. unfold bind at 1. unfold bind at 1.
  cbn [g_mmc_cfg spi_init_rc spi_config_rc with_cfg with_gpio ss_pin spi_num
       spi_cfg settings].
  unfold truthy at 1.
  destruct (Z.eqb_spec (spi_init_rc w) 0) as [E|E]; cbn [negb]; [|reflexivity].
  unfold bind at 1.
  cbn [g_mmc_cfg spi_init_rc spi_config_rc with_cfg with_gpio].
  unfold truthy at 1. apply Z.eqb_neq in Hrc. rewrite Hrc. reflexivity.
Qed.

(** [hal_spi_config] fails with the code 3. *)
Lemma mmc_init_spi_failure_witness :
  mmc_init 1000 8 0 0 4
           (mk_world (mk_cfg 9 9 9 None) (repeat 0 512) (fun _ => 0) 0
                     (script []) [] 0 3)
  = Some (HAL_ERROR 3,
          with_gpio (set_pin 4 1 (fun _ => 0))
                    (with_cfg (mk_cfg 0 4 0 (Some mmc_settings))
                              (mk_world (mk_cfg 9 9 9 None) (repeat 0 512)
                                        (fun _ => 0) 0 (script []) [] 0 3))).
Proof.
  apply (mmc_init_spi_failure
           1000 8 0 0 4
           (mk_world (mk_cfg 9 9 9 None) (repeat 0 512) (fun _ => 0) 0
                     (script []) [] 0 3)).
  discriminate.
Defined.

(** X7. [mmc_init] goes on past CMD0 only when the answer is exactly the
    idle status 0x01.  When the SPI layer comes up and the card answers
    CMD0 with any other status [st], the call ends there: 75 filler bytes,
    the CMD0 frame and its poll are all that went out, the result is the
    classification of [st], and chip-select is high.  In particular a card
    that answers CMD0 with 0x00 makes [mmc_init] report success without any
    negotiation. *)
Theorem mmc_init_cmd0_not_idle
        (tps : Z) (fuel : nat) (n c p : Z) (w : world) (k0 : nat) (st : Z) :
  spi_init_rc w = 0 ->
  spi_config_rc w = 0 ->
  answers w (length (mosi w) + 75) k0 st ->
  st <> R_IDLE ->
  exists w',
    mmc_init tps fuel n c p w = Some (mmc_error_by_status st, w')
    /\ mosi w' = mosi w ++ repeat 0xff 75 ++ frame CMD0 0 ++ repeat 0xff (S k0)
    /\ ticks w' = ticks w + Z.quot tps 100
    /\ chip_select w' = 1
    /\ (st = 0 -> mmc_error_by_status st = MMC_OK).
Proof.
  intros Hi Hc Hans Hst.
  rewrite (mmc_init_prologue tps fuel n c p w Hi Hc).
  set (mmc := mk_cfg n p c (Some mmc_settings)).
  set (w0 := init_prologue_world tps n c p w).
  assert (Hans' : answers w0 (length (mosi w0)) k0 st).
  { unfold w0. rewrite init_prologue_length. exact Hans. }
  pose proof (send_plain_cmd_hit mmc CMD0 0 w0 k0 st eq_refl Hans') as Hcmd0.
  assert (Hcard : mmc_init_card tps fuel mmc w0
                  = Some (mmc_error_by_status st,
                          sent w0 (frame CMD0 0 ++ repeat 255 (S k0)))).
  { unfold mmc_init_card. rewrite (bind_run _ _ _ _ _ Hcmd0).
    apply Z.eqb_neq in Hst. rewrite Hst. reflexivity. }
  rewrite (bind_run _ _ _ _ _ Hcard). rewrite init_out_run.
  eexists. split; [reflexivity|].
  cbn [mosi ticks with_gpio sent with_mosi]. unfold w0.
  rewrite init_prologue_mosi.
  split; [rewrite <- !app_assoc; reflexivity|].
  split; [reflexivity|].
  split; [unfold chip_select; cbn [gpio g_mmc_cfg with_gpio sent with_mosi];
          apply set_pin_same|].
  intros ->. reflexivity.
Qed.

(** A card that answers CMD0 with 0x00 at the second poll. *)
Lemma mmc_init_cmd0_not_idle_witness :
  exists w',
    mmc_init 1000 8 0 0 4 (power_up (script (repeat 0xFF 82 ++ [0x00])))
    = Some (mmc_error_by_status 0x00, w')
    /\ mosi w' = mosi (power_up (script (repeat 0xFF 82 ++ [0x00])))
                   ++ repeat 0xff 75 ++ frame CMD0 0 ++ repeat 0xff 2
    /\ ticks w' = ticks (power_up (script (repeat 0xFF 82 ++ [0x00])))
                  + Z.quot 1000 100
    /\ chip_select w' = 1
    /\ (0x00 = 0 -> mmc_error_by_status 0x00 = MMC_OK).
Proof.
  apply (mmc_init_cmd0_not_idle 1000 8 0 0 4
                                (power_up (script (repeat 0xFF 82 ++ [0x00]))) 1 0x00).
  - reflexivity.
  - reflexivity.
  - unfold answers. split; [lia|]. split; [|split; reflexivity].
    intros i Hi. assert (i = 0)%nat as -> by lia. vm_compute. discriminate.
  - discriminate.
Defined.

(** X8. No card: when the SPI layer comes up and the line reads 0xFF for
    the 255 polls after the CMD0 frame, [mmc_init] returns [MMC_TIMEOUT],
    having sent 75 filler bytes, the CMD0 frame and 255 more filler bytes
    and nothing else, with chip-select high. *)
Theorem mmc_init_no_card
        (tps : Z) (fuel : nat) (n c p : Z) (w : world) :
  spi_init_rc w = 0 ->
  spi_config_rc w = 0 ->
  (forall i, (i < 255)%nat -> rx w (length (mosi w) + 75 + 6 + i) = 0xFF) ->
  exists w',
    mmc_init tps fuel n c p w = Some (MMC_TIMEOUT, w')
    /\ mosi w' = mosi w ++ repeat 0xff 75 ++ frame CMD0 0 ++ repeat 0xff 255
    /\ chip_select w' = 1.
Proof.
  intros Hi Hc Hff.
  rewrite (mmc_init_prologue tps fuel n c p w Hi Hc).
  set (mmc := mk_cfg n p c (Some mmc_settings)).
  set (w0 := init_prologue_world tps n c p w).
  destruct (send_mmc_cmd_unanswered mmc CMD0 0 w0 eq_refl) as [Hcmd0 _].
  { intros i Hi'. unfold w0. rewrite init_prologue_length.
    change (rx (init_prologue_world tps n c p w)) with (rx w).
    rewrite (Hff i Hi'). discriminate. }
  assert (Hlen0 : length (mosi w0) = (length (mosi w) + 75)%nat)
    by apply init_prologue_length.
  rewrite Hlen0 in Hcmd0. change (rx w0) with (rx w) in Hcmd0.
  rewrite (Hff 254%nat ltac:(lia)) in Hcmd0.
  assert (Hcard : mmc_init_card tps fuel mmc w0
                  = Some (MMC_TIMEOUT,
                          with_mosi (mosi w0 ++ frame CMD0 0 ++ repeat 255 255) w0)).
  { unfold mmc_init_card. rewrite (bind_run _ _ _ _ _ Hcmd0). reflexivity. }
  rewrite (bind_run _ _ _ _ _ Hcard). rewrite init_out_run.
  eexists. split; [reflexivity|].
  cbn [mosi with_gpio with_mosi]. unfold w0. rewrite init_prologue_mosi.
  split; [rewrite <- !app_assoc; reflexivity|].
  unfold chip_select. cbn [gpio g_mmc_cfg with_gpio with_mosi]. apply set_pin_same.
Qed.

Lemma mmc_init_no_card_witness :
  exists w',
    mmc_init 1000 8 0 0 4 (power_up (script [])) = Some (MMC_TIMEOUT, w')
    /\ mosi w' = mosi (power_up (script []))
                   ++ repeat 0xff 75 ++ frame CMD0 0 ++ repeat 0xff 255
    /\ chip_select w' = 1.
Proof.
  apply (mmc_init_no_card 1000 8 0 0 4 (power_up (script []))).
  - reflexivity.
  - reflexivity.
  - intros i Hi. unfold rx, script. cbn [miso power_up].
    rewrite nth_overflow by (cbn [length]; lia). reflexivity.
Defined.

(** X9. The legacy path of [mmc_init].  When the card answers CMD0 with
    the idle status and CMD8 with the illegal-command flag set (a Ver1.x
    card), the call still reads four bytes after CMD8, then sends CMD58 and
    returns success whatever CMD58 answers: no operating-condition command
    goes out, the OCR payload is not read, and the only wait is the 10ms
    at the start. *)
Theorem mmc_init_legacy_card
        (tps : Z) (fuel : nat) (n c p : Z) (w : world) (k0 k8 : nat) (st8 : Z) :
  spi_init_rc w = 0 ->
  spi_config_rc w = 0 ->
  answers w (length (mosi w) + 75) k0 R_IDLE ->
  answers w (length (mosi w) + 75 + 6 + S k0) k8 st8 ->
  Z.land st8 R_ILLEGAL_COMMAND <> 0 ->
  exists (k58 : nat) (w' : world),
    mmc_init tps fuel n c p w = Some (MMC_OK, w')
    /\ (1 <= k58 <= 255)%nat
    /\ mosi w' = mosi w ++ repeat 0xff 75 ++ frame CMD0 0 ++ repeat 0xff (S k0)
                   ++ frame CMD8 0x1AA ++ repeat 0xff (S k8) ++ repeat 0xff 4
                   ++ frame CMD58 0 ++ repeat 0xff k58
    /\ ticks w' = ticks w + Z.quot tps 100
    /\ chip_select w' = 1.
Proof.
  intros Hi Hc Hans0 Hans8 Hill.
  rewrite (mmc_init_prologue tps fuel n c p w Hi Hc).
  destruct (init_negotiation_runs tps n c p w k0 k8 st8 Hans0 Hans8)
    as (w1 & w2 & Hcmd0 & Hcmd8 & Hresp).
  set (mmc := mk_cfg n p c (Some mmc_settings)) in *.
  set (w3 := init_negotiated_world tps n c p w k0 k8) in *.
  destruct (send_plain_cmd_run 1 mmc CMD58 0 w3 eq_refl) as (k58 & Hk58 & Hrun58).
  fold (send_mmc_cmd mmc CMD58 0) in Hrun58.
  assert (Hcard : mmc_init_card tps fuel mmc (init_prologue_world tps n c p w)
                  = Some (MMC_OK, sent w3 (frame CMD58 0 ++ repeat 255 k58))).
  { unfold mmc_init_card.
    rewrite (bind_run _ _ _ _ _ Hcmd0).
    change (negb (R_IDLE =? R_IDLE)) with false. cbv iota.
    rewrite (bind_run _ _ _ _ _ Hcmd8).
    rewrite (bind_run _ _ _ _ _ Hresp).
    apply Z.eqb_neq in Hill. unfold truthy at 1. rewrite Hill. cbn [negb].
    rewrite (bind_run _ _ _ _ _ Hrun58).
    match goal with |- context [if ?b then ret tt else ret tt] =>
      destruct b end; reflexivity. }
  rewrite (bind_run _ _ _ _ _ Hcard). rewrite init_out_run.
  exists k58. eexists. split; [reflexivity|]. split; [exact Hk58|].
  cbn [mosi ticks with_gpio sent with_mosi]. unfold w3.
  rewrite init_negotiated_mosi.
  split; [rewrite <- !app_assoc; reflexivity|].
  split; [reflexivity|].
  unfold chip_select. cbn [gpio g_mmc_cfg with_gpio sent with_mosi].
  apply set_pin_same.
Qed.

(** A Ver1.x card: idle after CMD0, illegal command (0x05) after CMD8. *)
Lemma mmc_init_legacy_card_witness :
  exists (k58 : nat) (w' : world),
    mmc_init 1000 8 0 0 4 (power_up (script (repeat 0xFF 81 ++ [0x01]
                                               ++ repeat 0xFF 6 ++ [0x05])))
    = Some (MMC_OK, w')
    /\ (1 <= k58 <= 255)%nat
    /\ mosi w' = mosi (power_up (script (repeat 0xFF 81 ++ [0x01]
                                           ++ repeat 0xFF 6 ++ [0x05])))
                   ++ repeat 0xff 75 ++ frame CMD0 0 ++ repeat 0xff 1
                   ++ frame CMD8 0x1AA ++ repeat 0xff 1 ++ repeat 0xff 4
                   ++ frame CMD58 0 ++ repeat 0xff k58
    /\ ticks w' = ticks (power_up (script (repeat 0xFF 81 ++ [0x01]
                                             ++ repeat 0xFF 6 ++ [0x05])))
                  + Z.quot 1000 100
    /\ chip_select w' = 1.
Proof.
  apply (mmc_init_legacy_card
           1000 8 0 0 4
           (power_up (script (repeat 0xFF 81 ++ [0x01] ++ repeat 0xFF 6 ++ [0x05])))
           0 0 0x05).
  - reflexivity.
  - reflexivity.
  - unfold answers. split; [lia|]. split; [intros i Hi; lia|]. split; reflexivity.
  - unfold answers. split; [lia|]. split; [intros i Hi; lia|]. split; reflexivity.
  - discriminate.
Defined.

(** X10. The echo check of CMD8 on a Ver2.00 card.  When the card answers
    CMD0 with the idle status and CMD8 without the illegal-command flag,
    but the fourth payload byte is not the check pattern 0xAA, or it is and
    the third is not the voltage byte 0x01, [mmc_init] stops right after
    the four payload bytes with [MMC_RESPONSE_ERROR] in the first case and
    [MMC_VOLTAGE_ERROR] in the second (the pattern is looked at first), and
    chip-select is high. *)
Theorem mmc_init_echo_mismatch
        (tps : Z) (fuel : nat) (n c p : Z) (w : world) (k0 k8 : nat) (st8 : Z) :
  spi_init_rc w = 0 ->
  spi_config_rc w = 0 ->
  answers w (length (mosi w) + 75) k0 R_IDLE ->
  answers w (length (mosi w) + 75 + 6 + S k0) k8 st8 ->
  Z.land st8 R_ILLEGAL_COMMAND = 0 ->
  rx w (length (mosi w) + 75 + 6 + S k0 + 6 + S k8 + 3) <> 0xAA
  \/ rx w (length (mosi w) + 75 + 6 + S k0 + 6 + S k8 + 2) <> 0x01 ->
  exists w',
    mmc_init tps fuel n c p w
    = Some (if rx w (length (mosi w) + 75 + 6 + S k0 + 6 + S k8 + 3) =? 0xAA
            then MMC_VOLTAGE_ERROR else MMC_RESPONSE_ERROR, w')
    /\ mosi w' = mosi w ++ repeat 0xff 75 ++ frame CMD0 0 ++ repeat 0xff (S k0)
                   ++ frame CMD8 0x1AA ++ repeat 0xff (S k8) ++ repeat 0xff 4
    /\ chip_select w' = 1.
Proof.
  intros Hi Hc Hans0 Hans8 Hleg Hbad.
  rewrite (mmc_init_prologue tps fuel n c p w Hi Hc).
  destruct (init_negotiation_runs tps n c p w k0 k8 st8 Hans0 Hans8)
    as (w1 & w2 & Hcmd0 & Hcmd8 & Hresp).
  set (mmc := mk_cfg n p c (Some mmc_settings)) in *.
  set (w3 := init_negotiated_world tps n c p w k0 k8) in *.
  set (r2 := rx w (length (mosi w) + 75 + 6 + S k0 + 6 + S k8 + 2)) in *.
  set (r3 := rx w (length (mosi w) + 75 + 6 + S k0 + 6 + S k8 + 3)) in *.
  assert (Hcard : mmc_init_card tps fuel mmc (init_prologue_world tps n c p w)
                  = Some (if r3 =? 0xAA then MMC_VOLTAGE_ERROR
                          else MMC_RESPONSE_ERROR, w3)).
  { unfold mmc_init_card.
    rewrite (bind_run _ _ _ _ _ Hcmd0).
    change (negb (R_IDLE =? R_IDLE)) with false. cbv iota.
    rewrite (bind_run _ _ _ _ _ Hcmd8).
    rewrite (bind_run _ _ _ _ _ Hresp).
    unfold truthy at 1. rewrite Hleg. cbn [Z.eqb negb nth].
    destruct (Z.eqb_spec r3 170) as [E3|E3]; cbn [negb]; [|reflexivity].
    destruct Hbad as [Hbad|Hbad]; [contradiction|].
    apply Z.eqb_neq in Hbad. rewrite Hbad. reflexivity. }
  rewrite (bind_run _ _ _ _ _ Hcard). rewrite init_out_run.
  eexists. split; [reflexivity|].
  cbn [mosi with_gpio]. unfold w3. rewrite init_negotiated_mosi.
  split; [reflexivity|].
  unfold chip_select. cbn [gpio g_mmc_cfg with_gpio]. apply set_pin_same.
Qed.

(** A card that echoes the pattern but answers the voltage byte 0x00. *)
Lemma mmc_init_echo_mismatch_witness :
  exists w',
    mmc_init 1000 8 0 0 4
             (power_up (script (repeat 0xFF 81 ++ [0x01] ++ repeat 0xFF 6
                                  ++ [0x01; 0x00; 0x00; 0x00; 0xAA])))
    = Some (if rx (power_up (script (repeat 0xFF 81 ++ [0x01] ++ repeat 0xFF 6
                                       ++ [0x01; 0x00; 0x00; 0x00; 0xAA])))
                  (length (mosi (power_up (script (repeat 0xFF 81 ++ [0x01]
                                                     ++ repeat 0xFF 6
                                                     ++ [0x01; 0x00; 0x00; 0x00; 0xAA]))))
                   + 75 + 6 + 1 + 6 + 1 + 3) =? 0xAA
            then MMC_VOLTAGE_ERROR else MMC_RESPONSE_ERROR, w')
    /\ mosi w' = mosi (power_up (script (repeat 0xFF 81 ++ [0x01] ++ repeat 0xFF 6
                                           ++ [0x01; 0x00; 0x00; 0x00; 0xAA])))
                   ++ repeat 0xff 75 ++ frame CMD0 0 ++ repeat 0xff 1
                   ++ frame CMD8 0x1AA ++ repeat 0xff 1 ++ repeat 0xff 4
    /\ chip_select w' = 1.
Proof.
  apply (mmc_init_echo_mismatch
           1000 8 0 0 4
           (power_up (script (repeat 0xFF 81 ++ [0x01] ++ repeat 0xFF 6
                                ++ [0x01; 0x00; 0x00; 0x00; 0xAA])))
           0 0 0x01).
  - reflexivity.
  - reflexivity.
  - unfold answers. split; [lia|]. split; [intros i Hi; lia|]. split; reflexivity.
  - unfold answers. split; [lia|]. split; [intros i Hi; lia|]. split; reflexivity.
  - reflexivity.
  - right. vm_compute. discriminate.
Defined.







(** X14. What a successful [mmc_read] delivers, for any address and
    length.  On a card that accepts the read command and sends the start
    token in time, the tick counter not wrapping within the 200ms of the
    wait, the call clocks ceiling(len / 512) blocks of 512 data
    and 2 CRC exchanges after the one start token, sends CMD12 unless that
    count is 1, and returns success.  Byte [i] of the caller's buffer, for
    [i] below the smaller of [len] and 512 * count - offset, is the byte
    received for position [offset + i] of the span (the CRC bytes are
    skipped); the buffer is untouched from there on.  So the whole length
    is delivered when the span fits in ceiling(len / 512) blocks, and
    otherwise the call still returns success with only
    512 * count - offset bytes delivered. *)
Theorem mmc_read_delivers
        (tps : Z) (fuel : nat) (addr len : Z) (buf : list Z) (w : world)
        (k j : nat) :
  0 <= tps ->
  no_wrap w (Z.quot tps 5) ->
  0 <= addr < 2 ^ 32 ->
  0 <= len <= 2 ^ 32 - 512 ->
  (Z.to_nat len <= length buf)%nat ->
  length (g_block_buf w) = 512%nat ->
  (j < fuel)%nat ->
  answers w (length (mosi w)) k 0 ->
  token_after tps w (length (mosi w) + 6 + S k) j ->
  let off := Z.to_nat (addr mod 512) in
  let count := Z.to_nat ((len + 511) / 512) in
  let n := Nat.min (Z.to_nat len) (512 * count - off) in
  let d := (length (mosi w) + 6 + S k + S j)%nat in
  exists (k12 : nat) (w' : world),
    mmc_read tps fuel 0 addr buf len w
    = Some ((MMC_OK,
             map (fun i => rx w (stream_pos d off i)) (seq 0 n) ++ skipn n buf),
            w')
    /\ (1 <= k12 <= 255)%nat
    /\ mosi w'
       = mosi w ++ frame (if (count =? 1)%nat then CMD17 else CMD18) (addr / 512)
           ++ repeat 0xff (S k) ++ repeat 0xff (S j)
           ++ repeat 0xff (514 * count)
           ++ (if (count =? 1)%nat then [] else frame CMD12 0 ++ repeat 0xff k12)
    /\ chip_select w' = 1
    /\ (len + addr mod 512 <= 512 * ((len + 511) / 512) -> n = Z.to_nat len).
Proof.
  intros Htps Hw Ha Hl Hb Hg Hf Hans Htok off count n d.
  assert (Hoffr : 0 <= addr mod 512 < 512) by (apply Z.mod_pos_bound; lia).
  assert (Hcnt : 0 <= (len + 511) / 512) by (apply Z.div_pos; lia).
  unfold mmc_read.
  rewrite (bind_run _ _ _ _ _ (cfg_dev_0 w)). cbv zeta.
  rewrite (bind_run _ _ _ _ _ (gpio_write_eq _ _ w)).
  rewrite (block_count_of_ceil len Hl), (offset_of_mod addr Ha).
  change (block_addr_of addr) with (addr / 512).
  set (mmc := g_mmc_cfg w).
  set (w0 := with_gpio (set_pin (ss_pin mmc) 0 (gpio w)) w).
  assert (Hc1 : ((len + 511) / 512 =? 1) = (count =? 1)%nat).
  { unfold count. destruct (Z.eqb_spec ((len + 511) / 512) 1) as [E|E];
      destruct (Nat.eqb_spec (Z.to_nat ((len + 511) / 512)) 1) as [E'|E'];
      try reflexivity; lia. }
  rewrite Hc1.
  set (cmd := if (count =? 1)%nat then CMD17 else CMD18).
  assert (Hplain : truthy (Z.land cmd 0x80) = false)
    by (unfold cmd; destruct (count =? 1)%nat; reflexivity).
  assert (Hans0 : answers w0 (length (mosi w0)) k 0) by exact Hans.
  rewrite (bind_run _ _ _ _ _
             (send_plain_cmd_hit mmc cmd (addr / 512) w0 k 0 Hplain Hans0)).
  change (negb (0 =? 0)) with false. cbv iota.
  set (w1 := sent w0 (frame cmd (addr / 512) ++ repeat 255 (S k))).
  assert (Hlen1 : length (mosi w1) = (length (mosi w) + 6 + S k)%nat).
  { unfold w1, w0. rewrite mosi_sent, !length_app, repeat_length.
    cbn [mosi with_gpio length frame]. lia. }
  assert (Htok1 : token_after tps w1 (length (mosi w1)) j)
    by (rewrite Hlen1; exact Htok).
  assert (Hw1 : no_wrap w1 (Z.quot tps 5)) by exact Hw.
  rewrite (bind_run _ _ _ _ _
             (wait_start_token_hit tps fuel mmc w1 j Htps Hw1 Hf Htok1)).
  change (254 =? 254) with true. cbv iota.
  set (w2 := with_ticks _ (sent w1 (repeat 255 (S j)))).
  assert (Hlen2 : length (mosi w2) = d).
  { unfold w2, d. cbn [mosi with_ticks]. rewrite mosi_sent, length_app, repeat_length.
    rewrite Hlen1. reflexivity. }
  assert (Hg2 : length (g_block_buf w2) = 512%nat) by exact Hg.
  destruct (read_blocks_delivers mmc count buf off (Z.to_nat len) 0 w2 Hg2)
    as (w3 & Hrun & Hmosi & Hcfg & Hgpio & Hmiso & Hticks).
  { unfold off. lia. }
  { lia. }
  { change (2 ^ 32) with 4294967296 in *. lia. }
  unfold off in Hrun at 1. rewrite !Z2Nat.id in Hrun by lia.
  change (Z.of_nat 0) with 0 in Hrun. fold count in Hrun.
  rewrite (bind_run _ _ _ _ _ Hrun).
  rewrite Hlen2. change (rx w2) with (rx w). cbn [firstn app Nat.add].
  fold n.
  assert (Htail : exists (k12 : nat) (w4 : world),
             (if cmd =? CMD18 then (_ <- send_mmc_cmd mmc CMD12 0 ;; ret tt)
              else ret tt) w3 = Some (tt, w4)
             /\ (1 <= k12 <= 255)%nat
             /\ w4 = sent w3 (if (count =? 1)%nat then []
                              else frame CMD12 0 ++ repeat 255 k12)).
  { unfold cmd. destruct (count =? 1)%nat.
    - exists 1%nat, w3. change (CMD17 =? CMD18) with false. cbv iota.
      split; [reflexivity|]. split; [lia|]. now rewrite sent_nil.
    - change (CMD18 =? CMD18) with true. cbv iota.
      destruct (send_plain_cmd_run 1 mmc CMD12 0 w3 eq_refl) as (k12 & Hk12 & Hrun12).
      fold (send_mmc_cmd mmc CMD12 0) in Hrun12.
      exists k12. eexists. split; [rewrite (bind_run _ _ _ _ _ Hrun12); reflexivity|].
      split; [exact Hk12 | reflexivity]. }
  destruct Htail as (k12 & w4 & Hstop & Hk12 & Hw4).
  rewrite (bind_run _ _ _ _ _ Hstop).
  rewrite (bind_run _ _ _ _ _ (gpio_write_eq _ _ w4)).
  exists k12. eexists. split; [reflexivity|]. split; [exact Hk12|].
  split; [|split].
  - cbn [mosi with_gpio]. rewrite Hw4, mosi_sent, Hmosi.
    unfold w2, w1, w0. cbn [mosi with_gpio with_ticks sent with_mosi].
    rewrite <- !app_assoc. reflexivity.
  - unfold chip_select. cbn [gpio g_mmc_cfg with_gpio]. rewrite Hw4.
    cbn [g_mmc_cfg sent with_mosi]. rewrite Hcfg. apply set_pin_same.
  - intros Hfit. unfold n, count, off. lia.
Qed.

(** A read of 1024 bytes at address 512 on the card of the two-block
    read: everything is delivered. *)
Lemma mmc_read_delivers_witness :
  let w := attached card_read_two in
  let off := Z.to_nat (512 mod 512) in
  let count := Z.to_nat ((1024 + 511) / 512) in
  let n := Nat.min (Z.to_nat 1024) (512 * count - off) in
  let d := (length (mosi w) + 6 + 1 + 2)%nat in
  exists (k12 : nat) (w' : world),
    mmc_read 1000 8 0 512 (repeat 0 1024) 1024 w
    = Some ((MMC_OK,
             map (fun i => rx w (stream_pos d off i)) (seq 0 n)
               ++ skipn n (repeat 0 1024)),
            w')
    /\ (1 <= k12 <= 255)%nat
    /\ mosi w'
       = mosi w ++ frame (if (count =? 1)%nat then CMD17 else CMD18) (512 / 512)
           ++ repeat 0xff 1 ++ repeat 0xff 2
           ++ repeat 0xff (514 * count)
           ++ (if (count =? 1)%nat then [] else frame CMD12 0 ++ repeat 0xff k12)
    /\ chip_select w' = 1
    /\ (1024 + 512 mod 512 <= 512 * ((1024 + 511) / 512) -> n = Z.to_nat 1024).
Proof.
  apply (mmc_read_delivers 1000 8 512 1024 (repeat 0 1024)
                           (attached card_read_two) 0 1).
  - lia.
  - vm_compute. reflexivity.
  - lia.
  - lia.
  - rewrite repeat_length. lia.
  - reflexivity.
  - lia.
  - unfold answers. split; [lia|]. split; [intros i Hi; lia|].
    split; reflexivity.
  - unfold token_after. split; [|reflexivity].
    intros i Hi. assert (i = 0)%nat as -> by lia.
    split; [reflexivity|]. vm_compute. reflexivity.
Defined.

(** X15. A read command that the card refuses.  When the card answers the
    read command of [mmc_read] with any non-zero status, the call returns
    [MMC_CARD_ERROR] whatever the status says (it is not classified), with
    only the command frame and its poll on the wire, the command argument
    being the block index [addr / 512]; the caller's buffer and the scratch
    buffer are as they were, no time was slept and chip-select is high. *)
Theorem mmc_read_command_refused
        (tps : Z) (fuel : nat) (addr len : Z) (buf : list Z) (w : world)
        (k : nat) (st : Z) :
  answers w (length (mosi w)) k st ->
  st <> 0 ->
  exists w',
    mmc_read tps fuel 0 addr buf len w = Some ((MMC_CARD_ERROR, buf), w')
    /\ mosi w' = mosi w
                   ++ frame (if block_count_of len =? 1 then CMD17 else CMD18)
                            (addr / 512)
                   ++ repeat 0xff (S k)
    /\ g_block_buf w' = g_block_buf w
    /\ ticks w' = ticks w
    /\ chip_select w' = 1.
Proof.
  intros Hans Hst. unfold mmc_read.
  rewrite (bind_run _ _ _ _ _ (cfg_dev_0 w)). cbv zeta.
  rewrite (bind_run _ _ _ _ _ (gpio_write_eq _ _ w)).
  set (mmc := g_mmc_cfg w).
  set (w0 := with_gpio (set_pin (ss_pin mmc) 0 (gpio w)) w).
  set (cmd := if block_count_of len =? 1 then CMD17 else CMD18).
  assert (Hplain : truthy (Z.land cmd 0x80) = false)
    by (unfold cmd; destruct (_ =? 1); reflexivity).
  assert (Hans0 : answers w0 (length (mosi w0)) k st) by exact Hans.
  rewrite (bind_run _ _ _ _ _
             (send_plain_cmd_hit mmc cmd (block_addr_of addr) w0 k st Hplain Hans0)).
  apply Z.eqb_neq in Hst. rewrite Hst. cbn [negb].
  rewrite (bind_run _ _ _ _ _ (gpio_write_eq _ _ _)).
  eexists. split; [reflexivity|].
  cbn [mosi g_block_buf ticks with_gpio sent with_mosi].
  split; [reflexivity|]. split; [reflexivity|]. split; [reflexivity|].
  unfold chip_select. cbn [gpio g_mmc_cfg with_gpio sent with_mosi].
  apply set_pin_same.
Qed.

(** The card answers the command with the CRC-error status 0x08. *)
Lemma mmc_read_command_refused_witness :
  exists w',
    mmc_read 1000 8 0 2048 [7; 8; 9] 3 (attached (script (repeat 0xFF 6 ++ [0x08])))
    = Some ((MMC_CARD_ERROR, [7; 8; 9]), w')
    /\ mosi w' = mosi (attached (script (repeat 0xFF 6 ++ [0x08])))
                   ++ frame (if block_count_of 3 =? 1 then CMD17 else CMD18)
                            (2048 / 512)
                   ++ repeat 0xff 1
    /\ g_block_buf w' = g_block_buf (attached (script (repeat 0xFF 6 ++ [0x08])))
    /\ ticks w' = ticks (attached (script (repeat 0xFF 6 ++ [0x08])))
    /\ chip_select w' = 1.
Proof.
  apply (mmc_read_command_refused
           1000 8 2048 3 [7; 8; 9] (attached (script (repeat 0xFF 6 ++ [0x08]))) 0 0x08).
  - unfold answers. split; [lia|]. split; [intros i Hi; lia|]. split; reflexivity.
  - discriminate.
Defined.

(** X16. A start token that never comes.  When the card accepts the read
    command and the line then stays at 0xFF, [mmc_read] polls until the
    clock reaches the deadline taken at the start of the wait, 200ms
    later, and returns [MMC_CARD_ERROR] (not a time-out code), the
    caller's buffer as it was and chip-select high.  The tick rate must be
    at least 20 per second, the fuel cover the deadline, and the tick
    counter not wrap before the deadline and one sleep are over. *)
Theorem mmc_read_no_start_token
        (tps : Z) (fuel : nat) (addr len : Z) (buf : list Z) (w : world) (k : nat) :
  20 <= tps ->
  Z.quot tps 5 < Z.of_nat fuel ->
  no_wrap w (Z.quot tps 5 + Z.quot tps 20) ->
  answers w (length (mosi w)) k 0 ->
  (forall m, (length (mosi w) + 6 + S k <= m)%nat -> rx w m = 0xFF) ->
  exists w',
    mmc_read tps fuel 0 addr buf len w = Some ((MMC_CARD_ERROR, buf), w')
    /\ ticks w + Z.quot tps 5 <= ticks w' <= ticks w + Z.quot tps 5 + Z.quot tps 20
    /\ chip_select w' = 1.
Proof.
  intros Htps Hf Hw Hans Hff.
  unfold mmc_read.
  rewrite (bind_run _ _ _ _ _ (cfg_dev_0 w)). cbv zeta.
  rewrite (bind_run _ _ _ _ _ (gpio_write_eq _ _ w)).
  set (mmc := g_mmc_cfg w).
  set (w0 := with_gpio (set_pin (ss_pin mmc) 0 (gpio w)) w).
  set (cmd := if block_count_of len =? 1 then CMD17 else CMD18).
  assert (Hplain : truthy (Z.land cmd 0x80) = false)
    by (unfold cmd; destruct (_ =? 1); reflexivity).
  assert (Hans0 : answers w0 (length (mosi w0)) k 0) by exact Hans.
  rewrite (bind_run _ _ _ _ _
             (send_plain_cmd_hit mmc cmd (block_addr_of addr) w0 k 0 Hplain Hans0)).
  change (negb (0 =? 0)) with false. cbv iota.
  set (w1 := sent w0 (frame cmd (block_addr_of addr) ++ repeat 255 (S k))).
  assert (Hlen1 : length (mosi w1) = (length (mosi w) + 6 + S k)%nat).
  { unfold w1, w0. rewrite mosi_sent, !length_app, repeat_length.
    cbn [mosi with_gpio length frame]. lia. }
  assert (Hff1 : forall m, (length (mosi w1) <= m)%nat -> rx w1 m = 0xFF).
  { intros m Hm. rewrite Hlen1 in Hm. exact (Hff m Hm). }
  assert (Hw1 : no_wrap w1 (Z.quot tps 5 + Z.quot tps 20)) by exact Hw.
  destruct (wait_start_token_never tps fuel mmc w1 Htps Hf Hw1 Hff1)
    as (j & t & Hwait & Hj & Ht).
  rewrite (bind_run _ _ _ _ _ Hwait).
  change (255 =? 254) with false. cbv iota.
  rewrite (bind_run _ _ _ _ _ (gpio_write_eq _ _ _)).
  eexists. split; [reflexivity|].
  cbn [ticks with_gpio with_ticks]. change (ticks w1) with (ticks w) in Ht.
  split; [lia|].
  unfold chip_select. unfold w1, w0.
  cbn [gpio g_mmc_cfg with_gpio with_ticks sent with_mosi].
  apply set_pin_same.
Qed.

(** The card accepts the command and then holds the line high. *)
Lemma mmc_read_no_start_token_witness :
  exists w',
    mmc_read 100 21 0 0 (repeat 0 512) 512
             (attached (script (repeat 0xFF 6 ++ [0x00])))
    = Some ((MMC_CARD_ERROR, repeat 0 512), w')
    /\ ticks (attached (script (repeat 0xFF 6 ++ [0x00]))) + Z.quot 100 5 <= ticks w'
       <= ticks (attached (script (repeat 0xFF 6 ++ [0x00])))
          + Z.quot 100 5 + Z.quot 100 20
    /\ chip_select w' = 1.
Proof.
  apply (mmc_read_no_start_token 100 21 0 512 (repeat 0 512)
                                 (attached (script (repeat 0xFF 6 ++ [0x00]))) 0).
  - lia.
  - vm_compute. reflexivity.
  - vm_compute. reflexivity.
  - unfold answers. split; [lia|]. split; [intros i Hi; lia|]. split; reflexivity.
  - intros m Hm. unfold rx, script. cbn [miso mosi attached with_gpio with_cfg
                                            power_up length] in *.
    rewrite nth_overflow; [reflexivity|].
    rewrite length_app, repeat_length. cbn [length]. lia.
Defined.

(** X17. A short write at a block boundary sends scratch bytes after the
    data.  For a block-aligned address and 1 <= len <= 512, on a card that
    accepts the command, [mmc_write] sends the single-block command CMD24,
    does no read-ahead, and sends one block that holds the [len] bytes of
    the caller followed by bytes [len] to 511 of [g_block_buf] as it stood
    before the call; the result is the classification of the token that
    answers this block.  The busy poll at the end is timed: the tick rate
    is at least 100 per second, and the tick counter does not wrap within
    the five seconds of its deadline and one sleep. *)
Theorem mmc_write_aligned_short
        (tps : Z) (fuel : nat) (addr len : Z) (buf : list Z) (w : world) (k : nat) :
  100 <= tps ->
  5 * tps < Z.of_nat fuel ->
  no_wrap w (5 * tps + Z.quot tps 100) ->
  0 <= addr < 2 ^ 32 ->
  addr mod 512 = 0 ->
  1 <= len <= 512 ->
  (Z.to_nat len <= length buf)%nat ->
  length (g_block_buf w) = 512%nat ->
  answers w (length (mosi w)) k 0 ->
  exists (j : nat) (w' : world),
    mmc_write tps fuel 0 addr buf len w
    = Some (data_response_class
              (Z.land (rx w (length (mosi w) + 6 + S k + 516)) 0x1f), w')
    /\ (1 <= j)%nat
    /\ mosi w'
       = mosi w ++ frame CMD24 (addr / 512) ++ repeat 0xff (S k)
           ++ [0xff] ++ [0xFE]
           ++ (firstn (Z.to_nat len) buf ++ skipn (Z.to_nat len) (g_block_buf w))
           ++ [0xff; 0xff] ++ [0xff]
           ++ repeat 0xff j
    /\ g_block_buf w'
       = firstn (Z.to_nat len) buf ++ skipn (Z.to_nat len) (g_block_buf w)
    /\ chip_select w' = 1.
Proof.
  intros Htps Hfuel Hw Haddr Hal Hlen Hb Hg Hans.
  unfold mmc_write.
  rewrite (bind_run _ _ _ _ _ (cfg_dev_0 w)). cbv zeta.
  rewrite (bind_run _ _ _ _ _ (gpio_write_eq _ _ w)).
  rewrite (offset_of_mod addr Haddr), Hal.
  change (truthy 0) with false. cbv iota.
  rewrite (bind_run _ _ _ _ _ (ret_eq _ _)).
  unfold write_transfer.
  rewrite (block_count_of_one len Hlen). change (1 =? 1) with true. cbv iota.
  set (mmc := g_mmc_cfg w).
  set (w0 := with_gpio (set_pin (ss_pin mmc) 0 (gpio w)) w).
  assert (Hans0 : answers w0 (length (mosi w0)) k 0) by exact Hans.
  rewrite (bind_run _ _ _ _ _
             (send_plain_cmd_hit mmc CMD24 (block_addr_of addr) w0 k 0
                                 eq_refl Hans0)).
  change (negb (0 =? 0)) with false. cbv iota.
  rewrite (bind_run _ _ _ _ _ (tx_run _ _ _)). rewrite sent_sent.
  destruct fuel as [|fuel']; [lia|].
  set (w1 := sent w0 ((frame CMD24 (block_addr_of addr) ++ repeat 255 (S k)) ++ [255])).
  assert (Hg1 : length (g_block_buf w1) = 512%nat) by exact Hg.
  pose proof (write_blocks_last fuel' mmc CMD24 buf 0 (Z.to_nat len) 0 w1 Hg1
                                ltac:(lia) ltac:(lia) ltac:(lia)) as Hloop.
  rewrite Z2Nat.id in Hloop by lia. change (Z.of_nat 0) with 0 in Hloop.
  rewrite (bind_run _ _ _ _ _ Hloop). cbv zeta.
  set (block := memcpy (g_block_buf w1) 0 buf 0 (Z.to_nat len)) in *.
  assert (Hblock : block = firstn (Z.to_nat len) buf
                             ++ skipn (Z.to_nat len) (g_block_buf w)).
  { unfold block, memcpy. reflexivity. }
  set (w2 := with_block_buf block _).
  assert (Hw2 : no_wrap w2 (5 * tps + Z.quot tps 100)) by exact Hw.
  destruct (write_tail_run tps (S fuel') mmc
                           (write_status (rx w1 (length (mosi w1) + 515))) w2
                           Htps Hfuel Hw2) as (j & t & Htail & Hj).
  rewrite Htail.
  exists j. eexists. split.
  - rewrite write_status_class. do 4 f_equal.
    unfold w1, w0. rewrite mosi_sent, !length_app, repeat_length.
    cbn [mosi with_gpio length frame]. unfold rx. cbn [miso sent with_mosi with_gpio].
    do 2 f_equal. lia.
  - split; [exact Hj|]. unfold w2, w1, w0.
    cbn [mosi g_block_buf with_gpio with_ticks with_block_buf sent with_mosi].
    rewrite <- Hblock. split.
    + unfold start_token. change (CMD24 =? CMD24) with true. cbv iota.
      rewrite <- !app_assoc. cbn [app]. reflexivity.
    + split; [reflexivity|].
      unfold chip_select.
      cbn [gpio g_mmc_cfg with_gpio with_ticks with_block_buf sent with_mosi].
      apply set_pin_same.
Qed.

(** A write of three bytes at address 1024 on a card that accepts it. *)
Lemma mmc_write_aligned_short_witness :
  let w := attached (card_write_one 0xE5) in
  exists (j : nat) (w' : world),
    mmc_write 100 501 0 1024 [7; 8; 9] 3 w
    = Some (data_response_class
              (Z.land (rx w (length (mosi w) + 6 + 1 + 516)) 0x1f), w')
    /\ (1 <= j)%nat
    /\ mosi w'
       = mosi w ++ frame CMD24 (1024 / 512) ++ repeat 0xff 1
           ++ [0xff] ++ [0xFE]
           ++ (firstn (Z.to_nat 3) [7; 8; 9] ++ skipn (Z.to_nat 3) (g_block_buf w))
           ++ [0xff; 0xff] ++ [0xff]
           ++ repeat 0xff j
    /\ g_block_buf w'
       = firstn (Z.to_nat 3) [7; 8; 9] ++ skipn (Z.to_nat 3) (g_block_buf w)
    /\ chip_select w' = 1.
Proof.
  apply (mmc_write_aligned_short 100 501 1024 3 [7; 8; 9]
                                 (attached (card_write_one 0xE5)) 0).
  - lia.
  - vm_compute. reflexivity.
  - vm_compute. reflexivity.
  - lia.
  - reflexivity.
  - lia.
  - cbn [length]. lia.
  - reflexivity.
  - unfold answers. split; [lia|]. split; [intros i Hi; lia|].
    split; reflexivity.
Defined.

(** X18. A write inside one block is a read-modify-write.  For an address
    that is not a multiple of 512 and a length that ends within the same
    block, on a card that serves the read-ahead and accepts the write
    command, [mmc_write] first reads the block with CMD17, then writes it
    with CMD24 as one data block that holds the bytes read before the
    offset, the [len] bytes of the caller from the offset on, and the bytes
    read after them; the result is the classification of the token that
    answers this block.  Both waits are timed: the tick rate is at least
    100 per second, and the tick counter does not wrap before the 200ms of
    the first and the five seconds and one sleep of the second are over. *)
Theorem mmc_write_inside_block
        (tps : Z) (fuel : nat) (addr len : Z) (buf : list Z) (w : world)
        (k1 j1 k2 : nat) :
  100 <= tps ->
  5 * tps < Z.of_nat fuel ->
  no_wrap w (Z.quot tps 5 + (5 * tps + Z.quot tps 100)) ->
  0 <= addr < 2 ^ 32 ->
  0 < addr mod 512 ->
  1 <= len ->
  addr mod 512 + len <= 512 ->
  (Z.to_nat len <= length buf)%nat ->
  length (g_block_buf w) = 512%nat ->
  (j1 < fuel)%nat ->
  answers w (length (mosi w)) k1 0 ->
  token_after tps w (length (mosi w) + 6 + S k1) j1 ->
  answers w (length (mosi w) + 6 + S k1 + S j1 + 514) k2 0 ->
  let off := Z.to_nat (addr mod 512) in
  let d := (length (mosi w) + 6 + S k1 + S j1)%nat in
  let old := map (rx w) (seq d 512) in
  let block := firstn off old ++ firstn (Z.to_nat len) buf
                 ++ skipn (off + Z.to_nat len) old in
  exists (j2 : nat) (w' : world),
    mmc_write tps fuel 0 addr buf len w
    = Some (data_response_class
              (Z.land (rx w (d + 514 + 6 + S k2 + 516)) 0x1f), w')
    /\ (1 <= j2)%nat
    /\ mosi w'
       = mosi w ++ frame CMD17 (addr / 512) ++ repeat 0xff (S k1)
           ++ repeat 0xff (S j1) ++ repeat 0xff 512 ++ [0xff; 0xff]
           ++ frame CMD24 (addr / 512) ++ repeat 0xff (S k2)
           ++ [0xff] ++ [0xFE] ++ block ++ [0xff; 0xff] ++ [0xff]
           ++ repeat 0xff j2
    /\ g_block_buf w' = block
    /\ chip_select w' = 1.
Proof.
  intros Htps Hfuel Hw Haddr Hoff Hlen Hend Hb Hg Hj1 Hans1 Htok Hans2 off d old block.
  assert (Hq5 : 0 <= Z.quot tps 5) by (apply Z.quot_pos; lia).
  assert (Hq20 : 0 <= Z.quot tps 20) by (apply Z.quot_pos; lia).
  assert (Hq100 : 0 <= Z.quot tps 100) by (apply Z.quot_pos; lia).
  assert (Hoffr : 0 <= addr mod 512 < 512) by (apply Z.mod_pos_bound; lia).
  unfold mmc_write.
  rewrite (bind_run _ _ _ _ _ (cfg_dev_0 w)). cbv zeta.
  rewrite (bind_run _ _ _ _ _ (gpio_write_eq _ _ w)).
  rewrite (offset_of_mod addr Haddr).
  assert (Htr : truthy (addr mod 512) = true).
  { unfold truthy. destruct (Z.eqb_spec (addr mod 512) 0) as [E|E]; [lia|reflexivity]. }
  rewrite Htr. cbv iota.
  set (mmc := g_mmc_cfg w).
  set (w0 := with_gpio (set_pin (ss_pin mmc) 0 (gpio w)) w).
  assert (Hg0 : length (g_block_buf w0) = 512%nat) by exact Hg.
  assert (Hans0 : answers w0 (length (mosi w0)) k1 0) by exact Hans1.
  assert (Htok0 : token_after tps w0 (length (mosi w0) + 6 + S k1) j1) by exact Htok.
  assert (Hw0 : no_wrap w0 (Z.quot tps 5)).
  { apply (no_wrap_less w (Z.quot tps 5) (Z.quot tps 5 + (5 * tps + Z.quot tps 100)));
      [lia | exact Hw]. }
  rewrite (bind_run _ _ _ _ _
             (write_preread_hit tps fuel mmc (block_addr_of addr) w0 k1 j1
                                ltac:(lia) Hw0 Hg0 Hj1 Hans0 Htok0)).
  cbv iota. unfold write_transfer.
  rewrite (block_count_of_one len ltac:(lia)). change (1 =? 1) with true. cbv iota.
  change (length (mosi w0) + 6 + S k1 + S j1)%nat with d.
  change (rx w0) with (rx w). fold old.
  set (w1 := with_ticks _ (with_block_buf old _)).
  assert (Hlen1 : length (mosi w1) = (d + 514)%nat).
  { unfold w1, d, w0. cbn [mosi with_ticks with_block_buf with_gpio].
    rewrite mosi_sent, !length_app, !repeat_length.
    cbn [mosi with_gpio length frame]. lia. }
  assert (Hans1' : answers w1 (length (mosi w1)) k2 0)
    by (rewrite Hlen1; exact Hans2).
  rewrite (bind_run _ _ _ _ _
             (send_plain_cmd_hit mmc CMD24 (block_addr_of addr) w1 k2 0
                                 eq_refl Hans1')).
  change (negb (0 =? 0)) with false. cbv iota.
  rewrite (bind_run _ _ _ _ _ (tx_run _ _ _)). rewrite sent_sent.
  destruct fuel as [|fuel']; [lia|].
  set (w2 := sent w1 ((frame CMD24 (block_addr_of addr) ++ repeat 255 (S k2)) ++ [255])).
  assert (Hold : length old = 512%nat)
    by (unfold old; rewrite length_map, length_seq; reflexivity).
  assert (Hg2 : length (g_block_buf w2) = 512%nat) by exact Hold.
  pose proof (write_blocks_last fuel' mmc CMD24 buf off (Z.to_nat len) 0 w2 Hg2
                                ltac:(unfold off; lia) ltac:(unfold off; lia)
                                ltac:(lia)) as Hloop.
  unfold off in Hloop at 1. rewrite !Z2Nat.id in Hloop by lia.
  change (Z.of_nat 0) with 0 in Hloop.
  rewrite (bind_run _ _ _ _ _ Hloop). cbv zeta.
  change (g_block_buf w2) with old.
  assert (Hblock : memcpy old off buf 0 (Z.to_nat len) = block) by reflexivity.
  rewrite Hblock.
  set (w3 := with_block_buf block _).
  assert (Hw3 : no_wrap w3 (5 * tps + Z.quot tps 100)).
  { apply (no_wrap_later w w3 (Z.quot tps 5) (5 * tps + Z.quot tps 100));
      [lia | | exact Hw].
    change (ticks w3) with (ticks w + Z.of_nat j1 * Z.quot tps 20).
    destruct j1 as [|j1']; [cbn [Z.of_nat]; lia|].
    destruct Htok as [Hbefore _].
    destruct (Hbefore j1' ltac:(lia)) as [_ Hlt]. nia. }
  destruct (write_tail_run tps (S fuel') mmc
                           (write_status (rx w2 (length (mosi w2) + 515))) w3
                           Htps Hfuel Hw3) as (j2 & t & Htail & Hj2).
  rewrite Htail.
  exists j2. eexists. split.
  - rewrite write_status_class. do 4 f_equal.
    change (rx w2) with (rx w). f_equal.
    unfold w2. rewrite mosi_sent, !length_app, repeat_length, Hlen1.
    cbn [length frame]. lia.
  - split; [exact Hj2|]. unfold w3, w2, w1, w0.
    cbn [mosi g_block_buf with_gpio with_ticks with_block_buf sent with_mosi].
    split.
    + unfold start_token. change (CMD24 =? CMD24) with true. cbv iota.
      change (block_addr_of addr) with (addr / 512).
      rewrite <- !app_assoc. cbn [app]. reflexivity.
    + split; [reflexivity|].
      unfold chip_select.
      cbn [gpio g_mmc_cfg with_gpio with_ticks with_block_buf sent with_mosi].
      apply set_pin_same.
Qed.

(** A write of three bytes at address 1030. *)
Lemma mmc_write_inside_block_witness :
  let w := attached card_write_inside in
  let off := Z.to_nat (1030 mod 512) in
  let d := (length (mosi w) + 6 + 1 + 1)%nat in
  let old := map (rx w) (seq d 512) in
  let block := firstn off old ++ firstn (Z.to_nat 3) [7; 8; 9]
                 ++ skipn (off + Z.to_nat 3) old in
  exists (j2 : nat) (w' : world),
    mmc_write 100 501 0 1030 [7; 8; 9] 3 w
    = Some (data_response_class
              (Z.land (rx w (d + 514 + 6 + 1 + 516)) 0x1f), w')
    /\ (1 <= j2)%nat
    /\ mosi w'
       = mosi w ++ frame CMD17 (1030 / 512) ++ repeat 0xff 1
           ++ repeat 0xff 1 ++ repeat 0xff 512 ++ [0xff; 0xff]
           ++ frame CMD24 (1030 / 512) ++ repeat 0xff 1
           ++ [0xff] ++ [0xFE] ++ block ++ [0xff; 0xff] ++ [0xff]
           ++ repeat 0xff j2
    /\ g_block_buf w' = block
    /\ chip_select w' = 1.
Proof.
  apply (mmc_write_inside_block 100 501 1030 3 [7; 8; 9]
                                (attached card_write_inside) 0 0 0).
  - lia.
  - vm_compute. reflexivity.
  - vm_compute. reflexivity.
  - lia.
  - reflexivity.
  - lia.
  - vm_compute. discriminate.
  - cbn [length]. lia.
  - reflexivity.
  - lia.
  - unfold answers. split; [lia|]. split; [intros i Hi; lia|].
    split; reflexivity.
  - split; [intros i Hi; lia | reflexivity].
  - unfold answers. split; [lia|]. split; [intros i Hi; lia|].
    split; reflexivity.
Defined.

(** X19. A write of whole blocks stops at the first block the card does
    not accept.  For a block-aligned address and a length of [n] >= 1
    blocks, on a card that accepts the command, [mmc_write] sends CMD24 for
    one block and CMD25 for more, and then the blocks 0 to [m] of the
    caller's buffer, each as start token (0xFE after CMD24, 0xFC after
    CMD25), 512 bytes and three bytes 0xFF, where block [m] is the first
    whose data-response token has not the low bits 0b00101, or the last
    one.  Nothing follows the block but the bytes 0xFF of the busy wait: in
    particular no stop token closes a CMD25 transfer.  The result is the
    classification of the token of block [m], and it is not [MMC_OK] when
    blocks were left out.  The busy poll at the end is timed: the tick rate
    is at least 100 per second, and the tick counter does not wrap within
    the five seconds of its deadline and one sleep. *)
Theorem mmc_write_whole_blocks
        (tps : Z) (fuel : nat) (addr : Z) (n m : nat) (buf : list Z) (w : world)
        (k : nat) :
  100 <= tps ->
  5 * tps < Z.of_nat fuel ->
  no_wrap w (5 * tps + Z.quot tps 100) ->
  (m < fuel)%nat ->
  0 <= addr < 2 ^ 32 ->
  addr mod 512 = 0 ->
  Z.of_nat (512 * n) <= 2 ^ 32 - 512 ->
  (512 * n <= length buf)%nat ->
  length (g_block_buf w) = 512%nat ->
  answers w (length (mosi w)) k 0 ->
  stops_at w (length (mosi w) + 6 + S k + 1) n m ->
  let cmd := if (n =? 1)%nat then CMD24 else CMD25 in
  let res := data_response_class
               (Z.land (rx w (length (mosi w) + 6 + S k + 1 + 516 * m + 515)) 0x1f) in
  exists (j : nat) (w' : world),
    mmc_write tps fuel 0 addr buf (Z.of_nat (512 * n)) w = Some (res, w')
    /\ (1 <= j)%nat
    /\ mosi w'
       = mosi w ++ frame cmd (addr / 512) ++ repeat 0xff (S k) ++ [0xff]
           ++ flat_map (block_frame cmd buf 0) (seq 0 (S m))
           ++ repeat 0xff j
    /\ chip_select w' = 1
    /\ ((S m < n)%nat -> res <> MMC_OK).
Proof.
  intros Htps Hfuel Hw Hm Haddr Hal Hlen Hb Hg Hans Hstop cmd res.
  assert (Hn : (1 <= n)%nat) by (destruct Hstop as (H & _); lia).
  unfold mmc_write.
  rewrite (bind_run _ _ _ _ _ (cfg_dev_0 w)). cbv zeta.
  rewrite (bind_run _ _ _ _ _ (gpio_write_eq _ _ w)).
  rewrite (offset_of_mod addr Haddr), Hal.
  change (truthy 0) with false. cbv iota.
  rewrite (bind_run _ _ _ _ _ (ret_eq _ _)).
  unfold write_transfer.
  rewrite (block_count_of_whole n Hlen).
  assert (Hc1 : (Z.of_nat n =? 1) = (n =? 1)%nat).
  { destruct (Z.eqb_spec (Z.of_nat n) 1) as [E|E];
      destruct (Nat.eqb_spec n 1) as [E'|E']; try reflexivity; lia. }
  rewrite Hc1. fold cmd.
  assert (Hplain : truthy (Z.land cmd 0x80) = false)
    by (unfold cmd; destruct (n =? 1)%nat; reflexivity).
  set (mmc := g_mmc_cfg w).
  set (w0 := with_gpio (set_pin (ss_pin mmc) 0 (gpio w)) w).
  assert (Hans0 : answers w0 (length (mosi w0)) k 0) by exact Hans.
  rewrite (bind_run _ _ _ _ _
             (send_plain_cmd_hit mmc cmd (block_addr_of addr) w0 k 0
                                 Hplain Hans0)).
  change (negb (0 =? 0)) with false. cbv iota.
  rewrite (bind_run _ _ _ _ _ (tx_run _ _ _)). rewrite sent_sent.
  set (w1 := sent w0 ((frame cmd (block_addr_of addr) ++ repeat 255 (S k)) ++ [255])).
  assert (Hg1 : length (g_block_buf w1) = 512%nat) by exact Hg.
  assert (Hlen1 : length (mosi w1) = (length (mosi w) + 6 + S k + 1)%nat).
  { unfold w1, w0. rewrite mosi_sent, !length_app, repeat_length.
    cbn [mosi with_gpio length frame]. lia. }
  assert (Hstop1 : stops_at w1 (length (mosi w1)) n m)
    by (rewrite Hlen1; exact Hstop).
  pose proof (write_blocks_full mmc cmd buf m fuel n 0 w1 Hg1 Hm
                                ltac:(lia) ltac:(change (2 ^ 32) with 4294967296 in *; lia)
                                Hstop1) as Hloop.
  change (Z.of_nat 0) with 0 in Hloop.
  rewrite (bind_run _ _ _ _ _ Hloop). cbv zeta.
  set (w2 := with_block_buf _ _).
  assert (Hw2 : no_wrap w2 (5 * tps + Z.quot tps 100)) by exact Hw.
  destruct (write_tail_run tps fuel mmc
                           (write_status (rx w1 (length (mosi w1) + 516 * m + 515))) w2
                           Htps Hfuel Hw2) as (j & t & Htail & Hj).
  rewrite Htail.
  assert (Hres : write_status (rx w1 (length (mosi w1) + 516 * m + 515)) = res).
  { rewrite write_status_class, Hlen1. reflexivity. }
  exists j. eexists. split; [rewrite Hres; reflexivity|].
  split; [exact Hj|]. split; [|split].
  - unfold w2, w1, w0.
    cbn [mosi g_block_buf with_gpio with_ticks with_block_buf sent with_mosi].
    change (block_addr_of addr) with (addr / 512).
    rewrite <- !app_assoc. cbn [app]. reflexivity.
  - unfold chip_select.
    cbn [gpio g_mmc_cfg with_gpio with_ticks with_block_buf sent with_mosi].
    apply set_pin_same.
  - intros Hlt Hok. destruct Hstop as (_ & _ & Hrej).
    apply (Hrej Hlt). apply data_response_class_ok. exact Hok.
Qed.

(** Three blocks at address 1024: the card accepts the first and answers
    the second with a CRC error; the third is never sent. *)
Lemma mmc_write_whole_blocks_witness :
  let w := attached card_write_crc in
  let buf := repeat 0xAB 1536 in
  let cmd := if (3 =? 1)%nat then CMD24 else CMD25 in
  let res := data_response_class
               (Z.land (rx w (length (mosi w) + 6 + 1 + 1 + 516 * 1 + 515)) 0x1f) in
  exists (j : nat) (w' : world),
    mmc_write 100 501 0 1024 buf (Z.of_nat (512 * 3)) w = Some (res, w')
    /\ (1 <= j)%nat
    /\ mosi w'
       = mosi w ++ frame cmd (1024 / 512) ++ repeat 0xff 1 ++ [0xff]
           ++ flat_map (block_frame cmd buf 0) (seq 0 2)
           ++ repeat 0xff j
    /\ chip_select w' = 1
    /\ ((2 < 3)%nat -> res <> MMC_OK).
Proof.
  apply (mmc_write_whole_blocks 100 501 1024 3 1 (repeat 0xAB 1536)
                                (attached card_write_crc) 0).
  - lia.
  - vm_compute. reflexivity.
  - vm_compute. reflexivity.
  - lia.
  - lia.
  - reflexivity.
  - vm_compute. discriminate.
  - rewrite repeat_length. lia.
  - reflexivity.
  - unfold answers. split; [lia|]. split; [intros i Hi; lia|].
    split; reflexivity.
  - refine (conj _ (conj _ _)).
    + lia.
    + intros i Hi. assert (i = 0)%nat by lia. subst i. reflexivity.
    + intros _. vm_compute. discriminate.
Defined.

(** X20. A refused command ends [mmc_write] before any data.  The first
    command of [mmc_write] is the read-ahead CMD17 when the address is not
    a multiple of 512, and else the write command (CMD24 for one block,
    CMD25 for more).  When the card answers it with any non-zero status the
    call returns [MMC_CARD_ERROR] whatever the status says, with only this
    command frame and its poll on the wire, the scratch buffer as it was,
    no time slept and chip-select high. *)
Theorem mmc_write_command_refused
        (tps : Z) (fuel : nat) (addr len : Z) (buf : list Z) (w : world)
        (k : nat) (st : Z) :
  0 <= addr < 2 ^ 32 ->
  answers w (length (mosi w)) k st ->
  st <> 0 ->
  exists w',
    mmc_write tps fuel 0 addr buf len w = Some (MMC_CARD_ERROR, w')
    /\ mosi w' = mosi w
                   ++ frame (if negb (addr mod 512 =? 0) then CMD17
                             else if block_count_of len =? 1 then CMD24 else CMD25)
                            (addr / 512)
                   ++ repeat 0xff (S k)
    /\ g_block_buf w' = g_block_buf w
    /\ ticks w' = ticks w
    /\ chip_select w' = 1.
Proof.
  intros Haddr Hans Hst. unfold mmc_write.
  rewrite (bind_run _ _ _ _ _ (cfg_dev_0 w)). cbv zeta.
  rewrite (bind_run _ _ _ _ _ (gpio_write_eq _ _ w)).
  rewrite (offset_of_mod addr Haddr).
  change (truthy (addr mod 512)) with (negb (addr mod 512 =? 0)).
  set (mmc := g_mmc_cfg w).
  set (w0 := with_gpio (set_pin (ss_pin mmc) 0 (gpio w)) w).
  assert (Hans0 : answers w0 (length (mosi w0)) k st) by exact Hans.
  apply Z.eqb_neq in Hst.
  destruct (negb (addr mod 512 =? 0)).
  - assert (Hpre : write_preread tps fuel mmc (block_addr_of addr) w0
                   = Some (Some MMC_CARD_ERROR,
                           with_gpio (set_pin (ss_pin mmc) 1 (gpio w0))
                                     (sent w0 (frame CMD17 (block_addr_of addr)
                                                 ++ repeat 0xff (S k))))).
    { unfold write_preread.
      rewrite (bind_run _ _ _ _ _
                 (send_plain_cmd_hit mmc CMD17 (block_addr_of addr) w0 k st
                                     eq_refl Hans0)).
      rewrite Hst. cbn [negb].
      rewrite (bind_run _ _ _ _ _ (gpio_write_eq _ _ _)). reflexivity. }
    rewrite (bind_run _ _ _ _ _ Hpre). cbv iota.
    eexists. split; [reflexivity|].
    cbn [mosi g_block_buf ticks with_gpio sent with_mosi].
    split; [reflexivity|]. split; [reflexivity|]. split; [reflexivity|].
    unfold chip_select. cbn [gpio g_mmc_cfg with_gpio sent with_mosi].
    apply set_pin_same.
  - rewrite (bind_run _ _ _ _ _ (ret_eq _ _)).
    unfold write_transfer.
    set (cmd := if block_count_of len =? 1 then CMD24 else CMD25).
    assert (Hplain : truthy (Z.land cmd 0x80) = false)
      by (unfold cmd; destruct (_ =? 1); reflexivity).
    rewrite (bind_run _ _ _ _ _
               (send_plain_cmd_hit mmc cmd (block_addr_of addr) w0 k st
                                   Hplain Hans0)).
    rewrite Hst. cbn [negb].
    rewrite (bind_run _ _ _ _ _ (gpio_write_eq _ _ _)).
    eexists. split; [reflexivity|].
    cbn [mosi g_block_buf ticks with_gpio sent with_mosi].
    split; [reflexivity|]. split; [reflexivity|]. split; [reflexivity|].
    unfold chip_select. cbn [gpio g_mmc_cfg with_gpio sent with_mosi].
    apply set_pin_same.
Qed.

(** An unaligned write whose read-ahead the card answers with the
    illegal-command status 0x04. *)
Lemma mmc_write_command_refused_witness :
  exists w',
    mmc_write 100 501 0 1030 [7; 8; 9] 3 (attached (script (repeat 0xFF 6 ++ [0x04])))
    = Some (MMC_CARD_ERROR, w')
    /\ mosi w' = mosi (attached (script (repeat 0xFF 6 ++ [0x04])))
                   ++ frame (if negb (1030 mod 512 =? 0) then CMD17
                             else if block_count_of 3 =? 1 then CMD24 else CMD25)
                            (1030 / 512)
                   ++ repeat 0xff 1
    /\ g_block_buf w' = g_block_buf (attached (script (repeat 0xFF 6 ++ [0x04])))
    /\ ticks w' = ticks (attached (script (repeat 0xFF 6 ++ [0x04])))
    /\ chip_select w' = 1.
Proof.
  apply (mmc_write_command_refused
           100 501 1030 3 [7; 8; 9] (attached (script (repeat 0xFF 6 ++ [0x04]))) 0 0x04).
  - lia.
  - unfold answers. split; [lia|]. split; [intros i Hi; lia|]. split; reflexivity.
  - discriminate.
Defined.

(** X21. A read-ahead without start token ends [mmc_write] before the
    write.  When the address is not a multiple of 512, the card accepts
    CMD17 and the line then stays at 0xFF, [mmc_write] polls until the
    clock reaches the deadline 200ms after the start of the wait and
    returns [MMC_CARD_ERROR]: no write command and no data were sent, the
    scratch buffer is as it was and chip-select is high.  The tick rate
    must be at least 20 per second, the fuel cover the deadline, and the
    tick counter not wrap before the deadline and one sleep are over. *)
Theorem mmc_write_no_start_token
        (tps : Z) (fuel : nat) (addr len : Z) (buf : list Z) (w : world) (k : nat) :
  20 <= tps ->
  Z.quot tps 5 < Z.of_nat fuel ->
  no_wrap w (Z.quot tps 5 + Z.quot tps 20) ->
  0 <= addr < 2 ^ 32 ->
  addr mod 512 <> 0 ->
  answers w (length (mosi w)) k 0 ->
  (forall m, (length (mosi w) + 6 + S k <= m)%nat -> rx w m = 0xFF) ->
  exists (j : nat) (w' : world),
    mmc_write tps fuel 0 addr buf len w = Some (MMC_CARD_ERROR, w')
    /\ (1 <= j)%nat
    /\ mosi w' = mosi w ++ frame CMD17 (addr / 512) ++ repeat 0xff (S k)
                   ++ repeat 0xff j
    /\ g_block_buf w' = g_block_buf w
    /\ ticks w + Z.quot tps 5 <= ticks w'
    /\ chip_select w' = 1.
Proof.
  intros Htps Hf Hw Haddr Hoff Hans Hff. unfold mmc_write.
  rewrite (bind_run _ _ _ _ _ (cfg_dev_0 w)). cbv zeta.
  rewrite (bind_run _ _ _ _ _ (gpio_write_eq _ _ w)).
  rewrite (offset_of_mod addr Haddr).
  assert (Htr : truthy (addr mod 512) = true).
  { unfold truthy. apply Z.eqb_neq in Hoff. rewrite Hoff. reflexivity. }
  rewrite Htr. cbv iota.
  set (mmc := g_mmc_cfg w).
  set (w0 := with_gpio (set_pin (ss_pin mmc) 0 (gpio w)) w).
  assert (Hans0 : answers w0 (length (mosi w0)) k 0) by exact Hans.
  set (w1 := sent w0 (frame CMD17 (block_addr_of addr) ++ repeat 255 (S k))).
  assert (Hlen1 : length (mosi w1) = (length (mosi w) + 6 + S k)%nat).
  { unfold w1, w0. rewrite mosi_sent, !length_app, repeat_length.
    cbn [mosi with_gpio length frame]. lia. }
  assert (Hff1 : forall m, (length (mosi w1) <= m)%nat -> rx w1 m = 0xFF).
  { intros m Hm. rewrite Hlen1 in Hm. exact (Hff m Hm). }
  assert (Hw1 : no_wrap w1 (Z.quot tps 5 + Z.quot tps 20)) by exact Hw.
  destruct (wait_start_token_never tps fuel mmc w1 Htps Hf Hw1 Hff1)
    as (j & t & Hwait & Hj & Ht & _).
  assert (Hpre : write_preread tps fuel mmc (block_addr_of addr) w0
                 = Some (Some MMC_CARD_ERROR,
                         with_gpio (set_pin (ss_pin mmc) 1 (gpio w0))
                                   (with_ticks t (sent w1 (repeat 0xff j))))).
  { unfold write_preread.
    rewrite (bind_run _ _ _ _ _
               (send_plain_cmd_hit mmc CMD17 (block_addr_of addr) w0 k 0
                                   eq_refl Hans0)).
    change (negb (0 =? 0)) with false. cbv iota. fold w1.
    rewrite (bind_run _ _ _ _ _ Hwait).
    change (negb (255 =? 254)) with true. cbv iota.
    rewrite (bind_run _ _ _ _ _ (gpio_write_eq _ _ _)). reflexivity. }
  rewrite (bind_run _ _ _ _ _ Hpre). cbv iota.
  exists j. eexists. split; [reflexivity|]. split; [exact Hj|].
  unfold w1, w0.
  cbn [mosi g_block_buf ticks with_gpio with_ticks sent with_mosi].
  split; [rewrite <- !app_assoc; reflexivity|].
  split; [reflexivity|]. split; [exact Ht|].
  unfold chip_select. cbn [gpio g_mmc_cfg with_gpio with_ticks sent with_mosi].
  apply set_pin_same.
Qed.

(** The card accepts the read-ahead and then holds the line high. *)
Lemma mmc_write_no_start_token_witness :
  exists (j : nat) (w' : world),
    mmc_write 100 21 0 1030 [7; 8; 9] 3 (attached (script (repeat 0xFF 6 ++ [0x00])))
    = Some (MMC_CARD_ERROR, w')
    /\ (1 <= j)%nat
    /\ mosi w' = mosi (attached (script (repeat 0xFF 6 ++ [0x00])))
                   ++ frame CMD17 (1030 / 512) ++ repeat 0xff 1
                   ++ repeat 0xff j
    /\ g_block_buf w' = g_block_buf (attached (script (repeat 0xFF 6 ++ [0x00])))
    /\ ticks (attached (script (repeat 0xFF 6 ++ [0x00]))) + Z.quot 100 5 <= ticks w'
    /\ chip_select w' = 1.
Proof.
  apply (mmc_write_no_start_token 100 21 1030 3 [7; 8; 9]
                                  (attached (script (repeat 0xFF 6 ++ [0x00]))) 0).
  - lia.
  - vm_compute. reflexivity.
  - vm_compute. reflexivity.
  - lia.
  - vm_compute. discriminate.
  - unfold answers. split; [lia|]. split; [intros i Hi; lia|]. split; reflexivity.
  - intros m Hm. unfold rx, script. cbn [miso mosi attached with_gpio with_cfg
                                            power_up length] in *.
    rewrite nth_overflow; [reflexivity|].
    rewrite length_app, repeat_length. cbn [length]. lia.
Defined.

(** X22. How long [mmc_init] negotiates.  On a Ver2.00 card that passes
    the CMD8 check, answers every command of the negotiation at the first
    poll, and reports idle to ACMD41 [r] times before it answers [st] with
    the idle flag clear, with the first [r] answers no later than the one
    second deadline, the tick counter not wrapping before that deadline:
    [mmc_init] sends exactly [r + 1] rounds of CMD55 and
    ACMD41 (with the HCS bit in the argument), sleeps 100ms after each idle
    answer and so 10ms + r * 100ms in all, and returns the classification
    of [st]: success for 0, after the OCR query CMD58 and its four payload
    bytes, and an error without the query for any other status. *)
Theorem mmc_init_negotiation
        (tps : Z) (fuel : nat) (n c p : Z) (w : world) (k0 k8 r : nat) (st8 st : Z) :
  spi_init_rc w = 0 ->
  spi_config_rc w = 0 ->
  answers w (length (mosi w) + 75) k0 R_IDLE ->
  answers w (length (mosi w) + 75 + 6 + S k0) k8 st8 ->
  Z.land st8 R_ILLEGAL_COMMAND = 0 ->
  rx w (length (mosi w) + 75 + 6 + S k0 + 6 + S k8 + 2) = 0x01 ->
  rx w (length (mosi w) + 75 + 6 + S k0 + 6 + S k8 + 3) = 0xAA ->
  leaves_idle_after w (length (mosi w) + 75 + 6 + S k0 + 6 + S k8 + 4) r st ->
  (forall i, (i < r)%nat -> Z.of_nat i * Z.quot tps 10 <= tps) ->
  (r < fuel)%nat ->
  0 <= tps ->
  no_wrap w (Z.quot tps 100 + tps) ->
  exists (k58 : nat) (w' : world),
    mmc_init tps fuel n c p w = Some (mmc_error_by_status st, w')
    /\ (1 <= k58 <= 255)%nat
    /\ mosi w'
       = mosi w ++ repeat 0xff 75
           ++ frame CMD0 0 ++ repeat 0xff (S k0)
           ++ frame CMD8 0x1AA ++ repeat 0xff (S k8) ++ repeat 0xff 4
           ++ concat (repeat op_cond_round (S r))
           ++ (if st =? 0 then frame CMD58 0 ++ repeat 0xff k58 ++ repeat 0xff 4
               else [])
    /\ ticks w' = ticks w + Z.quot tps 100 + Z.of_nat r * Z.quot tps 10
    /\ chip_select w' = 1.
Proof.
  intros Hi Hc Hans0 Hans8 Hleg Hvolt Hpat Hidle Ht Hf Htps Hw.
  assert (Hq100 : 0 <= Z.quot tps 100) by (apply Z.quot_pos; lia).
  assert (Hq10 : 0 <= Z.quot tps 10) by (apply Z.quot_pos; lia).
  set (mmc := mk_cfg n p c (Some mmc_settings)).
  set (w3 := init_negotiated_world tps n c p w k0 k8).
  assert (Hlen3 : length (mosi w3)
                  = (length (mosi w) + 75 + 6 + S k0 + 6 + S k8 + 4)%nat).
  { unfold w3, init_negotiated_world, init_prologue_world.
    rewrite !mosi_sent, !length_app, !repeat_length.
    cbn [mosi with_gpio with_ticks with_cfg length frame]. lia. }
  assert (Hidle3 : leaves_idle_after w3 (length (mosi w3)) r st)
    by (rewrite Hlen3; exact Hidle).
  assert (Hw3 : no_wrap w3 tps).
  { apply (no_wrap_later w w3 (Z.quot tps 100) tps); [lia | | exact Hw].
    change (ticks w3) with (ticks w + Z.quot tps 100). lia. }
  assert (Hdead : os_time_t (os_time_t (ticks w + Z.quot tps 100) + tps)
                  = os_time_t (ticks w3) + tps).
  { change (ticks w + Z.quot tps 100) with (ticks w3).
    apply deadline_no_wrap; [lia | exact Hw3]. }
  assert (Ht3 : forall i, (i < r)%nat ->
                          os_time_t (ticks w3 + Z.of_nat i * Z.quot tps 10)
                          <= os_time_t (ticks w3) + tps).
  { intros i Hi'. pose proof (Ht i Hi'). unfold no_wrap in Hw3.
    rewrite os_time_t_add; [lia | apply Z.mul_nonneg_nonneg; lia | lia]. }
  pose proof (wait_op_cond_ready tps mmc (os_time_t (ticks w3) + tps) st
                                 r fuel w3 Hf Hidle3 Ht3) as Hwait.
  rewrite <- Hdead in Hwait.
  destruct (mmc_init_v2_after_wait tps fuel n c p w k0 k8 st8 st _
                                   Hi Hc Hans0 Hans8 Hleg Hvolt Hpat Hwait)
    as (k58 & Hk58 & Hrun).
  exists k58. eexists. split; [exact Hrun|]. split; [exact Hk58|].
  split; [|split].
  - unfold w3, init_negotiated_world, init_prologue_world.
    cbn [mosi with_gpio with_ticks with_cfg sent with_mosi].
    rewrite <- !app_assoc. reflexivity.
  - reflexivity.
  - unfold chip_select. unfold w3, init_negotiated_world, init_prologue_world.
    cbn [gpio g_mmc_cfg ss_pin with_gpio with_ticks with_cfg sent with_mosi].
    apply set_pin_same.
Qed.

(** The simulated Ver2.00 card, which leaves the idle state at the third
    ACMD41. *)
Lemma mmc_init_negotiation_witness :
  exists (k58 : nat) (w' : world),
    mmc_init 1000 8 0 0 4 (power_up (card_v2 0xC0)) = Some (mmc_error_by_status 0, w')
    /\ (1 <= k58 <= 255)%nat
    /\ mosi w'
       = mosi (power_up (card_v2 0xC0)) ++ repeat 0xff 75
           ++ frame CMD0 0 ++ repeat 0xff 1
           ++ frame CMD8 0x1AA ++ repeat 0xff 1 ++ repeat 0xff 4
           ++ concat (repeat op_cond_round 3)
           ++ (if 0 =? 0 then frame CMD58 0 ++ repeat 0xff k58 ++ repeat 0xff 4
               else [])
    /\ ticks w' = ticks (power_up (card_v2 0xC0)) + Z.quot 1000 100
                  + Z.of_nat 2 * Z.quot 1000 10
    /\ chip_select w' = 1.
Proof.
  apply (mmc_init_negotiation 1000 8 0 0 4 (power_up (card_v2 0xC0)) 0 0 2 0x01 0).
  - reflexivity.
  - reflexivity.
  - unfold answers. split; [lia|]. split; [intros i Hi; lia|]. split; reflexivity.
  - unfold answers. split; [lia|]. split; [intros i Hi; lia|]. split; reflexivity.
  - reflexivity.
  - reflexivity.
  - reflexivity.
  - refine (conj _ (conj _ (conj _ (conj _ _)))).
    + intros i Hi.
      destruct i as [|[|[|i]]]; [reflexivity | reflexivity | reflexivity | lia].
    + intros i Hi.
      destruct i as [|[|i]]; [split; [reflexivity | discriminate]
                             | split; [reflexivity | discriminate] | lia].
    + reflexivity.
    + reflexivity.
    + reflexivity.
  - intros i Hi. destruct i as [|[|i]]; [vm_compute; discriminate
                                        | vm_compute; discriminate | lia].
  - lia.
  - lia.
  - vm_compute. reflexivity.
Defined.
